(** * Astrosee: seeing-score engine and observation-window search

    A shallow embedding of the scoring core of the repository
    ([core/utils.py], [weather/models.py], [scoring/components.py],
    [scoring/engine.py]) and of its two window finders
    ([services/forecast.py], [services/timelapse.py]).

    Conventions of the embedding:
    - a Python [float] is an exact rational ([Q]); comparisons are the
      boolean tests the source writes, results are compared with [==];
    - an optional field ([float | None]) is an [option Q];
    - a [dict] is an association list in insertion order, the order in
      which Python iterates it;
    - a [datetime] is a number of seconds ([Z]), counted from
      1970-01-01T00:00:00 where the range of [datetime] matters;
      [timedelta(hours=2)] is 7200 seconds;
    - a raised exception is the [Raise] of a [result]. *)

From Stdlib Require Import QArith Qround Qabs Lqa ZArith List Bool String Lia.
Import ListNotations.
Open Scope Q_scope.

(** ** Python comparison and built-ins on floats *)

Definition Qleb (a b : Q) : bool := Qle_bool a b.
Definition Qltb (a b : Q) : bool := negb (Qle_bool b a).
Definition Qgeb (a b : Q) : bool := Qle_bool b a.
Definition Qgtb (a b : Q) : bool := negb (Qle_bool a b).

(** [max(a, b)] keeps its first argument unless the second is larger;
    [min(a, b)] keeps its first argument unless the second is smaller. *)
Definition py_max (a b : Q) : Q := if Qgtb b a then b else a.
Definition py_min (a b : Q) : Q := if Qltb b a then b else a.

(** [round(x, 1)]: nearest multiple of 1/10, ties to the even one. *)
Definition round_half_even (y : Q) : Z :=
  let f := Qfloor y in
  let frac := y - inject_Z f in
  if Qltb frac (1#2) then f
  else if Qltb (1#2) frac then (f + 1)%Z
  else if Z.even f then f else (f + 1)%Z.

Definition round1 (x : Q) : Q := inject_Z (round_half_even (x * 10)) / 10.

(** ** core/utils.py *)

Definition clamp (value min_val max_val : Q) : Q :=
  py_max min_val (py_min max_val value).

Definition linear_interpolate (value in_min in_max out_min out_max : Q) : Q :=
  if Qeq_bool in_max in_min then out_min
  else
    let ratio := (value - in_min) / (in_max - in_min) in
    out_min + ratio * (out_max - out_min).

(** ** Dictionaries with string keys *)

Definition dict (V : Type) : Type := list (string * V).

Fixpoint dict_get {V : Type} (k : string) (d : dict V) : option V :=
  match d with
  | [] => None
  | (k', v) :: rest => if String.eqb k k' then Some v else dict_get k rest
  end.

Definition dict_values {V : Type} (d : dict V) : list V := map snd d.
Definition dict_keys {V : Type} (d : dict V) : list string := map fst d.

(** [sum(xs)] starts from 0 and adds from the left. *)
Definition py_sum (xs : list Q) : Q := fold_left Qplus xs 0.

(** ** weather/models.py *)

Record WeatherData : Type := {
  timestamp : Z;
  temperature : Q;
  temperature_850hpa : option Q;
  dew_point : Q;
  wind_speed_10m : Q;
  wind_speed_80m : option Q;
  wind_gusts : Q;
  wind_direction : Q;
  humidity : Q;
  cloud_cover : Q;
  cloud_cover_low : option Q;
  cloud_cover_mid : option Q;
  cloud_cover_high : option Q;
  pressure : Q;
  jet_stream_speed : option Q;
  precipitation : Q;
  precipitation_probability : option Q;
  visibility : option Q
}.

Definition temperature_differential (w : WeatherData) : Q :=
  temperature w - dew_point w.

Definition wind_shear (w : WeatherData) : option Q :=
  match wind_speed_80m w with
  | Some w80 => Some (Qabs (w80 - wind_speed_10m w))
  | None => None
  end.

(** The field constraints [ge=0, le=100] of the model. *)
Definition in_percent (x : Q) : Prop := 0 <= x /\ x <= 100.

Definition opt_in_percent (x : option Q) : Prop :=
  match x with Some v => in_percent v | None => True end.

Definition valid_weather (w : WeatherData) : Prop :=
  in_percent (humidity w) /\ in_percent (cloud_cover w) /\
  opt_in_percent (cloud_cover_low w) /\ opt_in_percent (cloud_cover_mid w) /\
  opt_in_percent (cloud_cover_high w) /\
  opt_in_percent (precipitation_probability w).

(** ** scoring/components.py *)

Definition calculate_temperature_differential_score (weather : WeatherData) : Q :=
  let diff := temperature_differential weather in
  if Qgeb diff 15 then 100
  else if Qgeb diff 10 then linear_interpolate diff 10 15 90 100
  else if Qgeb diff 5 then linear_interpolate diff 5 10 70 90
  else if Qgeb diff 2 then linear_interpolate diff 2 5 40 70
  else linear_interpolate diff 0 2 10 40.

Definition wind_base_score (wind_speed : Q) : Q :=
  if Qleb wind_speed 2 then 100
  else if Qleb wind_speed 5 then linear_interpolate wind_speed 2 5 80 100
  else if Qleb wind_speed 10 then linear_interpolate wind_speed 5 10 50 80
  else py_max 10 (linear_interpolate wind_speed 10 20 20 50).

Definition calculate_wind_stability_score (weather : WeatherData) : Q :=
  let wind_speed := wind_speed_10m weather in
  let gusts := wind_gusts weather in
  let gust_ratio := gusts / py_max wind_speed 0.1 in
  let wind_score := wind_base_score wind_speed in
  let wind_score :=
    if Qgtb gust_ratio 2
    then wind_score - linear_interpolate gust_ratio 2 4 0 30
    else wind_score in
  let wind_score :=
    match wind_shear weather with
    | Some shear =>
        if Qgtb shear 5
        then wind_score - linear_interpolate shear 5 15 0 20
        else wind_score
    | None => wind_score
    end in
  clamp wind_score 0 100.

Definition calculate_humidity_score (weather : WeatherData) : Q :=
  let humidity := humidity weather in
  if Qleb humidity 30 then 100
  else if Qleb humidity 50 then linear_interpolate humidity 30 50 85 100
  else if Qleb humidity 70 then linear_interpolate humidity 50 70 60 85
  else if Qleb humidity 85 then linear_interpolate humidity 70 85 35 60
  else if Qleb humidity 95 then linear_interpolate humidity 85 95 15 35
  else linear_interpolate humidity 95 100 0 15.

Definition cloud_base_score (total_cloud : Q) : Q :=
  if Qleb total_cloud 5 then 100
  else if Qleb total_cloud 20 then linear_interpolate total_cloud 5 20 85 100
  else if Qleb total_cloud 50 then linear_interpolate total_cloud 20 50 50 85
  else if Qleb total_cloud 80 then linear_interpolate total_cloud 50 80 20 50
  else linear_interpolate total_cloud 80 100 0 20.

Definition calculate_cloud_cover_score (weather : WeatherData) : Q :=
  let base_score := cloud_base_score (cloud_cover weather) in
  let base_score :=
    match cloud_cover_low weather, cloud_cover_high weather with
    | Some low_cloud, Some high_cloud =>
        if Qgtb high_cloud (low_cloud * 2) then
          let bonus := py_min 10 ((high_cloud - low_cloud) * 0.2) in
          py_min 100 (base_score + bonus)
        else if Qgtb low_cloud (high_cloud * 2) then
          let penalty := py_min 15 ((low_cloud - high_cloud) * 0.3) in
          py_max 0 (base_score - penalty)
        else base_score
    | _, _ => base_score
    end in
  clamp base_score 0 100.

Definition calculate_jet_stream_score (weather : WeatherData) : Q :=
  match jet_stream_speed weather with
  | None => 75
  | Some jet_speed =>
      if Qleb jet_speed 15 then 100
      else if Qleb jet_speed 30 then linear_interpolate jet_speed 15 30 85 100
      else if Qleb jet_speed 45 then linear_interpolate jet_speed 30 45 60 85
      else if Qleb jet_speed 60 then linear_interpolate jet_speed 45 60 35 60
      else linear_interpolate jet_speed 60 100 10 35
  end.

Definition calculate_moon_penalty (illumination moon_altitude : Q) (is_deep_sky : bool) : Q :=
  if Qleb moon_altitude 0 then 1
  else if negb is_deep_sky then 1
  else
    let altitude_factor := py_min 1 (moon_altitude / 45) in
    let illumination_factor := illumination / 100 in
    let penalty_strength := altitude_factor * illumination_factor in
    1 - penalty_strength * 0.5.

Definition calculate_airmass_penalty (airmass : Q) : Q :=
  if Qleb airmass 1.2 then 1
  else if Qleb airmass 1.5 then linear_interpolate airmass 1.2 1.5 0.95 1
  else if Qleb airmass 2 then linear_interpolate airmass 1.5 2 0.85 0.95
  else if Qleb airmass 3 then linear_interpolate airmass 2 3 0.65 0.85
  else linear_interpolate airmass 3 5 0.5 0.65.

Definition calculate_precipitation_penalty (weather : WeatherData) : Q :=
  if Qgtb (precipitation weather) 0 then 0.1
  else
    let prob := match precipitation_probability weather with
                | Some p => p
                | None => 0
                end in
    if Qgtb prob 80 then 0.3
    else if Qgtb prob 50 then linear_interpolate prob 50 80 0.6 0.3
    else if Qgtb prob 20 then linear_interpolate prob 20 50 0.9 0.6
    else 1.

(** ** Exceptions *)

Inductive exn : Type :=
| KeyError
| ZeroDivisionError
| ValidationError
| StatisticsError.

Inductive result (A : Type) : Type :=
| Ok (a : A)
| Raise (e : exn).

Arguments Ok {A} a.
Arguments Raise {A} e.

Definition bind {A B : Type} (c : result A) (k : A -> result B) : result B :=
  match c with
  | Ok a => k a
  | Raise e => Raise e
  end.

Notation "x <- c ;; k" := (bind c (fun x => k))
  (at level 61, c at next level, right associativity).

(** [d[k]]: a missing key raises [KeyError]. *)
Definition dict_index {V : Type} (d : dict V) (k : string) : result V :=
  match dict_get k d with
  | Some v => Ok v
  | None => Raise KeyError
  end.

(** [d[k] = v]: an existing key keeps its place, a new one goes last. *)
Fixpoint dict_set {V : Type} (d : dict V) (k : string) (v : V) : dict V :=
  match d with
  | [] => [(k, v)]
  | (k', v') :: rest =>
      if String.eqb k k' then (k', v) :: rest else (k', v') :: dict_set rest k v
  end.

(** ** scoring/models.py and scoring/engine.py *)

Record SeeingScore : Type := {
  total_score : Q;
  component_scores : dict Q;
  penalties : dict Q;
  score_timestamp : Z
}.

(** The model's constructor validates [total_score] against [ge=0, le=100]. *)
Definition SeeingScore_new (total : Q) (components penalties : dict Q) (ts : Z)
  : result SeeingScore :=
  if Qgeb total 0 && Qleb total 100
  then Ok {| total_score := total; component_scores := components;
             penalties := penalties; score_timestamp := ts |}
  else Raise ValidationError.

Definition DEFAULT_WEIGHTS : dict Q :=
  [ ("temperature_differential"%string, 0.25);
    ("wind_stability"%string, 0.30);
    ("humidity"%string, 0.15);
    ("cloud_cover"%string, 0.20);
    ("jet_stream"%string, 0.10) ].

Record ScoringEngine : Type := { weights : dict Q }.

(** [for key in self.weights: self.weights[key] /= total] *)
Definition normalize_weights (w : dict Q) (total : Q) : dict Q :=
  map (fun kv => (fst kv, snd kv / total)) w.

(** [ScoringEngine.__init__]: [None] and the empty dict are both falsy in
    [weights or self.DEFAULT_WEIGHTS.copy()]; dividing by a zero total
    raises. *)
Definition given_or_default (given : option (dict Q)) : dict Q :=
  match given with
  | Some (kv :: rest) => kv :: rest
  | _ => DEFAULT_WEIGHTS
  end.

Definition ScoringEngine_init (given : option (dict Q)) : result ScoringEngine :=
  let w := given_or_default given in
  let total := py_sum (dict_values w) in
  if Qgtb (Qabs (total - 1)) 0.01 then
    if Qeq_bool total 0 then Raise ZeroDivisionError
    else Ok {| weights := normalize_weights w total |}
  else Ok {| weights := w |}.

Definition score_components (weather : WeatherData) : dict Q :=
  [ ("temperature_differential"%string, calculate_temperature_differential_score weather);
    ("wind_stability"%string, calculate_wind_stability_score weather);
    ("humidity"%string, calculate_humidity_score weather);
    ("cloud_cover"%string, calculate_cloud_cover_score weather);
    ("jet_stream"%string, calculate_jet_stream_score weather) ].

(** The generator [components[key] * self.weights[key] for key in components]. *)
Fixpoint weighted_terms (components ws : dict Q) : result (list Q) :=
  match components with
  | [] => Ok []
  | (key, c) :: rest =>
      w <- dict_index ws key ;;
      ts <- weighted_terms rest ws ;;
      Ok (c * w :: ts)
  end.

(** The penalty map of [calculate_score], filled in the order moon,
    airmass, precipitation; only multipliers below 1.0 are stored. *)
Definition score_penalties (weather : WeatherData)
    (moon_illumination moon_altitude : Q) (airmass : option Q)
    (is_deep_sky : bool) : dict Q :=
  let penalties : dict Q := [] in
  let moon_penalty :=
    calculate_moon_penalty moon_illumination moon_altitude is_deep_sky in
  let penalties :=
    if Qltb moon_penalty 1 then dict_set penalties "moon" moon_penalty
    else penalties in
  let penalties :=
    match airmass with
    | Some a =>
        let airmass_penalty := calculate_airmass_penalty a in
        if Qltb airmass_penalty 1 then dict_set penalties "airmass" airmass_penalty
        else penalties
    | None => penalties
    end in
  let precip_penalty := calculate_precipitation_penalty weather in
  if Qltb precip_penalty 1 then dict_set penalties "precipitation" precip_penalty
  else penalties.

Definition calculate_score (self : ScoringEngine) (weather : WeatherData)
    (moon_illumination moon_altitude : Q) (airmass : option Q)
    (is_deep_sky : bool) : result SeeingScore :=
  let components := score_components weather in
  terms <- weighted_terms components (weights self) ;;
  let base_score := py_sum terms in
  let penalties :=
    score_penalties weather moon_illumination moon_altitude airmass is_deep_sky in
  let final_score := fold_left Qmult (dict_values penalties) base_score in
  let final_score := py_max 0 (py_min 100 final_score) in
  SeeingScore_new (round1 final_score) components penalties (timestamp weather).

(** The arguments of one [calculate_score] call. *)
Record ScoreCall : Type := {
  call_weather : WeatherData;
  call_moon_illumination : Q;
  call_moon_altitude : Q;
  call_airmass : option Q;
  call_is_deep_sky : bool
}.

(** [calculate_score] as the method it is: it reads [self.weights] and
    has no assignment to [self] or to an entry of [self.weights], so the
    engine it leaves behind is the engine it was called on, whether it
    returns or raises. *)
Definition calculate_score_method (self : ScoringEngine) (c : ScoreCall)
  : ScoringEngine * result SeeingScore :=
  (self,
   calculate_score self (call_weather c) (call_moon_illumination c)
     (call_moon_altitude c) (call_airmass c) (call_is_deep_sky c)).

(** The engine after a sequence of [calculate_score] calls. *)
Definition engine_after (self : ScoringEngine) (calls : list ScoreCall)
  : ScoringEngine :=
  fold_left (fun eng c => fst (calculate_score_method eng c)) calls self.

(** ** services/forecast.py *)

Record SeeingForecast : Type := {
  sf_timestamp : Z;
  sf_score : SeeingScore;
  sf_weather : WeatherData;
  sf_moon_illumination : Q;
  sf_moon_altitude : Q;
  sf_is_night : bool
}.

Record ObservingWindow : Type := {
  ow_start : Z;
  ow_end : Z;
  ow_average_score : Q;
  ow_peak_score : Q;
  ow_peak_time : Z;
  ow_forecasts : list SeeingForecast
}.

Definition two_hours : Z := 7200.

(** [statistics.mean]: undefined on an empty list. *)
Definition mean (xs : list Q) : result Q :=
  match xs with
  | [] => Raise StatisticsError
  | _ => Ok (py_sum xs / inject_Z (Z.of_nat (List.length xs)))
  end.

(** [max(x, *xs)] and the entry at the first position holding it. *)
Definition list_max (x : Q) (xs : list Q) : Q := fold_left py_max xs x.

Fixpoint first_with (peak : Q) (fs : list SeeingForecast) (dflt : Z) : Z :=
  match fs with
  | [] => dflt
  | f :: rest =>
      if Qeq_bool (total_score (sf_score f)) peak then sf_timestamp f
      else first_with peak rest dflt
  end.

Definition _create_window (forecasts : list SeeingForecast) : result ObservingWindow :=
  let scores := map (fun f => total_score (sf_score f)) forecasts in
  avg_score <- mean scores ;;
  match forecasts with
  | [] => Raise StatisticsError
  | f0 :: rest =>
      let peak_score := list_max (total_score (sf_score f0)) (tl scores) in
      Ok {| ow_start := sf_timestamp f0;
            ow_end := sf_timestamp (last forecasts f0);
            ow_average_score := avg_score;
            ow_peak_score := peak_score;
            ow_peak_time := first_with peak_score forecasts (sf_timestamp f0);
            ow_forecasts := forecasts |}
  end.

(** The [for] loop of [_find_contiguous_windows], carrying [windows] and
    [current_window]. *)
Fixpoint contiguous_loop (min_hours : Z) (forecasts : list SeeingForecast)
    (windows : list ObservingWindow) (current_window : list SeeingForecast)
  : result (list ObservingWindow * list SeeingForecast) :=
  match forecasts with
  | [] => Ok (windows, current_window)
  | f :: rest =>
      match current_window with
      | [] => contiguous_loop min_hours rest windows (current_window ++ [f])
      | c0 :: _ =>
          let time_diff := (sf_timestamp f - sf_timestamp (last current_window c0))%Z in
          if (time_diff <=? two_hours)%Z then
            contiguous_loop min_hours rest windows (current_window ++ [f])
          else if (Z.of_nat (List.length current_window) >=? min_hours)%Z then
            w <- _create_window current_window ;;
            contiguous_loop min_hours rest (windows ++ [w]) [f]
          else contiguous_loop min_hours rest windows [f]
      end
  end.

(** The check after the loop ("Don't forget the last window"). *)
Definition close_last_window (min_hours : Z)
    (st : list ObservingWindow * list SeeingForecast) : result (list ObservingWindow) :=
  let '(windows, current_window) := st in
  if (Z.of_nat (List.length current_window) >=? min_hours)%Z then
    w <- _create_window current_window ;;
    Ok (windows ++ [w])
  else Ok windows.

Definition _find_contiguous_windows (forecasts : list SeeingForecast)
    (min_hours : Z) : result (list ObservingWindow) :=
  match forecasts with
  | [] => Ok []
  | _ =>
      st <- contiguous_loop min_hours forecasts [] [] ;;
      close_last_window min_hours st
  end.

(** [max(windows, key=lambda w: w.average_score)]: the first window whose
    average no later one exceeds. *)
Definition best_of (w0 : ObservingWindow) (ws : list ObservingWindow) : ObservingWindow :=
  fold_left
    (fun best w => if Qgtb (ow_average_score w) (ow_average_score best) then w else best)
    ws w0.

(** [find_best_window], after the forecast has been fetched. *)
Definition find_best_window (forecasts : list SeeingForecast)
    (min_score : Q) (min_duration_hours : Z) : result (option ObservingWindow) :=
  match forecasts with
  | [] => Ok None
  | _ =>
      let suitable :=
        filter (fun f => sf_is_night f && Qgeb (total_score (sf_score f)) min_score)
               forecasts in
      if (Z.of_nat (List.length suitable) <? min_duration_hours)%Z then Ok None
      else
        windows <- _find_contiguous_windows suitable min_duration_hours ;;
        match windows with
        | [] => Ok None
        | w0 :: ws => Ok (Some (best_of w0 ws))
        end
  end.

(** ** services/timelapse.py *)

(** One entry of [visibility_data]: the dict with keys ["forecast"],
    ["altitude"], ["azimuth"] and ["is_visible"]. *)
Record VisEntry : Type := {
  v_forecast : SeeingForecast;
  v_altitude : Q;
  v_azimuth : Q;
  v_is_visible : bool
}.

Definition v_time (v : VisEntry) : Z := sf_timestamp (v_forecast v).

Definition _window_duration_hours (window_data : list VisEntry) : Q :=
  match window_data with
  | [] => 1
  | [_] => 1
  | v0 :: _ => inject_Z (v_time (last window_data v0) - v_time v0) / 3600
  end.

Definition is_suitable (min_altitude min_score : Q) (v : VisEntry) : bool :=
  sf_is_night (v_forecast v)
  && Qgeb (v_altitude v) min_altitude
  && Qgeb (total_score (sf_score (v_forecast v))) min_score.

Definition nonempty {A : Type} (l : list A) : bool :=
  match l with [] => false | _ => true end.

(** The [for] loop of [_find_altitude_windows]. *)
Fixpoint altitude_loop (min_altitude min_duration_hours min_score : Q)
    (visibility_data : list VisEntry)
    (windows : list (list VisEntry)) (current_window : list VisEntry)
  : list (list VisEntry) * list VisEntry :=
  match visibility_data with
  | [] => (windows, current_window)
  | v :: rest =>
      if is_suitable min_altitude min_score v then
        match current_window with
        | [] =>
            altitude_loop min_altitude min_duration_hours min_score rest
              windows (current_window ++ [v])
        | c0 :: _ =>
            let time_diff := (v_time v - v_time (last current_window c0))%Z in
            if (time_diff <=? two_hours)%Z then
              altitude_loop min_altitude min_duration_hours min_score rest
                windows (current_window ++ [v])
            else if Qgeb (_window_duration_hours current_window) min_duration_hours then
              altitude_loop min_altitude min_duration_hours min_score rest
                (windows ++ [current_window]) [v]
            else
              altitude_loop min_altitude min_duration_hours min_score rest
                windows [v]
        end
      else if nonempty current_window
              && Qgeb (_window_duration_hours current_window) min_duration_hours then
        altitude_loop min_altitude min_duration_hours min_score rest
          (windows ++ [current_window]) []
      else
        altitude_loop min_altitude min_duration_hours min_score rest windows []
  end.

(** The check after the loop ("Don't forget last window"). *)
Definition close_last_altitude_window (min_duration_hours : Q)
    (st : list (list VisEntry) * list VisEntry) : list (list VisEntry) :=
  let '(windows, current_window) := st in
  if nonempty current_window
     && Qgeb (_window_duration_hours current_window) min_duration_hours
  then windows ++ [current_window]
  else windows.

Definition _find_altitude_windows (visibility_data : list VisEntry)
    (min_altitude min_duration_hours min_score : Q) : list (list VisEntry) :=
  close_last_altitude_window min_duration_hours
    (altitude_loop min_altitude min_duration_hours min_score visibility_data [] []).

(** [list.sort(key=..., reverse=True)]: stable, largest key first. *)
Fixpoint insert_desc {A : Type} (key : A -> Q) (x : A) (sorted : list A) : list A :=
  match sorted with
  | [] => [x]
  | y :: rest =>
      if Qgtb (key y) (key x) then y :: insert_desc key x rest
      else x :: y :: rest
  end.

Definition sort_desc {A : Type} (key : A -> Q) (l : list A) : list A :=
  fold_right (insert_desc key) [] l.

Definition day_of (ts : Z) : Z := (ts / 86400)%Z.

Section ImagingWindows.

(** The collaborators of the planner: the catalog, the position oracle
    (altitude and azimuth of a target at a place and time) and the
    construction of a [TimelapseWindow], which samples the oracle for
    the altitude profile and the moon interference. *)
Variables CelestialObject Location TimelapseWindow : Type.
Variable catalog_search : string -> option CelestialObject.
Variable get_target_position : CelestialObject -> Location -> Z -> Q * Q.
Variable _create_timelapse_window :
  list VisEntry -> CelestialObject -> Location -> option TimelapseWindow.
Variable tw_average_score : TimelapseWindow -> Q.

Definition build_visibility (target : CelestialObject) (location : Location)
    (min_altitude : Q) (forecasts : list SeeingForecast) : list VisEntry :=
  map (fun f =>
         let pos := get_target_position target location (sf_timestamp f) in
         {| v_forecast := f;
            v_altitude := fst pos;
            v_azimuth := snd pos;
            v_is_visible := Qgeb (fst pos) min_altitude |})
      forecasts.

(** [for window_data in windows: ... if window: result.append(window)] *)
Fixpoint collect_windows (target : CelestialObject) (location : Location)
    (windows : list (list VisEntry)) : list TimelapseWindow :=
  match windows with
  | [] => []
  | window_data :: rest =>
      match _create_timelapse_window window_data target location with
      | Some window => window :: collect_windows target location rest
      | None => collect_windows target location rest
      end
  end.

(** [find_imaging_windows], after the forecast has been fetched. *)
Definition find_imaging_windows (target_name : string) (location : Location)
    (forecasts : list SeeingForecast)
    (duration_hours min_altitude : Q) (target_date : option Z)
    (min_score : Q) : list TimelapseWindow :=
  match catalog_search target_name with
  | None => []
  | Some target =>
      match forecasts with
      | [] => []
      | _ =>
          let visibility_data :=
            build_visibility target location min_altitude forecasts in
          let visibility_data :=
            match target_date with
            | Some d =>
                filter (fun v => (day_of (v_time v) =? day_of d)%Z) visibility_data
            | None => visibility_data
            end in
          let windows :=
            _find_altitude_windows visibility_data min_altitude
              duration_hours min_score in
          sort_desc tw_average_score (collect_windows target location windows)
      end
  end.

End ImagingWindows.

(** ** Runs of a sequence, as the window finders are meant to cut it

    [runs_by linked xs] cuts [xs] between every two neighbours that are
    not [linked]; what remains are the maximal runs of linked neighbours. *)

Fixpoint runs_by {A : Type} (linked : A -> A -> bool) (xs : list A) : list (list A) :=
  match xs with
  | [] => []
  | x :: rest =>
      match rest with
      | [] => [[x]]
      | y :: _ =>
          if linked x y then
            match runs_by linked rest with
            | r :: rs => (x :: r) :: rs
            | [] => [[x]]
            end
          else [x] :: runs_by linked rest
      end
  end.

(** A run in which each entry is [linked] to the next. *)
Fixpoint chain {A : Type} (linked : A -> A -> bool) (xs : list A) : bool :=
  match xs with
  | [] => true
  | x :: rest =>
      match rest with
      | [] => true
      | y :: _ => linked x y && chain linked rest
      end
  end.

(** Generic search: samples no more than two hours apart belong together. *)
Definition within_two_hours (a b : SeeingForecast) : bool :=
  (sf_timestamp b - sf_timestamp a <=? two_hours)%Z.

Definition gap_runs (fs : list SeeingForecast) : list (list SeeingForecast) :=
  runs_by within_two_hours fs.

(** Per-target search: two neighbours belong together when both are
    suitable and no more than two hours apart; an unsuitable entry is a
    run of its own and is dropped. *)
Definition suitable_link (min_altitude min_score : Q) (a b : VisEntry) : bool :=
  is_suitable min_altitude min_score a
  && is_suitable min_altitude min_score b
  && (v_time b - v_time a <=? two_hours)%Z.

Definition altitude_runs (min_altitude min_score : Q) (vs : list VisEntry)
  : list (list VisEntry) :=
  filter (forallb (is_suitable min_altitude min_score))
         (runs_by (suitable_link min_altitude min_score) vs).

(** A sequence at hourly cadence: each timestamp is 3600 s after the one
    before. *)
Fixpoint hourly (ts : list Z) : Prop :=
  match ts with
  | [] => True
  | t :: rest =>
      match rest with
      | [] => True
      | t' :: _ => t' = (t + 3600)%Z /\ hourly rest
      end
  end.

(** ** Sample data

    [sample_weather] and [poor_weather] are the fixtures of
    [tests/conftest.py]; the
    [with_...] functions are [model_copy(update={...})] on one field. *)

Definition sample_weather : WeatherData :=
  {| timestamp := 0;
     temperature := 18.5;
     temperature_850hpa := Some 12;
     dew_point := 10;
     wind_speed_10m := 2.5;
     wind_speed_80m := Some 4;
     wind_gusts := 4.5;
     wind_direction := 180;
     humidity := 55;
     cloud_cover := 15;
     cloud_cover_low := Some 5;
     cloud_cover_mid := Some 5;
     cloud_cover_high := Some 10;
     pressure := 1018;
     jet_stream_speed := Some 25;
     precipitation := 0;
     precipitation_probability := Some 5;
     visibility := None |}.

Definition poor_weather : WeatherData :=
  {| timestamp := 0;
     temperature := 15;
     temperature_850hpa := Some 14;
     dew_point := 14;
     wind_speed_10m := 8;
     wind_speed_80m := Some 15;
     wind_gusts := 18;
     wind_direction := 270;
     humidity := 95;
     cloud_cover := 85;
     cloud_cover_low := Some 70;
     cloud_cover_mid := Some 50;
     cloud_cover_high := Some 30;
     pressure := 1005;
     jet_stream_speed := Some 65;
     precipitation := 0.5;
     precipitation_probability := Some 80;
     visibility := None |}.

Definition with_wind_speed_10m (w : WeatherData) (x : Q) : WeatherData :=
  {| timestamp := timestamp w;
     temperature := temperature w;
     temperature_850hpa := temperature_850hpa w;
     dew_point := dew_point w;
     wind_speed_10m := x;
     wind_speed_80m := wind_speed_80m w;
     wind_gusts := wind_gusts w;
     wind_direction := wind_direction w;
     humidity := humidity w;
     cloud_cover := cloud_cover w;
     cloud_cover_low := cloud_cover_low w;
     cloud_cover_mid := cloud_cover_mid w;
     cloud_cover_high := cloud_cover_high w;
     pressure := pressure w;
     jet_stream_speed := jet_stream_speed w;
     precipitation := precipitation w;
     precipitation_probability := precipitation_probability w;
     visibility := visibility w |}.

Definition with_humidity (w : WeatherData) (x : Q) : WeatherData :=
  {| timestamp := timestamp w;
     temperature := temperature w;
     temperature_850hpa := temperature_850hpa w;
     dew_point := dew_point w;
     wind_speed_10m := wind_speed_10m w;
     wind_speed_80m := wind_speed_80m w;
     wind_gusts := wind_gusts w;
     wind_direction := wind_direction w;
     humidity := x;
     cloud_cover := cloud_cover w;
     cloud_cover_low := cloud_cover_low w;
     cloud_cover_mid := cloud_cover_mid w;
     cloud_cover_high := cloud_cover_high w;
     pressure := pressure w;
     jet_stream_speed := jet_stream_speed w;
     precipitation := precipitation w;
     precipitation_probability := precipitation_probability w;
     visibility := visibility w |}.

Definition with_dew_point (w : WeatherData) (x : Q) : WeatherData :=
  {| timestamp := timestamp w;
     temperature := temperature w;
     temperature_850hpa := temperature_850hpa w;
     dew_point := x;
     wind_speed_10m := wind_speed_10m w;
     wind_speed_80m := wind_speed_80m w;
     wind_gusts := wind_gusts w;
     wind_direction := wind_direction w;
     humidity := humidity w;
     cloud_cover := cloud_cover w;
     cloud_cover_low := cloud_cover_low w;
     cloud_cover_mid := cloud_cover_mid w;
     cloud_cover_high := cloud_cover_high w;
     pressure := pressure w;
     jet_stream_speed := jet_stream_speed w;
     precipitation := precipitation w;
     precipitation_probability := precipitation_probability w;
     visibility := visibility w |}.

Definition with_jet_stream_speed (w : WeatherData) (x : option Q) : WeatherData :=
  {| timestamp := timestamp w;
     temperature := temperature w;
     temperature_850hpa := temperature_850hpa w;
     dew_point := dew_point w;
     wind_speed_10m := wind_speed_10m w;
     wind_speed_80m := wind_speed_80m w;
     wind_gusts := wind_gusts w;
     wind_direction := wind_direction w;
     humidity := humidity w;
     cloud_cover := cloud_cover w;
     cloud_cover_low := cloud_cover_low w;
     cloud_cover_mid := cloud_cover_mid w;
     cloud_cover_high := cloud_cover_high w;
     pressure := pressure w;
     jet_stream_speed := x;
     precipitation := precipitation w;
     precipitation_probability := precipitation_probability w;
     visibility := visibility w |}.

(** The five names under which [calculate_score] looks weights up. *)
Definition component_names : list string :=
  [ "temperature_differential"%string; "wind_stability"%string;
    "humidity"%string; "cloud_cover"%string; "jet_stream"%string ].

Definition has_component_weights (ws : dict Q) : Prop :=
  forall key, In key component_names -> dict_get key ws <> None.

Definition default_engine : ScoringEngine := {| weights := DEFAULT_WEIGHTS |}.

(** A night-time forecast entry at time [t] with total score [s], and
    the visibility entry that puts the target at altitude [alt] then. *)
Definition night_forecast (t : Z) (s : Q) : SeeingForecast :=
  {| sf_timestamp := t;
     sf_score := {| total_score := s; component_scores := [];
                    penalties := []; score_timestamp := t |};
     sf_weather := sample_weather;
     sf_moon_illumination := 0;
     sf_moon_altitude := -90;
     sf_is_night := true |}.

Definition night_entry (t : Z) (s alt : Q) : VisEntry :=
  {| v_forecast := night_forecast t s;
     v_altitude := alt;
     v_azimuth := 180;
     v_is_visible := true |}.

(** Two good entries one hour apart. *)
Definition two_hourly_entries : list VisEntry :=
  [ night_entry 0 80 45; night_entry 3600 80 45 ].

(** Three hourly entries, the one in the middle with a score too low:
    as forecast entries and as visibility entries of a target at 45
    degrees. *)
Definition gapped_night : list SeeingForecast :=
  [ night_forecast 0 80; night_forecast 3600 10; night_forecast 7200 80 ].

Definition gapped_entries : list VisEntry :=
  [ night_entry 0 80 45; night_entry 3600 10 45; night_entry 7200 80 45 ].

(** Two night hours whose scores stay below every usual threshold. *)
Definition poor_night : list SeeingForecast :=
  [ night_forecast 0 10; night_forecast 3600 20 ].

(** The thresholds of the two searches. *)
Definition long_enough (min_hours : Z) (run : list SeeingForecast) : bool :=
  (Z.of_nat (List.length run) >=? min_hours)%Z.

Definition lasts_enough (min_duration_hours : Q) (run : list VisEntry) : bool :=
  Qgeb (_window_duration_hours run) min_duration_hours.

Definition all_positive (w : dict Q) : Prop :=
  Forall (fun v => 0 < v) (dict_values w).

(** Five equal weights of 0.201 (sum 1.005) and of 0.5 (sum 2.5). *)
Definition equal_weights (v : Q) : dict Q :=
  map (fun key => (key, v)) component_names.

(** ** More of scoring/components.py *)

Definition calculate_pressure_stability_score (weather : WeatherData) : Q :=
  let pressure := pressure weather in
  if Qleb 1020 pressure && Qleb pressure 1030 then 100
  else if Qleb 1015 pressure && Qltb pressure 1020
       then linear_interpolate pressure 1015 1020 85 100
  else if Qltb 1030 pressure && Qleb pressure 1040
       then linear_interpolate pressure 1030 1040 100 85
  else if Qleb 1005 pressure && Qltb pressure 1015
       then linear_interpolate pressure 1005 1015 60 85
  else if Qleb 1000 pressure && Qltb pressure 1005
       then linear_interpolate pressure 1000 1005 40 60
  else 30.

(** [weather.precipitation_probability or 0] *)
Definition probability_or_0 (weather : WeatherData) : Q :=
  match precipitation_probability weather with
  | Some p => p
  | None => 0
  end.

(** ** More of scoring/engine.py *)

Definition calculate_score_simple (self : ScoringEngine) (weather : WeatherData)
  : result Q :=
  score <- calculate_score self weather 0 (-90) None false ;;
  Ok (total_score score).

(** A weights dict that lacks four of the five component names. *)
Definition humidity_only : dict Q := [ ("humidity"%string, 1) ].

(** The engine built from five weights of 0.5. *)
Definition halves_engine : ScoringEngine :=
  {| weights := normalize_weights (equal_weights 0.5)
                  (py_sum (dict_values (equal_weights 0.5))) |}.

(** [d.get(k, default)] *)
Definition dict_get_default {V : Type} (d : dict V) (k : string) (dflt : V) : V :=
  match dict_get k d with
  | Some v => v
  | None => dflt
  end.

(** [k in d] *)
Definition dict_mem {V : Type} (k : string) (d : dict V) : bool :=
  match dict_get k d with
  | Some _ => true
  | None => false
  end.

Section Recommendations.

(** The two float formats of the f-strings, [{x:.0f}] and [{x:.1f}]. *)
Variables fmt_0f fmt_1f : Q -> string.

Definition overall_recommendation (total : Q) : string :=
  if Qgeb total 85 then
    "Outstanding conditions for all types of observation and imaging."
  else if Qgeb total 70 then
    "Very good conditions. Excellent for planetary and deep-sky observation."
  else if Qgeb total 55 then
    "Good conditions. Suitable for most visual observation."
  else if Qgeb total 40 then
    "Fair conditions. Best for planetary observation and the Moon."
  else
    "Poor conditions. Consider rescheduling if possible.".

Definition get_recommendations (score : SeeingScore) (weather : WeatherData)
  : list string :=
  let recommendations := [overall_recommendation (total_score score)] in
  let components := component_scores score in
  let recommendations :=
    if Qltb (dict_get_default components "cloud_cover" 100) 50 then
      if Qgtb (cloud_cover weather) 50 then
        recommendations ++
        [("Cloud cover at " ++ fmt_0f (cloud_cover weather)
          ++ "% may obstruct targets. " ++ "Monitor for clearing.")%string]
      else recommendations
    else recommendations in
  let recommendations :=
    if Qltb (dict_get_default components "wind_stability" 100) 60 then
      recommendations ++
      [("Wind at " ++ fmt_1f (wind_speed_10m weather)
        ++ " m/s may cause tracking issues. "
        ++ "Shield your setup if possible.")%string]
    else recommendations in
  let recommendations :=
    if Qltb (dict_get_default components "humidity" 100) 60 then
      if Qltb (temperature_differential weather) 3 then
        recommendations ++
        ["High humidity risk. Watch for dew formation on optics."%string]
      else recommendations
    else recommendations in
  let recommendations :=
    if Qltb (dict_get_default components "temperature_differential" 100) 50 then
      recommendations ++
      ["Temperature differential is low. Thermal equilibration may take longer."%string]
    else recommendations in
  if dict_mem "moon" (penalties score) then
    match dict_get "moon" (penalties score) with
    | Some penalty =>
        if Qltb penalty 0.7 then
          recommendations ++
          [("Bright Moon affecting deep-sky observation. "
            ++ "Consider planetary targets or wait for moonset.")%string]
        else recommendations
    | None => recommendations
    end
  else recommendations.

End Recommendations.

Definition get_best_targets (score : SeeingScore) (weather : WeatherData)
  : dict string :=
  let total := total_score score in
  let targets : dict string := [] in
  let targets :=
    if Qgeb total 60 || (Qgeb total 40 && Qltb (cloud_cover weather) 30) then
      dict_set targets "planets"
        (if Qgeb total 80 then "Excellent" else "Good")%string
    else if Qgeb total 30 then dict_set targets "planets" "Fair"%string
    else dict_set targets "planets" "Poor"%string in
  let targets :=
    dict_set targets "moon"
      (if Qgeb total 50 then "Excellent"
       else if Qgeb total 30 then "Good" else "Fair")%string in
  let moon_penalty := dict_get_default (penalties score) "moon" 1 in
  let effective_deep_sky := total * moon_penalty in
  let targets :=
    if Qgeb effective_deep_sky 70 then dict_set targets "deep_sky" "Excellent"%string
    else if Qgeb effective_deep_sky 50 then dict_set targets "deep_sky" "Good"%string
    else if Qgeb effective_deep_sky 35 then dict_set targets "deep_sky" "Fair"%string
    else dict_set targets "deep_sky" "Poor"%string in
  if Qgeb total 80 && Qltb (wind_speed_10m weather) 3 then
    dict_set targets "imaging" "Excellent"%string
  else if Qgeb total 65 && Qltb (wind_speed_10m weather) 5 then
    dict_set targets "imaging" "Good"%string
  else if Qgeb total 50 then dict_set targets "imaging" "Fair"%string
  else dict_set targets "imaging" "Not recommended"%string.

(** ** More of scoring/models.py *)

Definition rating (s : SeeingScore) : string :=
  if Qgeb (total_score s) 85 then "Excellent"
  else if Qgeb (total_score s) 70 then "Very Good"
  else if Qgeb (total_score s) 55 then "Good"
  else if Qgeb (total_score s) 40 then "Fair"
  else if Qgeb (total_score s) 25 then "Poor"
  else "Bad".

Definition rating_color (s : SeeingScore) : string :=
  if Qgeb (total_score s) 85 then "bright_green"
  else if Qgeb (total_score s) 70 then "green"
  else if Qgeb (total_score s) 55 then "yellow"
  else if Qgeb (total_score s) 40 then "orange1"
  else if Qgeb (total_score s) 25 then "red"
  else "bright_red".

Definition recommendation (s : SeeingScore) : string :=
  if Qgeb (total_score s) 85 then
    "Outstanding conditions! Perfect for imaging and visual observation."
  else if Qgeb (total_score s) 70 then
    "Very good conditions. Excellent for most observations."
  else if Qgeb (total_score s) 55 then
    "Good conditions. Suitable for planetary and bright deep-sky objects."
  else if Qgeb (total_score s) 40 then
    "Fair conditions. Best for planets and the Moon."
  else if Qgeb (total_score s) 25 then
    "Poor conditions. Only bright objects recommended."
  else "Not recommended for serious observation tonight.".

(** [ObservingWindow.duration_hours] *)
Definition ow_duration_hours (w : ObservingWindow) : Q :=
  inject_Z (ow_end w - ow_start w) / 3600.

(** ** services/advisor.py: [_score_to_rating] *)

Definition _score_to_rating (score : Q) : string :=
  if Qgeb score 85 then "Excellent"
  else if Qgeb score 70 then "Very Good"
  else if Qgeb score 55 then "Good"
  else if Qgeb score 40 then "Fair"
  else "Poor".

(** The total score of a forecast entry, [f.score.total_score]. *)
Definition forecast_total (f : SeeingForecast) : Q := total_score (sf_score f).

(** A good night of three hours, then a gap, then one more good hour. *)
Definition good_night : list SeeingForecast :=
  [ night_forecast 0 80; night_forecast 3600 90; night_forecast 7200 70;
    night_forecast 36000 60 ].

(** The samples [find_best_window] keeps: night-time, score at least
    [min_score]. *)
Definition suitable_samples (min_score : Q) (forecasts : list SeeingForecast)
  : list SeeingForecast :=
  filter (fun f => sf_is_night f && Qgeb (total_score (sf_score f)) min_score)
         forecasts.

(** ** More of services/timelapse.py *)

Definition _calculate_interference_severity
    (illumination avg_altitude min_angular_distance : Q) : string :=
  if Qleb avg_altitude 0 then "none"
  else if Qltb illumination 20 then
    if Qgtb min_angular_distance 30 then "none" else "minor"
  else
    let illum_factor := illumination / 100 in
    let alt_factor := py_min 1 (py_max 0 (avg_altitude / 45)) in
    let dist_factor := py_max 0 (1 - min_angular_distance / 90) in
    let severity_score := illum_factor * alt_factor * (1 + dist_factor) in
    if Qltb severity_score 0.2 then "none"
    else if Qltb severity_score 0.4 then "minor"
    else if Qltb severity_score 0.7 then "moderate"
    else "severe".

(** Python's [datetime] covers the years 1 to 9999 and its [timedelta]
    at most 999999999 days either way; arithmetic that leaves either
    range raises [OverflowError].  Times are whole seconds counted from
    1970-01-01T00:00:00, so [datetime.min] is 719162 days before 0 and
    [datetime.max] is the last second of the year 9999. *)
Inductive datetime_error : Type :=
| OverflowError.

Definition datetime_min : Z := -62135596800.
Definition datetime_max : Z := 253402300799.
Definition timedelta_max_days : Z := 999999999.

(** [timedelta(minutes=m)], in seconds; its days are the seconds
    floor-divided by 86400. *)
Definition timedelta_minutes (m : Z) : datetime_error + Z :=
  let seconds := (m * 60)%Z in
  let days := (seconds / 86400)%Z in
  if ((days <? - timedelta_max_days) || (timedelta_max_days <? days))%Z
  then inl OverflowError
  else inr seconds.

(** [current + delta] on a [datetime]. *)
Definition datetime_add (current delta : Z) : datetime_error + Z :=
  let t := (current + delta)%Z in
  if ((t <? datetime_min) || (datetime_max <? t))%Z
  then inl OverflowError
  else inr t.

(** The [while current <= end] loop of [_calculate_altitude_profile];
    [altitude_at] is the position oracle for the target and place.  Each
    round appends the sample and then runs
    [current += timedelta(minutes=interval_minutes)], which may raise.
    The loop runs as long as [fuel] lasts; [None] is a loop still running
    when it is used up. *)
Fixpoint altitude_profile_loop (fuel : nat) (altitude_at : Z -> Q)
    (current end_time interval_minutes : Z) (profile : list (Z * Q))
  : option (datetime_error + list (Z * Q)) :=
  match fuel with
  | O => None
  | S fuel' =>
      if (current <=? end_time)%Z then
        let profile := profile ++ [(current, altitude_at current)] in
        match timedelta_minutes interval_minutes with
        | inl e => Some (inl e)
        | inr delta =>
            match datetime_add current delta with
            | inl e => Some (inl e)
            | inr next =>
                altitude_profile_loop fuel' altitude_at next end_time
                  interval_minutes profile
            end
        end
      else Some (inr profile)
  end.

Definition _calculate_altitude_profile (fuel : nat) (altitude_at : Z -> Q)
    (start end_time interval_minutes : Z)
  : option (datetime_error + list (Z * Q)) :=
  altitude_profile_loop fuel altitude_at start end_time interval_minutes [].

(** ** More of weather/models.py *)

(** [WeatherForecast.get_at_time] on the [hourly] list: [min] with a key
    keeps the first entry that no later one beats. *)
Definition time_distance (target_time : Z) (w : WeatherData) : Z :=
  Z.abs (timestamp w - target_time).

Definition get_at_time (hourly : list WeatherData) (target_time : Z)
  : option WeatherData :=
  match hourly with
  | [] => None
  | w0 :: rest =>
      Some (fold_left
              (fun closest w =>
                 if (time_distance target_time w <? time_distance target_time closest)%Z
                 then w else closest)
              rest w0)
  end.

(** The sample with its gusts and its wind at 80 m taken away. *)
Definition without_gusts (w : WeatherData) : WeatherData :=
  {| timestamp := timestamp w;
     temperature := temperature w;
     temperature_850hpa := temperature_850hpa w;
     dew_point := dew_point w;
     wind_speed_10m := wind_speed_10m w;
     wind_speed_80m := None;
     wind_gusts := 0;
     wind_direction := wind_direction w;
     humidity := humidity w;
     cloud_cover := cloud_cover w;
     cloud_cover_low := cloud_cover_low w;
     cloud_cover_mid := cloud_cover_mid w;
     cloud_cover_high := cloud_cover_high w;
     pressure := pressure w;
     jet_stream_speed := jet_stream_speed w;
     precipitation := precipitation w;
     precipitation_probability := precipitation_probability w;
     visibility := visibility w |}.

(** ** [LocationComparison] (scoring/models.py) *)

Inductive lookup_error : Type :=
| ValueError   (* [max] of an empty sequence *)
| IndexError.  (* list index out of range *)

Section Comparison.

(** A location and a report are kept abstract; a report is used only
    through [report.score.total_score]. *)
Variables Location SeeingReport : Type.
Variable report_total : SeeingReport -> Q.

(** [max(range(len(reports)), key=lambda i: reports[i].score.total_score)]:
    the first index whose score no later one exceeds. *)
Fixpoint best_index_from (reports : list SeeingReport) (i : nat)
    (best_idx : nat) (best : Q) : nat :=
  match reports with
  | [] => best_idx
  | r :: rest =>
      if Qgtb (report_total r) best
      then best_index_from rest (S i) i (report_total r)
      else best_index_from rest (S i) best_idx best
  end.

Definition best_location (locations : list Location) (reports : list SeeingReport)
  : lookup_error + (Location * SeeingReport) :=
  match reports with
  | [] => inl ValueError
  | r0 :: rest =>
      let best_idx := best_index_from rest 1 0 (report_total r0) in
      match nth_error locations best_idx, nth_error reports best_idx with
      | Some l, Some r => inr (l, r)
      | _, _ => inl IndexError
      end
  end.

(** [sorted(zip(locations, reports), key=..., reverse=True)] *)
Definition ranked (locations : list Location) (reports : list SeeingReport)
  : list (Location * SeeingReport) :=
  sort_desc (fun p => report_total (snd p)) (combine locations reports).

End Comparison.

(** * Properties *)

(** ** Boolean tests against their propositions *)

Lemma Qleb_true a b : Qleb a b = true <-> a <= b.
Proof. unfold Qleb. apply Qle_bool_iff. Qed.

Lemma Qleb_false a b : Qleb a b = false <-> b < a.
Proof.
  unfold Qleb. rewrite <- not_true_iff_false, Qle_bool_iff.
  split; [apply Qnot_le_lt | apply Qlt_not_le].
Qed.

Lemma Qgeb_true a b : Qgeb a b = true <-> b <= a.
Proof. apply Qleb_true. Qed.

Lemma Qgeb_false a b : Qgeb a b = false <-> a < b.
Proof. apply Qleb_false. Qed.

Lemma Qltb_true a b : Qltb a b = true <-> a < b.
Proof. unfold Qltb. rewrite negb_true_iff. apply (Qleb_false b a). Qed.

Lemma Qltb_false a b : Qltb a b = false <-> b <= a.
Proof. unfold Qltb. rewrite negb_false_iff. apply (Qleb_true b a). Qed.

Lemma Qgtb_true a b : Qgtb a b = true <-> b < a.
Proof. apply Qltb_true. Qed.

Lemma Qgtb_false a b : Qgtb a b = false <-> a <= b.
Proof. apply Qltb_false. Qed.

(** Split on the next comparison of the goal and record its outcome. *)
Ltac qtest :=
  match goal with
  | |- context [Qleb ?a ?b] =>
      let E := fresh "E" in
      destruct (Qleb a b) eqn:E;
      [apply Qleb_true in E | apply Qleb_false in E]
  | |- context [Qgeb ?a ?b] =>
      let E := fresh "E" in
      destruct (Qgeb a b) eqn:E;
      [apply Qgeb_true in E | apply Qgeb_false in E]
  | |- context [Qltb ?a ?b] =>
      let E := fresh "E" in
      destruct (Qltb a b) eqn:E;
      [apply Qltb_true in E | apply Qltb_false in E]
  | |- context [Qgtb ?a ?b] =>
      let E := fresh "E" in
      destruct (Qgtb a b) eqn:E;
      [apply Qgtb_true in E | apply Qgtb_false in E]
  end.

Lemma py_max_lower a b : a <= py_max a b.
Proof. unfold py_max. qtest; lra. Qed.

Lemma py_max_upper a b c : a <= c -> b <= c -> py_max a b <= c.
Proof. unfold py_max. intros. qtest; lra. Qed.

Lemma py_min_upper a b : py_min a b <= a.
Proof. unfold py_min. qtest; lra. Qed.

Lemma py_min_lower a b c : c <= a -> c <= b -> c <= py_min a b.
Proof. unfold py_min. intros. qtest; lra. Qed.

Lemma clamp_bounds v lo hi : lo <= hi -> lo <= clamp v lo hi <= hi.
Proof.
  intros H. unfold clamp. split.
  - apply py_max_lower.
  - apply py_max_upper; [exact H | apply py_min_upper].
Qed.

(** ** Linear interpolation *)

Lemma linear_interpolate_affine v a b c d :
  a < b ->
  (b - a) * linear_interpolate v a b c d == c * (b - a) + (v - a) * (d - c).
Proof.
  intros H. unfold linear_interpolate.
  destruct (Qeq_bool b a) eqn:E.
  - apply Qeq_bool_iff in E. lra.
  - cbv zeta. field. lra.
Qed.

(** Bring every interpolation of the goal into linear form. *)
Ltac interp :=
  repeat match goal with
  | |- context [linear_interpolate ?v ?a ?b ?c ?d] =>
      let H := fresh "Hli" in
      let x := fresh "li" in
      assert (H := linear_interpolate_affine v a b c d ltac:(lra));
      set (x := linear_interpolate v a b c d) in *;
      clearbody x
  end.

Lemma humidity_score_range w :
  in_percent (humidity w) -> 0 <= calculate_humidity_score w <= 100.
Proof.
  intros [H0 H100]. unfold calculate_humidity_score.
  repeat qtest; interp; lra.
Qed.

Lemma wind_stability_score_range w : 0 <= calculate_wind_stability_score w <= 100.
Proof. unfold calculate_wind_stability_score. cbv zeta. apply clamp_bounds. lra. Qed.

Lemma cloud_cover_score_range w : 0 <= calculate_cloud_cover_score w <= 100.
Proof. unfold calculate_cloud_cover_score. cbv zeta. apply clamp_bounds. lra. Qed.

(** ** Component scorers *)

Lemma jet_stream_score_range w :
  match jet_stream_speed w with
  | Some j => j <= 204
  | None => True
  end ->
  0 <= calculate_jet_stream_score w <= 100.
Proof.
  unfold calculate_jet_stream_score. destruct (jet_stream_speed w) as [j|].
  - intros Hj. repeat qtest; interp; lra.
  - intros _. lra.
Qed.

Lemma temperature_differential_score_range w :
  -(2#3) <= temperature_differential w ->
  0 <= calculate_temperature_differential_score w <= 100.
Proof.
  intros Hd. unfold calculate_temperature_differential_score. cbv zeta.
  repeat qtest; interp; lra.
Qed.

Lemma clamped_scores_in_range w :
  valid_weather w ->
  0 <= calculate_wind_stability_score w <= 100 /\
  0 <= calculate_humidity_score w <= 100 /\
  0 <= calculate_cloud_cover_score w <= 100.
Proof.
  intros Hw. split; [apply wind_stability_score_range |].
  split; [apply humidity_score_range, Hw | apply cloud_cover_score_range].
Qed.

(** C1: not every component scorer stays in [0,100] on a valid sample.
    The temperature-differential and jet-stream scorers interpolate past
    their last knot without clamping: with the dew point 2 degrees above
    the temperature the first returns -20, and with a jet stream of
    220 m/s the second returns 110. *)
Theorem component_scores_leave_range :
  valid_weather (with_dew_point sample_weather 20.5) /\
  calculate_temperature_differential_score (with_dew_point sample_weather 20.5) == -20 /\
  valid_weather (with_jet_stream_speed sample_weather (Some 220)) /\
  calculate_jet_stream_score (with_jet_stream_speed sample_weather (Some 220)) == 110.
Proof. repeat split; vm_compute; congruence. Qed.

(** ** Rounding to one decimal *)

Lemma round_half_even_bounds y (n : Z) :
  0 <= y -> y <= inject_Z n ->
  (0 <= round_half_even y <= n)%Z.
Proof.
  intros H0 Hn. unfold round_half_even. cbv zeta.
  assert (Hf0 : (0 <= Qfloor y)%Z).
  { change 0%Z with (Qfloor (inject_Z 0)). apply Qfloor_resp_le. exact H0. }
  assert (Hfn : (Qfloor y <= n)%Z).
  { rewrite <- (Qfloor_Z n). apply Qfloor_resp_le. exact Hn. }
  assert (Hle := Qfloor_le y).
  repeat qtest; try lia.
  - assert (Hlt : inject_Z (Qfloor y) < inject_Z n) by lra.
    rewrite <- Zlt_Qlt in Hlt. lia.
  - destruct (Z.even (Qfloor y)); [lia |].
    assert (Hlt : inject_Z (Qfloor y) < inject_Z n) by lra.
    rewrite <- Zlt_Qlt in Hlt. lia.
Qed.

Lemma round1_bounds x : 0 <= x -> x <= 100 -> 0 <= round1 x <= 100.
Proof.
  intros H0 H100. unfold round1.
  destruct (round_half_even_bounds (x * 10) 1000) as [Hlo Hhi].
  - lra.
  - change (inject_Z 1000) with 1000. lra.
  - rewrite Zle_Qle in Hlo, Hhi.
    change (inject_Z 0) with 0 in Hlo. change (inject_Z 1000) with 1000 in Hhi.
    unfold Qdiv. change (/ 10) with (1 # 10).
    set (r := inject_Z (round_half_even (x * 10))) in *. lra.
Qed.

(** ** The scoring engine *)

Lemma weighted_terms_defined weather ws :
  has_component_weights ws ->
  exists terms, weighted_terms (score_components weather) ws = Ok terms.
Proof.
  intros Hk. unfold score_components, weighted_terms, dict_index.
  assert (H1 := Hk "temperature_differential"%string).
  assert (H2 := Hk "wind_stability"%string).
  assert (H3 := Hk "humidity"%string).
  assert (H4 := Hk "cloud_cover"%string).
  assert (H5 := Hk "jet_stream"%string).
  unfold component_names in *. cbn [In] in *.
  destruct (dict_get "temperature_differential" ws); [| exfalso; apply H1; tauto].
  destruct (dict_get "wind_stability" ws); [| exfalso; apply H2; tauto].
  destruct (dict_get "humidity" ws); [| exfalso; apply H3; tauto].
  destruct (dict_get "cloud_cover" ws); [| exfalso; apply H4; tauto].
  destruct (dict_get "jet_stream" ws); [| exfalso; apply H5; tauto].
  cbn. eexists. reflexivity.
Qed.

Lemma SeeingScore_new_valid total components pens ts :
  0 <= total -> total <= 100 ->
  SeeingScore_new total components pens ts =
  Ok {| total_score := total; component_scores := components;
        penalties := pens; score_timestamp := ts |}.
Proof.
  intros H0 H100. unfold SeeingScore_new.
  apply Qgeb_true in H0. apply Qleb_true in H100. rewrite H0, H100. reflexivity.
Qed.

Lemma final_clamp_bounds x : 0 <= py_max 0 (py_min 100 x) <= 100.
Proof. apply (clamp_bounds x 0 100). lra. Qed.

Lemma calculate_score_returns self weather mi ma airmass deep :
  has_component_weights (weights self) ->
  exists terms,
    weighted_terms (score_components weather) (weights self) = Ok terms /\
    calculate_score self weather mi ma airmass deep =
    Ok {| total_score :=
            round1 (py_max 0 (py_min 100
              (fold_left Qmult
                 (dict_values (score_penalties weather mi ma airmass deep))
                 (py_sum terms))));
          component_scores := score_components weather;
          penalties := score_penalties weather mi ma airmass deep;
          score_timestamp := timestamp weather |}.
Proof.
  intros Hk. destruct (weighted_terms_defined weather _ Hk) as [terms Ht].
  exists terms. split; [exact Ht |].
  unfold calculate_score. rewrite Ht. cbn [bind].
  apply SeeingScore_new_valid; apply round1_bounds; apply final_clamp_bounds.
Qed.

Lemma default_weights_named : has_component_weights DEFAULT_WEIGHTS.
Proof.
  intros key Hin. unfold component_names in Hin. cbn [In] in Hin.
  repeat (destruct Hin as [<- | Hin]; [vm_compute; discriminate |]).
  contradiction.
Qed.

(** Normalizing divides the weight under every key and adds or removes
    no key. *)
Lemma dict_get_normalize_weights key w total :
  dict_get key (normalize_weights w total)
  = option_map (fun v => v / total) (dict_get key w).
Proof.
  unfold normalize_weights.
  induction w as [| [k v] rest IH]; cbn [map dict_get fst snd]; [reflexivity |].
  destruct (String.eqb key k); [reflexivity | exact IH].
Qed.

Lemma init_keeps_component_weights given eng :
  ScoringEngine_init given = Ok eng ->
  has_component_weights (given_or_default given) ->
  has_component_weights (weights eng).
Proof.
  unfold ScoringEngine_init. cbv zeta.
  set (w := given_or_default given).
  set (total := py_sum (dict_values w)).
  intros Hinit Hk key Hin. specialize (Hk key Hin).
  destruct (Qgtb (Qabs (total - 1)) 0.01).
  - destruct (Qeq_bool total 0); [discriminate Hinit |].
    assert (Heng : eng = {| weights := normalize_weights w total |}) by congruence.
    subst eng. cbn [weights]. rewrite dict_get_normalize_weights.
    destruct (dict_get key w); [discriminate | exact Hk].
  - assert (Heng : eng = {| weights := w |}) by congruence.
    subst eng. exact Hk.
Qed.

(** C2, as the code has it: for every engine whose weights name the five
    components (whatever their values, so in particular when they sum to
    1), every weather sample, moon illumination and altitude, optional
    airmass and deep-sky flag, [calculate_score] raises nothing and
    returns a score whose total lies in [0,100].  Construction keeps the
    keys of a configuration, so this holds of every engine constructed
    from a configuration that names the five components, and of the
    engine constructed without one, which takes the defaults. *)
Theorem calculate_score_total_in_range :
  (forall self weather mi ma airmass deep,
     has_component_weights (weights self) ->
     exists s,
       calculate_score self weather mi ma airmass deep = Ok s /\
       0 <= total_score s <= 100) /\
  (forall given eng weather mi ma airmass deep,
     has_component_weights (given_or_default given) ->
     ScoringEngine_init given = Ok eng ->
     exists s,
       calculate_score eng weather mi ma airmass deep = Ok s /\
       0 <= total_score s <= 100) /\
  (forall weather mi ma airmass deep,
     exists eng s,
       ScoringEngine_init None = Ok eng /\
       calculate_score eng weather mi ma airmass deep = Ok s /\
       0 <= total_score s <= 100).
Proof.
  assert (Hany : forall self weather mi ma airmass deep,
             has_component_weights (weights self) ->
             exists s,
               calculate_score self weather mi ma airmass deep = Ok s /\
               0 <= total_score s <= 100).
  { intros self weather mi ma airmass deep Hk.
    destruct (calculate_score_returns self weather mi ma airmass deep Hk)
      as [terms [_ Hs]].
    eexists. split; [exact Hs |]. cbn [total_score].
    apply round1_bounds; apply final_clamp_bounds. }
  split; [exact Hany |]. split.
  - intros given eng weather mi ma airmass deep Hk Hinit.
    apply Hany. exact (init_keeps_component_weights given eng Hinit Hk).
  - intros weather mi ma airmass deep.
    destruct (Hany default_engine weather mi ma airmass deep default_weights_named)
      as [s Hs].
    exists default_engine, s. split; [reflexivity | exact Hs].
Qed.

Lemma calculate_score_total_in_range_witness :
  has_component_weights (given_or_default (Some (equal_weights 0.5))) /\
  ScoringEngine_init (Some (equal_weights 0.5))
  = Ok {| weights := normalize_weights (equal_weights 0.5)
                       (py_sum (dict_values (equal_weights 0.5))) |} /\
  exists s,
    calculate_score
      {| weights := normalize_weights (equal_weights 0.5)
                      (py_sum (dict_values (equal_weights 0.5))) |}
      sample_weather 10 (-10) (Some 3) true = Ok s /\
    0 <= total_score s <= 100.
Proof.
  assert (Hk : has_component_weights (given_or_default (Some (equal_weights 0.5)))).
  { intros key Hin. unfold component_names in Hin. cbn [In] in Hin.
    repeat (destruct Hin as [<- | Hin]; [vm_compute; discriminate |]).
    contradiction. }
  assert (Hinit : ScoringEngine_init (Some (equal_weights 0.5))
                  = Ok {| weights := normalize_weights (equal_weights 0.5)
                                       (py_sum (dict_values (equal_weights 0.5))) |})
    by reflexivity.
  split; [exact Hk |]. split; [exact Hinit |].
  exact (proj1 (proj2 calculate_score_total_in_range)
           (Some (equal_weights 0.5)) _ sample_weather 10 (-10) (Some 3) true
           Hk Hinit).
Defined.

(** C2, as stated, fails: the single weight [humidity = 1] sums to exactly
    1, construction accepts it and leaves it as it is, and
    [calculate_score] on the constructed engine raises [KeyError] at
    [self.weights["temperature_differential"]]. *)
Lemma constructed_engine_raises_key_error :
  all_positive humidity_only /\
  py_sum (dict_values humidity_only) == 1 /\
  ScoringEngine_init (Some humidity_only) = Ok {| weights := humidity_only |} /\
  calculate_score {| weights := humidity_only |} sample_weather 0 (-90) None false
  = Raise KeyError.
Proof.
  split; [unfold all_positive; cbn; repeat constructor |].
  split; [vm_compute; congruence |].
  split; reflexivity.
Qed.

(** ** Monotonicity of the wind and humidity curves *)

(** C4: between two knots the wind curve rises with the wind speed.  On
    the fixture sample (gusts 4.5 m/s, wind at 80 m 4 m/s), a wind of
    3 m/s scores 260/3 and a wind of 4 m/s scores 280/3: the larger wind
    speed, both above 2 m/s, gets the larger score. *)
Theorem wind_stability_rises_with_wind :
  2 <= 3 /\ 3 < 4 /\
  calculate_wind_stability_score (with_wind_speed_10m sample_weather 3) == 260 # 3 /\
  calculate_wind_stability_score (with_wind_speed_10m sample_weather 4) == 280 # 3 /\
  calculate_wind_stability_score (with_wind_speed_10m sample_weather 3)
  < calculate_wind_stability_score (with_wind_speed_10m sample_weather 4).
Proof. repeat split; vm_compute; congruence. Qed.

(** C5: between two knots the humidity curve rises with the humidity.  A
    humidity of 40 % scores 92.5 and a humidity of 50 % scores 100: the
    larger humidity gets the larger score. *)
Theorem humidity_score_rises_with_humidity :
  in_percent 40 /\ in_percent 50 /\
  calculate_humidity_score (with_humidity sample_weather 40) == 92.5 /\
  calculate_humidity_score (with_humidity sample_weather 50) == 100 /\
  calculate_humidity_score (with_humidity sample_weather 40)
  < calculate_humidity_score (with_humidity sample_weather 50).
Proof. repeat split; vm_compute; congruence. Qed.

(** The repository's own expectations on the two fixtures
    ([test_wind_stability_windy]: below 60; [test_humidity_dry]: at least
    70; [test_humidity_wet]: below 30) against what the curves return. *)
Lemma fixture_scores :
  calculate_wind_stability_score poor_weather == 60.25 /\
  calculate_humidity_score sample_weather == 66.25 /\
  calculate_humidity_score poor_weather == 35.
Proof. repeat split; vm_compute; congruence. Qed.

(** ** Airmass penalty *)

Lemma airmass_penalty_beyond_3 a :
  3 < a -> calculate_airmass_penalty a == 0.5 + (a - 3) * 0.075.
Proof.
  intros Ha. unfold calculate_airmass_penalty.
  repeat qtest; try lra. interp. lra.
Qed.

(** C6: the airmass curve has no cap at airmass 5.  At airmass 5 the
    multiplier is 0.65, at airmass 7 it is 0.8 and at airmass 10 it is
    1.025, which is above 1.0. *)
Theorem airmass_penalty_uncapped :
  calculate_airmass_penalty 5 == 0.65 /\
  calculate_airmass_penalty 7 == 0.8 /\
  calculate_airmass_penalty 10 == 1.025 /\
  1 < calculate_airmass_penalty 10.
Proof. repeat split; vm_compute; congruence. Qed.

(** C7: the airmass multiplier at airmass 1.0 is exactly 1.0, but at
    airmass 3.0 it is 0.85, which is not below 0.8. *)
Theorem airmass_penalty_at_1_and_3 :
  calculate_airmass_penalty 1 = 1 /\
  calculate_airmass_penalty 3 == 0.85 /\
  ~ calculate_airmass_penalty 3 < 0.8.
Proof. repeat split; vm_compute; congruence. Qed.

(** ** Moon penalty *)

Lemma moon_penalty_neutral illumination moon_altitude is_deep_sky :
  moon_altitude <= 0 \/ is_deep_sky = false ->
  calculate_moon_penalty illumination moon_altitude is_deep_sky = 1.
Proof.
  intros H. unfold calculate_moon_penalty.
  destruct (Qleb moon_altitude 0) eqn:E; [reflexivity |].
  destruct H as [H | ->]; [| reflexivity].
  apply Qleb_true in H. congruence.
Qed.

Lemma dict_get_set_other {V : Type} (d : dict V) k k' (v : V) :
  String.eqb k k' = false ->
  dict_get k (dict_set d k' v) = dict_get k d.
Proof.
  intros Hne. induction d as [| [k0 v0] rest IH]; cbn.
  - rewrite Hne. reflexivity.
  - destruct (String.eqb k' k0) eqn:E0; cbn.
    + apply String.eqb_eq in E0. subst k0. rewrite Hne. reflexivity.
    + rewrite IH. reflexivity.
Qed.

Lemma score_penalties_without_moon weather illumination moon_altitude airmass is_deep_sky :
  moon_altitude <= 0 \/ is_deep_sky = false ->
  dict_get "moon" (score_penalties weather illumination moon_altitude airmass is_deep_sky)
  = None.
Proof.
  intros H. unfold score_penalties. cbv zeta.
  rewrite (moon_penalty_neutral _ _ _ H).
  replace (Qltb 1 1) with false by reflexivity.
  assert (Hair : dict_get "moon"
            match airmass with
            | Some a =>
                if Qltb (calculate_airmass_penalty a) 1
                then dict_set [] "airmass" (calculate_airmass_penalty a)
                else []
            | None => []
            end = None).
  { destruct airmass as [a |]; [| reflexivity].
    destruct (Qltb (calculate_airmass_penalty a) 1); reflexivity. }
  destruct (Qltb (calculate_precipitation_penalty weather) 1); [| exact Hair].
  rewrite dict_get_set_other by reflexivity. exact Hair.
Qed.

(** C8: whenever the moon is at or below the horizon, or the target is
    not a deep-sky object, the moon penalty is exactly 1.0 for every
    illumination, and the penalty map returned by [calculate_score] has
    no ["moon"] entry. *)
Theorem moon_penalty_absent self weather illumination moon_altitude airmass is_deep_sky :
  moon_altitude <= 0 \/ is_deep_sky = false ->
  has_component_weights (weights self) ->
  calculate_moon_penalty illumination moon_altitude is_deep_sky = 1 /\
  exists s,
    calculate_score self weather illumination moon_altitude airmass is_deep_sky = Ok s /\
    dict_get "moon" (penalties s) = None.
Proof.
  intros H Hk. split; [apply moon_penalty_neutral; exact H |].
  destruct (calculate_score_returns self weather illumination moon_altitude
              airmass is_deep_sky Hk) as [terms [_ Hs]].
  eexists. split; [exact Hs |]. cbn [penalties].
  apply score_penalties_without_moon. exact H.
Qed.

Lemma moon_penalty_absent_witness :
  (-10 <= 0 \/ true = false) /\
  has_component_weights (weights default_engine) /\
  calculate_moon_penalty 100 (-10) true = 1 /\
  exists s,
    calculate_score default_engine sample_weather 100 (-10) (Some 3) true = Ok s /\
    dict_get "moon" (penalties s) = None.
Proof.
  assert (H : -10 <= 0 \/ true = false) by (left; vm_compute; congruence).
  split; [exact H |]. split; [exact default_weights_named |].
  apply (moon_penalty_absent default_engine sample_weather 100 (-10) (Some 3) true H).
  exact default_weights_named.
Defined.

(** ** Engine construction *)

Lemma fold_left_Qplus_acc l : forall a, fold_left Qplus l a == a + py_sum l.
Proof.
  unfold py_sum. induction l as [| x l IH]; intros a; cbn [fold_left].
  - lra.
  - rewrite (IH (a + x)), (IH (0 + x)). lra.
Qed.

Lemma py_sum_cons x l : py_sum (x :: l) == x + py_sum l.
Proof.
  unfold py_sum at 1. cbn [fold_left]. rewrite fold_left_Qplus_acc. lra.
Qed.

Lemma py_sum_normalized w total :
  ~ total == 0 ->
  py_sum (dict_values (normalize_weights w total)) == py_sum (dict_values w) / total.
Proof.
  intros Hz. unfold dict_values, normalize_weights.
  induction w as [| [k v] rest IH]; cbn [map fst snd].
  - unfold py_sum. cbn. field. exact Hz.
  - rewrite !py_sum_cons, IH. field. exact Hz.
Qed.

Lemma py_sum_positive l :
  Forall (fun v => 0 < v) l -> l <> [] -> 0 < py_sum l.
Proof.
  intros Hall. induction Hall as [| x l Hx Hl IH]; intros Hne; [congruence |].
  rewrite py_sum_cons. destruct l as [| y l'].
  - unfold py_sum. cbn. lra.
  - assert (0 < py_sum (y :: l')) by (apply IH; discriminate). lra.
Qed.

Lemma given_or_default_positive given :
  match given with Some w => all_positive w | None => True end ->
  0 < py_sum (dict_values (given_or_default given)).
Proof.
  intros H.
  assert (Hd : 0 < py_sum (dict_values DEFAULT_WEIGHTS)) by (vm_compute; congruence).
  destruct given as [[| kv rest] |]; cbn [given_or_default]; try exact Hd.
  apply py_sum_positive; [exact H | discriminate].
Qed.

(** No [calculate_score] call changes the engine. *)
Lemma engine_after_same eng calls : engine_after eng calls = eng.
Proof.
  unfold engine_after.
  induction calls as [| c calls IH]; cbn [fold_left]; [reflexivity |].
  unfold calculate_score_method at 2. cbn [fst]. exact IH.
Qed.

(** C9, as the code has it.  Construction accepts every configuration of
    positive weights (and the absent or empty one, replaced by the
    defaults).  The engine's weights are then either the given weights
    unchanged or the given weights each divided by their total, under the
    same keys in the same order: each weight is divided by the total when
    the total is at least 0.011 away from 1.0, and the weights are left
    as given when the total is at most 0.009 away from 1.0 (the code's
    test is [abs(total - 1.0) > 0.01]).  The engine's weights sum to
    within 0.011 of 1.0, not necessarily to 1.0, and no sequence of
    [calculate_score] calls changes them, so they still do after every
    call. *)
Theorem init_normalizes_beyond_tolerance given :
  match given with Some w => all_positive w | None => True end ->
  let w := given_or_default given in
  let total := py_sum (dict_values w) in
  exists eng,
    ScoringEngine_init given = Ok eng /\
    (weights eng = w \/
     weights eng = map (fun kv => (fst kv, snd kv / total)) w) /\
    (0.011 <= Qabs (total - 1) ->
       weights eng = map (fun kv => (fst kv, snd kv / total)) w /\
       forall key,
         dict_get key (weights eng)
         = option_map (fun v => v / total) (dict_get key w)) /\
    (Qabs (total - 1) <= 0.009 -> weights eng = w) /\
    (forall calls : list ScoreCall,
       weights (engine_after eng calls) = weights eng /\
       Qabs (py_sum (dict_values (weights (engine_after eng calls))) - 1)
       <= 0.011).
Proof.
  intros Hpos. assert (Ht := given_or_default_positive given Hpos).
  cbv zeta. unfold ScoringEngine_init. cbv zeta.
  set (w := given_or_default given) in *.
  set (total := py_sum (dict_values w)) in *.
  fold (normalize_weights w total).
  destruct (Qgtb (Qabs (total - 1)) 0.01) eqn:E.
  - apply Qgtb_true in E.
    destruct (Qeq_bool total 0) eqn:Ez.
    + apply Qeq_bool_iff in Ez. lra.
    + assert (Hone : py_sum (dict_values (normalize_weights w total)) == 1).
      { rewrite py_sum_normalized by lra. fold total. field. lra. }
      eexists. split; [reflexivity |]. cbn [weights].
      split; [right; reflexivity |].
      split; [intros _; split;
                [reflexivity | intros key; apply dict_get_normalize_weights] |].
      split; [intros Hle; lra |].
      intros calls. rewrite engine_after_same. cbn [weights].
      split; [reflexivity |].
      apply Qabs_Qle_condition. lra.
  - apply Qgtb_false in E.
    eexists. split; [reflexivity |]. cbn [weights].
    split; [left; reflexivity |].
    split; [intros Hfar; lra |].
    split; [intros _; reflexivity |].
    intros calls. rewrite engine_after_same. cbn [weights].
    split; [reflexivity |]. fold total. lra.
Qed.

Lemma init_normalizes_beyond_tolerance_witness :
  all_positive (equal_weights 0.5) /\
  exists eng,
    ScoringEngine_init (Some (equal_weights 0.5)) = Ok eng /\
    weights eng = equal_weights (0.5 / py_sum (dict_values (equal_weights 0.5))) /\
    forall calls : list ScoreCall,
      weights (engine_after eng calls) = weights eng /\
      Qabs (py_sum (dict_values (weights (engine_after eng calls))) - 1) <= 0.011.
Proof.
  assert (H : all_positive (equal_weights 0.5)).
  { unfold all_positive. cbn. repeat constructor. }
  split; [exact H |].
  destruct (init_normalizes_beyond_tolerance (Some (equal_weights 0.5)) H)
    as [eng [Hinit [_ [Hfar [_ Hcalls]]]]].
  exists eng. split; [exact Hinit |]. split; [| exact Hcalls].
  apply Hfar. vm_compute. discriminate.
Defined.

(** C9, as stated, fails: five positive weights of 0.201 sum to 1.005,
    construction leaves them as they are, and the engine's weights do not
    sum to 1.0. *)
Lemma init_keeps_sum_within_tolerance :
  all_positive (equal_weights 0.201) /\
  ScoringEngine_init (Some (equal_weights 0.201))
  = Ok {| weights := equal_weights 0.201 |} /\
  py_sum (dict_values (equal_weights 0.201)) == 1.005 /\
  ~ py_sum (dict_values (equal_weights 0.201)) == 1.
Proof.
  split; [unfold all_positive; cbn; repeat constructor |].
  split; [reflexivity |]. split; vm_compute; congruence.
Qed.

(** ** Runs *)

Section Runs.

Context {A : Type}.
Variable linked : A -> A -> bool.

Lemma runs_by_chain c :
  c <> [] -> chain linked c = true -> runs_by linked c = [c].
Proof.
  induction c as [| a c IH]; intros Hne Hc; [congruence |].
  destruct c as [| b c']; [reflexivity |].
  cbn [chain] in Hc. apply andb_prop in Hc. destruct Hc as [Hab Hc].
  cbn [runs_by]. rewrite Hab.
  cbn [runs_by] in IH. rewrite IH; [reflexivity | discriminate | exact Hc].
Qed.

Lemma runs_by_cut c d x rest :
  c <> [] -> chain linked c = true -> linked (last c d) x = false ->
  runs_by linked (c ++ x :: rest) = c :: runs_by linked (x :: rest).
Proof.
  induction c as [| a c IH]; intros Hne Hc Hcut; [congruence |].
  destruct c as [| b c'].
  - cbn [last] in Hcut. cbn [app]. cbn [runs_by]. rewrite Hcut. reflexivity.
  - cbn [chain] in Hc. apply andb_prop in Hc. destruct Hc as [Hab Hc].
    change ((a :: b :: c') ++ x :: rest) with (a :: ((b :: c') ++ x :: rest)).
    change (runs_by linked (a :: ((b :: c') ++ x :: rest)))
      with (if linked a b
            then match runs_by linked ((b :: c') ++ x :: rest) with
                 | r :: rs => (a :: r) :: rs
                 | [] => [[a]]
                 end
            else [a] :: runs_by linked ((b :: c') ++ x :: rest)).
    rewrite Hab, IH; [reflexivity | discriminate | exact Hc | exact Hcut].
Qed.

Lemma runs_by_isolated x rest :
  (forall y, linked x y = false) ->
  runs_by linked (x :: rest) = [x] :: runs_by linked rest.
Proof.
  intros Hx. destruct rest as [| y rest']; [reflexivity |].
  cbn [runs_by]. rewrite Hx. reflexivity.
Qed.

Lemma chain_snoc c d x :
  c <> [] -> chain linked c = true -> linked (last c d) x = true ->
  chain linked (c ++ [x]) = true.
Proof.
  induction c as [| a c IH]; intros Hne Hc Hl; [congruence |].
  destruct c as [| b c'].
  - cbn in *. rewrite Hl. reflexivity.
  - cbn [chain] in Hc. apply andb_prop in Hc. destruct Hc as [Hab Hc].
    change (chain linked ((a :: b :: c') ++ [x]))
      with (linked a b && chain linked ((b :: c') ++ [x])).
    rewrite Hab, IH; [reflexivity | discriminate | exact Hc | exact Hl].
Qed.

(** The runs are a partition of the sequence, in order... *)
Lemma concat_runs_by xs : List.concat (runs_by linked xs) = xs.
Proof.
  induction xs as [| x rest IH]; [reflexivity |].
  destruct rest as [| y rest']; [reflexivity |].
  cbn [runs_by]. cbn [runs_by] in IH.
  destruct (linked x y).
  - destruct (match rest' with
              | [] => [[y]]
              | z :: _ =>
                  if linked y z
                  then match runs_by linked rest' with
                       | r :: rs => (y :: r) :: rs
                       | [] => [[y]]
                       end
                  else [y] :: runs_by linked rest'
              end) as [| r rs] eqn:E.
    + discriminate IH.
    + cbn [List.concat app] in *. rewrite IH. reflexivity.
  - cbn [List.concat app]. rewrite IH. reflexivity.
Qed.

(** ...each of them a non-empty chain of linked neighbours. *)
Lemma runs_by_chains xs :
  Forall (fun r => r <> [] /\ chain linked r = true) (runs_by linked xs).
Proof.
  induction xs as [| x rest IH]; [constructor |].
  destruct rest as [| y rest'].
  - repeat constructor. discriminate.
  - assert (Hhd : exists r rs, runs_by linked (y :: rest') = (y :: r) :: rs).
    { clear IH. cbn [runs_by]. destruct rest' as [| z rest'']; [eauto |].
      destruct (linked y z); [| eauto].
      destruct (runs_by linked (z :: rest'')); eauto. }
    destruct Hhd as [r [rs Hrs]].
    change (runs_by linked (x :: y :: rest'))
      with (if linked x y
            then match runs_by linked (y :: rest') with
                 | r :: rs => (x :: r) :: rs
                 | [] => [[x]]
                 end
            else [x] :: runs_by linked (y :: rest')).
    rewrite Hrs in *. inversion IH as [| ? ? [_ Hr] Hrest]; subst.
    destruct (linked x y) eqn:Hxy.
    + constructor; [| exact Hrest]. split; [discriminate |].
      cbn [chain]. cbn [chain] in Hr. rewrite Hxy, Hr. reflexivity.
    + constructor; [split; [discriminate | reflexivity] |].
      constructor; [| exact Hrest]. split; [discriminate | exact Hr].
Qed.

End Runs.

Lemma forallb_last {A : Type} (p : A -> bool) (c : list A) (d : A) :
  c <> [] -> forallb p c = true -> p (last c d) = true.
Proof.
  induction c as [| a c IH]; intros Hne Hall; [congruence |].
  cbn [forallb] in Hall. apply andb_prop in Hall. destruct Hall as [Ha Hc].
  destruct c as [| b c']; [exact Ha |].
  cbn [last]. cbn [last] in IH. apply IH; [discriminate | exact Hc].
Qed.

(** ** Generic window search *)

Lemma create_window_defined forecasts :
  forecasts <> [] ->
  exists w, _create_window forecasts = Ok w /\ ow_forecasts w = forecasts.
Proof.
  intros Hne. destruct forecasts as [| f0 rest]; [congruence |].
  unfold _create_window. cbn [map mean bind]. eexists. split; reflexivity.
Qed.

Lemma contiguous_loop_runs min_hours fs :
  forall windows current,
    current <> [] -> chain within_two_hours current = true ->
    exists ws,
      (st <- contiguous_loop min_hours fs windows current ;;
       close_last_window min_hours st) = Ok (windows ++ ws) /\
      map ow_forecasts ws = filter (long_enough min_hours) (gap_runs (current ++ fs)).
Proof.
  unfold gap_runs.
  induction fs as [| f rest IH]; intros windows current Hne Hc.
  - cbn [contiguous_loop bind close_last_window]. rewrite app_nil_r.
    rewrite runs_by_chain by assumption. cbn [filter]. unfold long_enough.
    destruct (Z.of_nat (List.length current) >=? min_hours)%Z.
    + destruct (create_window_defined current Hne) as [w [Hw Hf]].
      rewrite Hw. cbn [bind]. exists [w]. cbn [map]. rewrite Hf. split; reflexivity.
    + exists []. rewrite app_nil_r. split; reflexivity.
  - destruct current as [| c0 cs]; [congruence |].
    cbn [contiguous_loop]. set (current := c0 :: cs) in *.
    replace (sf_timestamp f - sf_timestamp (last current c0) <=? two_hours)%Z
      with (within_two_hours (last current c0) f) by reflexivity.
    destruct (within_two_hours (last current c0) f) eqn:Hlink.
    + destruct (IH windows (current ++ [f])) as [ws [Hrun Hws]].
      * discriminate.
      * apply (chain_snoc _ current c0); assumption.
      * exists ws. rewrite <- app_assoc in Hws. split; assumption.
    + rewrite (runs_by_cut _ current c0) by assumption. cbn [filter].
      fold (long_enough min_hours current).
      destruct (long_enough min_hours current).
      * destruct (create_window_defined current Hne) as [w [Hw Hf]].
        rewrite Hw. cbn [bind].
        destruct (IH (windows ++ [w]) [f]) as [ws [Hrun Hws]];
          [discriminate | reflexivity |].
        exists (w :: ws). rewrite <- app_assoc in Hrun. cbn [app] in Hrun, Hws.
        split; [exact Hrun |]. cbn [map]. rewrite Hf, Hws. reflexivity.
      * destruct (IH windows [f]) as [ws [Hrun Hws]];
          [discriminate | reflexivity |].
        exists ws. split; assumption.
Qed.

Lemma find_contiguous_windows_runs fs min_hours :
  exists ws,
    _find_contiguous_windows fs min_hours = Ok ws /\
    map ow_forecasts ws = filter (long_enough min_hours) (gap_runs fs).
Proof.
  destruct fs as [| f rest].
  - exists []. split; reflexivity.
  - unfold _find_contiguous_windows. cbn [contiguous_loop app].
    destruct (contiguous_loop_runs min_hours rest [] [f]) as [ws [Hrun Hws]];
      [discriminate | reflexivity |].
    exists ws. split; assumption.
Qed.

(** ** Per-target window search *)

Section AltitudeWindows.

Variables min_altitude min_duration_hours min_score : Q.

Let suit := is_suitable min_altitude min_score.
Let link := suitable_link min_altitude min_score.

Lemma unsuitable_isolated v :
  suit v = false -> forall y, link v y = false.
Proof. intros Hv y. unfold link, suitable_link. fold suit. rewrite Hv. reflexivity. Qed.

Lemma unsuitable_not_linked u v :
  suit v = false -> link u v = false.
Proof.
  intros Hv. unfold link, suitable_link. fold suit. rewrite Hv.
  destruct (suit u); reflexivity.
Qed.

Lemma altitude_runs_cut current d v rest :
  current <> [] -> chain link current = true -> forallb suit current = true ->
  link (last current d) v = false ->
  altitude_runs min_altitude min_score (current ++ v :: rest)
  = current :: altitude_runs min_altitude min_score (v :: rest).
Proof.
  intros Hne Hc Hall Hcut. unfold altitude_runs. fold suit link.
  rewrite (runs_by_cut link current d) by assumption.
  cbn [filter]. rewrite Hall. reflexivity.
Qed.

Lemma altitude_runs_skip v rest :
  suit v = false ->
  altitude_runs min_altitude min_score (v :: rest)
  = altitude_runs min_altitude min_score rest.
Proof.
  intros Hv. unfold altitude_runs. fold suit link.
  rewrite runs_by_isolated by (apply unsuitable_isolated; exact Hv).
  cbn [filter forallb]. rewrite Hv. reflexivity.
Qed.

Lemma altitude_loop_runs vs :
  forall windows current,
    chain link current = true -> forallb suit current = true ->
    close_last_altitude_window min_duration_hours
      (altitude_loop min_altitude min_duration_hours min_score vs windows current)
    = windows ++ filter (lasts_enough min_duration_hours)
                        (altitude_runs min_altitude min_score (current ++ vs)).
Proof.
  induction vs as [| v rest IH]; intros windows current Hc Hall.
  - cbn [altitude_loop close_last_altitude_window]. rewrite app_nil_r.
    destruct current as [| c0 cs].
    + cbn. rewrite app_nil_r. reflexivity.
    + unfold altitude_runs. fold suit link.
      rewrite runs_by_chain by (assumption || discriminate).
      cbn [filter nonempty andb]. rewrite Hall. cbn [filter].
      unfold lasts_enough.
      destruct (Qgeb (_window_duration_hours (c0 :: cs)) min_duration_hours);
        [reflexivity | rewrite app_nil_r; reflexivity].
  - cbn [altitude_loop]. fold suit.
    destruct (suit v) eqn:Hv.
    + destruct current as [| c0 cs].
      * rewrite (IH windows ([] ++ [v])) by reflexivity || (cbn; rewrite Hv; reflexivity).
        reflexivity.
      * set (current := c0 :: cs) in *.
        assert (Hne : current <> []) by discriminate.
        assert (Hlast : suit (last current c0) = true)
          by (apply forallb_last; assumption).
        destruct (v_time v - v_time (last current c0) <=? two_hours)%Z eqn:Hgap.
        -- rewrite IH.
           ++ rewrite <- app_assoc. reflexivity.
           ++ apply (chain_snoc link current c0); try assumption.
              unfold link, suitable_link. fold suit. rewrite Hlast, Hv, Hgap. reflexivity.
           ++ rewrite forallb_app, Hall. cbn. rewrite Hv. reflexivity.
        -- assert (Hcut : link (last current c0) v = false).
           { unfold link, suitable_link. fold suit. rewrite Hlast, Hv, Hgap. reflexivity. }
           rewrite (altitude_runs_cut current c0) by assumption.
           cbn [filter]. fold (lasts_enough min_duration_hours current).
           destruct (lasts_enough min_duration_hours current).
           ++ rewrite (IH (windows ++ [current]) [v])
                by reflexivity || (cbn; rewrite Hv; reflexivity).
              rewrite <- app_assoc. reflexivity.
           ++ rewrite (IH windows [v]) by reflexivity || (cbn; rewrite Hv; reflexivity).
              reflexivity.
    + destruct current as [| c0 cs].
      * cbn [nonempty andb app]. rewrite altitude_runs_skip by exact Hv.
        rewrite (IH windows []) by reflexivity. reflexivity.
      * set (current := c0 :: cs) in *.
        rewrite (altitude_runs_cut current c0);
          [| discriminate | assumption | assumption
           | apply unsuitable_not_linked; exact Hv].
        rewrite altitude_runs_skip by exact Hv.
        change (nonempty current) with true. cbn [andb filter].
        fold (lasts_enough min_duration_hours current).
        destruct (lasts_enough min_duration_hours current).
        -- rewrite (IH (windows ++ [current]) []) by reflexivity.
           rewrite <- app_assoc. reflexivity.
        -- rewrite (IH windows []) by reflexivity. reflexivity.
Qed.

Lemma find_altitude_windows_runs vs :
  _find_altitude_windows vs min_altitude min_duration_hours min_score
  = filter (lasts_enough min_duration_hours)
           (altitude_runs min_altitude min_score vs).
Proof.
  unfold _find_altitude_windows.
  rewrite (altitude_loop_runs vs [] []) by reflexivity. reflexivity.
Qed.

(** Without a suitable entry the loop never opens a window. *)
Lemma altitude_loop_unsuitable vs :
  forall windows,
    Forall (fun v => suit v = false) vs ->
    altitude_loop min_altitude min_duration_hours min_score vs windows []
    = (windows, []).
Proof.
  induction vs as [| v rest IH]; intros windows Hall; [reflexivity |].
  inversion Hall as [| ? ? Hv Hrest]; subst.
  cbn [altitude_loop]. fold suit. rewrite Hv. cbn [nonempty andb].
  apply IH. exact Hrest.
Qed.

End AltitudeWindows.

(** ** Duration of a run at hourly cadence *)

Lemma hourly_last v0 r d :
  hourly (map v_time (v0 :: r)) ->
  v_time (last (v0 :: r) d) = (v_time v0 + 3600 * Z.of_nat (List.length r))%Z.
Proof.
  revert v0. induction r as [| v1 r IH]; intros v0 Hh.
  - cbn. lia.
  - cbn [map hourly] in Hh. destruct Hh as [H1 Hh].
    change (last (v0 :: v1 :: r) d) with (last (v1 :: r) d).
    rewrite IH by exact Hh. rewrite H1. cbn [List.length]. lia.
Qed.

Lemma hourly_duration r :
  hourly (map v_time r) -> (2 <= List.length r)%nat ->
  _window_duration_hours r == inject_Z (Z.of_nat (List.length r)) - 1.
Proof.
  intros Hh Hlen. destruct r as [| v0 [| v1 r]]; cbn [List.length] in Hlen; try lia.
  unfold _window_duration_hours.
  rewrite (hourly_last v0 (v1 :: r) v0 Hh).
  replace (v_time v0 + 3600 * Z.of_nat (List.length (v1 :: r)) - v_time v0)%Z
    with (3600 * Z.of_nat (List.length (v1 :: r)))%Z by lia.
  replace (Z.of_nat (List.length (v0 :: v1 :: r)))
    with (Z.of_nat (List.length (v1 :: r)) + 1)%Z by (cbn [List.length]; lia).
  rewrite inject_Z_mult, inject_Z_plus.
  change (inject_Z 3600) with 3600. change (inject_Z 1) with 1.
  field.
Qed.

(** C3, as the code has it.  The two searches cut their input in two
    different ways.

    The generic search is handed the samples that are left after the
    night-time and minimum-score filter, [fs], and cuts this filtered
    list wherever a sample comes more than two hours after the one
    before it ([gap_runs]): a sample that was filtered out ends a run
    only if it leaves such a gap, so at hourly cadence one filtered-out
    hour between two kept samples does not end a run.  It emits exactly
    the runs with at least [min_hours] members, and raises nothing.

    The per-target search is handed the unfiltered entries, [vs], and
    cuts them at every unsuitable entry and wherever a suitable entry
    comes more than two hours after the suitable one before it
    ([altitude_runs]): every unsuitable entry ends a run.  It emits
    exactly the runs whose duration is at least [min_duration_hours],
    where a single-entry run lasts 1 hour and a longer run lasts from its
    first to its last entry: at hourly cadence, one hour less than its
    number of members. *)
Theorem windows_are_the_long_runs :
  (forall fs min_hours,
     exists ws,
       _find_contiguous_windows fs min_hours = Ok ws /\
       map ow_forecasts ws = filter (long_enough min_hours) (gap_runs fs)) /\
  (forall vs min_altitude min_duration_hours min_score,
     _find_altitude_windows vs min_altitude min_duration_hours min_score
     = filter (lasts_enough min_duration_hours)
              (altitude_runs min_altitude min_score vs)) /\
  (forall v, _window_duration_hours [v] = 1) /\
  (forall r,
     hourly (map v_time r) -> (2 <= List.length r)%nat ->
     _window_duration_hours r == inject_Z (Z.of_nat (List.length r)) - 1).
Proof.
  split; [exact find_contiguous_windows_runs |].
  split; [intros; apply find_altitude_windows_runs |].
  split; [reflexivity | exact hourly_duration].
Qed.

Lemma windows_are_the_long_runs_witness :
  hourly (map v_time two_hourly_entries) /\
  (2 <= List.length two_hourly_entries)%nat /\
  _window_duration_hours two_hourly_entries
  == inject_Z (Z.of_nat (List.length two_hourly_entries)) - 1.
Proof.
  assert (Hh : hourly (map v_time two_hourly_entries)) by (cbn; auto).
  assert (Hl : (2 <= List.length two_hourly_entries)%nat) by (cbn; lia).
  split; [exact Hh |]. split; [exact Hl |].
  exact (proj2 (proj2 (proj2 windows_are_the_long_runs)) two_hourly_entries Hh Hl).
Defined.

(** C3, as stated, fails in the per-target search: two suitable entries
    one hour apart form a maximal run with 2 members, yet with
    [min_duration_hours = 2] no window is emitted, because the run lasts
    only 1 hour. *)
Lemma two_member_run_not_emitted :
  hourly (map v_time two_hourly_entries) /\
  altitude_runs 30 40 two_hourly_entries = [two_hourly_entries] /\
  2 <= inject_Z (Z.of_nat (List.length two_hourly_entries)) /\
  _find_altitude_windows two_hourly_entries 30 2 40 = [].
Proof.
  split; [cbn; auto |]. split; [reflexivity |].
  split; [vm_compute; congruence | reflexivity].
Qed.

(** The two ways of cutting, on three hourly entries whose middle one
    scores too low.  The generic search keeps the first and the third
    sample, finds them two hours apart and emits them as one window of
    two members.  The per-target search ends the run at the middle entry,
    is left with two single-entry runs of 1 hour each, and emits nothing
    for a minimum of 2 hours. *)
Lemma one_poor_hour_between :
  hourly (map sf_timestamp gapped_night) /\
  map v_forecast gapped_entries = gapped_night /\
  gap_runs (filter (fun f => sf_is_night f && Qgeb (total_score (sf_score f)) 40)
                   gapped_night)
  = [[night_forecast 0 80; night_forecast 7200 80]] /\
  (exists w,
     find_best_window gapped_night 40 2 = Ok (Some w) /\
     ow_forecasts w = [night_forecast 0 80; night_forecast 7200 80]) /\
  altitude_runs 30 40 gapped_entries
  = [[night_entry 0 80 45]; [night_entry 7200 80 45]] /\
  _find_altitude_windows gapped_entries 30 2 40 = [].
Proof.
  split; [cbn; auto |]. split; [reflexivity |]. split; [reflexivity |].
  split; [eexists; split; reflexivity |]. split; reflexivity.
Qed.

(** ** Forecasts without a qualifying sample *)

Lemma filter_none {A : Type} (p : A -> bool) (l : list A) :
  Forall (fun x => p x = false) l -> filter p l = [].
Proof.
  induction 1 as [| x l Hx Hl IH]; [reflexivity |].
  cbn [filter]. rewrite Hx. exact IH.
Qed.

Lemma Forall_filter {A : Type} (P : A -> Prop) (p : A -> bool) (l : list A) :
  Forall P l -> Forall P (filter p l).
Proof.
  induction 1 as [| x l Hx Hl IH]; [constructor |].
  cbn [filter]. destruct (p x); [constructor |]; assumption.
Qed.

Lemma find_best_window_none fs min_score min_duration_hours :
  Forall (fun f => sf_is_night f && Qgeb (total_score (sf_score f)) min_score = false) fs ->
  find_best_window fs min_score min_duration_hours = Ok None.
Proof.
  intros Hall. unfold find_best_window.
  destruct fs as [| f rest]; [reflexivity |].
  rewrite (filter_none _ _ Hall). cbn [List.length].
  destruct (Z.of_nat 0 <? min_duration_hours)%Z; reflexivity.
Qed.

Lemma find_altitude_windows_none vs min_altitude min_duration_hours min_score :
  Forall (fun v => is_suitable min_altitude min_score v = false) vs ->
  _find_altitude_windows vs min_altitude min_duration_hours min_score = [].
Proof.
  intros Hall. unfold _find_altitude_windows.
  rewrite altitude_loop_unsuitable by exact Hall. reflexivity.
Qed.

(** C10: when the forecast sequence is empty, or holds no qualifying
    sample, the best-window search returns no window ([None]) and the
    per-target imaging-window search returns the empty list; neither
    raises. *)
Theorem no_qualifying_sample_no_window :
  (forall fs min_score min_duration_hours,
     Forall (fun f => sf_is_night f && Qgeb (total_score (sf_score f)) min_score = false) fs ->
     find_best_window fs min_score min_duration_hours = Ok None) /\
  (forall (CelestialObject Location TimelapseWindow : Type)
          (catalog_search : string -> option CelestialObject)
          (get_target_position : CelestialObject -> Location -> Z -> Q * Q)
          (create : list VisEntry -> CelestialObject -> Location -> option TimelapseWindow)
          (average : TimelapseWindow -> Q)
          target_name location fs duration_hours min_altitude target_date min_score,
     (forall target,
        Forall (fun v => is_suitable min_altitude min_score v = false)
               (build_visibility CelestialObject Location get_target_position
                  target location min_altitude fs)) ->
     find_imaging_windows CelestialObject Location TimelapseWindow
       catalog_search get_target_position create average
       target_name location fs duration_hours min_altitude target_date min_score
     = []).
Proof.
  split; [exact find_best_window_none |].
  intros CO Loc TW search pos create average name location fs dur alt date score Hall.
  unfold find_imaging_windows.
  destruct (search name) as [target |]; [| reflexivity].
  destruct fs as [| f rest]; [reflexivity |].
  rewrite find_altitude_windows_none; [reflexivity |].
  destruct date as [d |]; [apply Forall_filter |]; apply Hall.
Qed.

Lemma no_qualifying_sample_no_window_witness :
  Forall (fun f => sf_is_night f && Qgeb (total_score (sf_score f)) 50 = false) poor_night /\
  find_best_window poor_night 50 2%Z = Ok None /\
  find_best_window [] 50 2%Z = Ok None /\
  find_imaging_windows unit unit unit
    (fun _ => Some tt) (fun _ _ _ => (45, 180)) (fun _ _ _ => Some tt) (fun _ => 0)
    "M31" tt poor_night 4 30 None 40 = [] /\
  find_imaging_windows unit unit unit
    (fun _ => Some tt) (fun _ _ _ => (45, 180)) (fun _ _ _ => Some tt) (fun _ => 0)
    "M31" tt [] 4 30 None 40 = [].
Proof.
  assert (Hp : Forall (fun f => sf_is_night f && Qgeb (total_score (sf_score f)) 50 = false)
                      poor_night) by (repeat constructor).
  split; [exact Hp |].
  split; [exact (proj1 no_qualifying_sample_no_window poor_night 50 2%Z Hp) |].
  split; [exact (proj1 no_qualifying_sample_no_window [] 50 2%Z (Forall_nil _)) |].
  split.
  - apply (proj2 no_qualifying_sample_no_window). intros target. repeat constructor.
  - apply (proj2 no_qualifying_sample_no_window). intros target. constructor.
Defined.

(** * Further properties *)

From Stdlib Require Import Sorted Permutation.

(** ** core/utils.py *)

(** X1: [clamp] lands in the range, leaves a value of the range alone and
    is idempotent; with the bounds the wrong way round it returns the
    lower one. *)
Theorem clamp_spec v lo hi :
  (lo <= hi -> lo <= clamp v lo hi <= hi) /\
  (lo <= v <= hi -> clamp v lo hi == v) /\
  (lo <= hi -> clamp (clamp v lo hi) lo hi == clamp v lo hi) /\
  (hi < lo -> clamp v lo hi == lo).
Proof.
  unfold clamp, py_max, py_min.
  repeat split; intros; repeat qtest; lra.
Qed.

Lemma clamp_spec_witness :
  0 <= 100 /\ 0 <= clamp 130 0 100 <= 100.
Proof.
  assert (H : 0 <= 100) by lra.
  split; [exact H |]. exact (proj1 (clamp_spec 130 0 100) H).
Defined.

Lemma linear_interpolate_between v a b c d :
  a < b -> a <= v <= b ->
  (c <= d -> c <= linear_interpolate v a b c d <= d) /\
  (d <= c -> d <= linear_interpolate v a b c d <= c) /\
  linear_interpolate a a b c d == c /\
  linear_interpolate b a b c d == d /\
  linear_interpolate v a a c d = c.
Proof.
  intros Hab Hv.
  assert (Hv' := linear_interpolate_affine v a b c d Hab).
  assert (Ha' := linear_interpolate_affine a a b c d Hab).
  assert (Hb' := linear_interpolate_affine b a b c d Hab).
  split; [| split; [| split; [| split]]].
  - intros Hcd. set (L := linear_interpolate v a b c d) in *. split; nra.
  - intros Hcd. set (L := linear_interpolate v a b c d) in *. split; nra.
  - set (L := linear_interpolate a a b c d) in *. nra.
  - set (L := linear_interpolate b a b c d) in *. nra.
  - unfold linear_interpolate. rewrite Qeq_bool_refl. reflexivity.
Qed.


Lemma linear_interpolate_direction v1 v2 a b c d :
  a < b -> v1 <= v2 ->
  (c <= d -> linear_interpolate v1 a b c d <= linear_interpolate v2 a b c d) /\
  (d <= c -> linear_interpolate v2 a b c d <= linear_interpolate v1 a b c d).
Proof.
  intros Hab Hv.
  assert (H1 := linear_interpolate_affine v1 a b c d Hab).
  assert (H2 := linear_interpolate_affine v2 a b c d Hab).
  set (L1 := linear_interpolate v1 a b c d) in *.
  set (L2 := linear_interpolate v2 a b c d) in *.
  split; intros Hcd; nra.
Qed.


(** X2: Over an input range [a < b] the interpolation meets its two output
    values at the two ends and stays between them inside the range,
    whichever is the larger; everywhere it runs in their direction,
    rising with the input when the second is the larger and falling
    when it is the smaller.  An empty input range gives the first
    output value, without a division. *)
Theorem linear_interpolate_spec a b c d :
  a < b ->
  linear_interpolate a a b c d == c /\
  linear_interpolate b a b c d == d /\
  (forall v, a <= v <= b ->
     (c <= d -> c <= linear_interpolate v a b c d <= d) /\
     (d <= c -> d <= linear_interpolate v a b c d <= c)) /\
  (forall v1 v2, v1 <= v2 ->
     (c <= d -> linear_interpolate v1 a b c d <= linear_interpolate v2 a b c d) /\
     (d <= c -> linear_interpolate v2 a b c d <= linear_interpolate v1 a b c d)) /\
  (forall v, linear_interpolate v a a c d = c).
Proof.
  intros Hab.
  assert (Ha : a <= a <= b) by lra.
  destruct (linear_interpolate_between a a b c d Hab Ha) as [_ [_ [Hl [Hr _]]]].
  split; [exact Hl |]. split; [exact Hr |]. split; [| split].
  - intros v Hv.
    destruct (linear_interpolate_between v a b c d Hab Hv) as [H1 [H2 _]].
    split; assumption.
  - intros v1 v2 Hv. apply linear_interpolate_direction; assumption.
  - intros v. unfold linear_interpolate. rewrite Qeq_bool_refl. reflexivity.
Qed.

Lemma linear_interpolate_spec_witness :
  2 < 5 /\
  linear_interpolate 2 2 5 80 100 == 80 /\
  linear_interpolate 5 2 5 80 100 == 100.
Proof.
  assert (H : 2 < 5) by lra.
  split; [exact H |].
  destruct (linear_interpolate_spec 2 5 80 100 H) as [H1 [H2 _]].
  split; [exact H1 | exact H2].
Defined.

(** ** scoring/components.py *)

Lemma temperature_differential_score_monotone w1 w2 :
  temperature_differential w1 <= temperature_differential w2 ->
  calculate_temperature_differential_score w1
  <= calculate_temperature_differential_score w2.
Proof.
  intros H. unfold calculate_temperature_differential_score. cbv zeta.
  set (d1 := temperature_differential w1) in *.
  set (d2 := temperature_differential w2) in *.
  repeat qtest; interp; lra.
Qed.


Lemma temperature_differential_score_bounds w :
  calculate_temperature_differential_score w <= 100 /\
  (0 <= calculate_temperature_differential_score w
   <-> -(2#3) <= temperature_differential w).
Proof.
  unfold calculate_temperature_differential_score. cbv zeta.
  set (d := temperature_differential w).
  split; [| split; intros H].
  - repeat qtest; interp; lra.
  - revert H. repeat qtest; interp; intros H; lra.
  - revert H. repeat qtest; interp; intros H; lra.
Qed.

(** X3: A larger temperature differential never gives a smaller
    temperature-differential score.  The score never exceeds 100, and
    it is non-negative exactly when the dew point is at most 2/3 of a
    degree above the temperature. *)
Theorem temperature_differential_score_spec :
  (forall w1 w2,
     temperature_differential w1 <= temperature_differential w2 ->
     calculate_temperature_differential_score w1
     <= calculate_temperature_differential_score w2) /\
  (forall w,
     calculate_temperature_differential_score w <= 100 /\
     (0 <= calculate_temperature_differential_score w
      <-> -(2#3) <= temperature_differential w)).
Proof.
  split.
  - intros w1 w2 H. apply temperature_differential_score_monotone. exact H.
  - intros w. apply temperature_differential_score_bounds.
Qed.

Lemma temperature_differential_score_spec_witness :
  temperature_differential poor_weather <= temperature_differential sample_weather /\
  calculate_temperature_differential_score poor_weather
  <= calculate_temperature_differential_score sample_weather.
Proof.
  assert (H : temperature_differential poor_weather
              <= temperature_differential sample_weather)
    by (vm_compute; congruence).
  split; [exact H |].
  exact (proj1 temperature_differential_score_spec poor_weather sample_weather H).
Defined.

(** X4: The jet-stream score is 75 without data; with data it is at least
    10, and it is at most 100 exactly when the speed is at most
    204 m/s. *)
Theorem jet_stream_score_bounds w :
  match jet_stream_speed w with
  | None => calculate_jet_stream_score w = 75
  | Some j =>
      10 <= calculate_jet_stream_score w /\
      (calculate_jet_stream_score w <= 100 <-> j <= 204)
  end.
Proof.
  unfold calculate_jet_stream_score.
  destruct (jet_stream_speed w) as [j |]; [| reflexivity].
  split; [| split; intros H].
  - repeat qtest; interp; lra.
  - revert H. repeat qtest; interp; intros H; lra.
  - revert H. repeat qtest; interp; intros H; lra.
Qed.

(** X5: The pressure score lies in [30,100] for every pressure. *)
Theorem pressure_stability_score_range w :
  30 <= calculate_pressure_stability_score w <= 100.
Proof.
  unfold calculate_pressure_stability_score. cbv zeta.
  set (p := pressure w).
  repeat (qtest; cbn [andb]); interp; lra.
Qed.

Lemma precipitation_penalty_in_range w :
  0.1 <= calculate_precipitation_penalty w <= 1.
Proof.
  unfold calculate_precipitation_penalty. cbv zeta.
  fold (probability_or_0 w). set (p := probability_or_0 w).
  repeat qtest; interp; lra.
Qed.

(** X6: The precipitation multiplier lies in [0.1, 1] for every sample, and
    without active precipitation a larger probability never gives a
    larger multiplier. *)
Theorem precipitation_penalty_range_monotone :
  (forall w, 0.1 <= calculate_precipitation_penalty w <= 1) /\
  (forall w1 w2,
     precipitation w1 <= 0 -> precipitation w2 <= 0 ->
     probability_or_0 w1 <= probability_or_0 w2 ->
     calculate_precipitation_penalty w2 <= calculate_precipitation_penalty w1).
Proof.
  split.
  - intros w. apply precipitation_penalty_in_range.
  - intros w1 w2 H1 H2 Hp. unfold calculate_precipitation_penalty. cbv zeta.
    fold (probability_or_0 w1). fold (probability_or_0 w2).
    set (p1 := probability_or_0 w1) in *. set (p2 := probability_or_0 w2) in *.
    repeat qtest; interp; lra.
Qed.

Lemma precipitation_penalty_range_monotone_witness :
  precipitation sample_weather <= 0 /\
  precipitation (with_humidity sample_weather 60) <= 0 /\
  probability_or_0 sample_weather <= probability_or_0 (with_humidity sample_weather 60) /\
  calculate_precipitation_penalty (with_humidity sample_weather 60)
  <= calculate_precipitation_penalty sample_weather.
Proof.
  assert (H1 : precipitation sample_weather <= 0) by (vm_compute; congruence).
  assert (H2 : precipitation (with_humidity sample_weather 60) <= 0)
    by (vm_compute; congruence).
  assert (H3 : probability_or_0 sample_weather
               <= probability_or_0 (with_humidity sample_weather 60))
    by (vm_compute; congruence).
  split; [exact H1 |]. split; [exact H2 |]. split; [exact H3 |].
  exact (proj2 precipitation_penalty_range_monotone _ _ H1 H2 H3).
Defined.

Lemma moon_penalty_above_horizon illumination moon_altitude :
  0 < moon_altitude ->
  exists f, 0 < f /\ f <= 1 /\ f * 45 <= moon_altitude /\
            (moon_altitude <= 45 -> f * 45 == moon_altitude) /\
            (45 <= moon_altitude -> f == 1) /\
            calculate_moon_penalty illumination moon_altitude true
            == 1 - f * (illumination / 100) * 0.5.
Proof.
  intros Ha. unfold calculate_moon_penalty.
  destruct (Qleb moon_altitude 0) eqn:E; [apply Qleb_true in E; lra |].
  cbn [negb]. cbv zeta. exists (py_min 1 (moon_altitude / 45)).
  assert (Hd : moon_altitude / 45 * 45 == moon_altitude) by (field).
  unfold py_min. qtest.
  - set (r := moon_altitude / 45) in *. repeat split; try lra; intros; lra.
  - set (r := moon_altitude / 45) in *. repeat split; try lra; intros; lra.
Qed.

Lemma moon_penalty_range illumination moon_altitude is_deep_sky :
  0 <= illumination <= 100 ->
  0.5 <= calculate_moon_penalty illumination moon_altitude is_deep_sky <= 1.
Proof.
  intros Hi.
  destruct (Qlt_le_dec 0 moon_altitude) as [Ha | Ha];
    [destruct is_deep_sky |].
  - destruct (moon_penalty_above_horizon illumination moon_altitude Ha)
      as [f [Hf0 [Hf1 [_ [_ [_ ->]]]]]].
    unfold Qdiv. change (/ 100) with (1 # 100).
    split; nra.
  - rewrite moon_penalty_neutral by (right; reflexivity). lra.
  - rewrite moon_penalty_neutral by (left; exact Ha). lra.
Qed.


Lemma moon_penalty_monotone :
  (forall i1 i2 moon_altitude is_deep_sky,
     i1 <= i2 ->
     calculate_moon_penalty i2 moon_altitude is_deep_sky
     <= calculate_moon_penalty i1 moon_altitude is_deep_sky) /\
  (forall illumination a1 a2 is_deep_sky,
     0 <= illumination -> a1 <= a2 ->
     calculate_moon_penalty illumination a2 is_deep_sky
     <= calculate_moon_penalty illumination a1 is_deep_sky).
Proof.
  split.
  - intros i1 i2 a deep Hi.
    destruct (Qlt_le_dec 0 a) as [Ha | Ha]; [destruct deep |].
    + unfold calculate_moon_penalty.
      destruct (Qleb a 0) eqn:E; [apply Qleb_true in E; lra |].
      cbn [negb]. cbv zeta.
      assert (Hf : 0 <= py_min 1 (a / 45)).
      { apply py_min_lower; [lra |].
        unfold Qdiv. change (/ 45) with (1 # 45). lra. }
      set (f := py_min 1 (a / 45)) in *.
      unfold Qdiv. change (/ 100) with (1 # 100). nra.
    + rewrite !moon_penalty_neutral by (right; reflexivity). lra.
    + rewrite !moon_penalty_neutral by (left; exact Ha). lra.
  - intros i a1 a2 deep Hi Ha.
    destruct deep;
      [| rewrite !moon_penalty_neutral by (right; reflexivity); lra].
    destruct (Qlt_le_dec 0 a1) as [H1 | H1].
    + assert (H2 : 0 < a2) by lra.
      destruct (moon_penalty_above_horizon i a1 H1)
        as [f1 [F10 [F11 [F12 [F13 [F14 ->]]]]]].
      destruct (moon_penalty_above_horizon i a2 H2)
        as [f2 [F20 [F21 [F22 [F23 [F24 ->]]]]]].
      assert (Hf : f1 <= f2).
      { destruct (Qlt_le_dec a2 45) as [L | L].
        - assert (f1 * 45 == a1) by (apply F13; lra).
          assert (f2 * 45 == a2) by (apply F23; lra). lra.
        - assert (f2 == 1) by (apply F24; lra). lra. }
      unfold Qdiv. change (/ 100) with (1 # 100). nra.
    + rewrite (moon_penalty_neutral i a1 true) by (left; exact H1).
      destruct (Qlt_le_dec 0 a2) as [H2 | H2].
      * destruct (moon_penalty_above_horizon i a2 H2)
          as [f2 [F20 [F21 [_ [_ [_ ->]]]]]].
        unfold Qdiv. change (/ 100) with (1 # 100). nra.
      * rewrite moon_penalty_neutral by (left; exact H2). lra.
Qed.


Lemma airmass_penalty_at_least_half airmass :
  0.5 <= calculate_airmass_penalty airmass.
Proof.
  unfold calculate_airmass_penalty. repeat qtest; interp; lra.
Qed.

(** X7: For an illumination in [0,100] the moon multiplier lies in
    [0.5, 1], whatever the moon altitude and the kind of target.  A
    brighter moon never gives a larger multiplier, and for a
    non-negative illumination a higher moon never gives a larger
    multiplier. *)
Theorem moon_penalty_spec :
  (forall illumination moon_altitude is_deep_sky,
     0 <= illumination <= 100 ->
     0.5 <= calculate_moon_penalty illumination moon_altitude is_deep_sky <= 1) /\
  (forall i1 i2 moon_altitude is_deep_sky,
     i1 <= i2 ->
     calculate_moon_penalty i2 moon_altitude is_deep_sky
     <= calculate_moon_penalty i1 moon_altitude is_deep_sky) /\
  (forall illumination a1 a2 is_deep_sky,
     0 <= illumination -> a1 <= a2 ->
     calculate_moon_penalty illumination a2 is_deep_sky
     <= calculate_moon_penalty illumination a1 is_deep_sky).
Proof.
  split; [| split].
  - intros i a deep Hi. apply moon_penalty_range. exact Hi.
  - intros i1 i2 a deep Hi. apply (proj1 moon_penalty_monotone). exact Hi.
  - intros i a1 a2 deep Hi Ha. apply (proj2 moon_penalty_monotone); assumption.
Qed.

Lemma moon_penalty_spec_witness :
  0 <= 90 <= 100 /\ 0.5 <= calculate_moon_penalty 90 45 true <= 1.
Proof.
  assert (H : 0 <= 90 <= 100) by lra.
  split; [exact H |]. exact (proj1 moon_penalty_spec 90 45 true H).
Defined.

(** X8: The airmass multiplier is never below 0.5, and it is at most 1.0
    exactly when the airmass is at most 29/3. *)
Theorem airmass_penalty_bounds airmass :
  0.5 <= calculate_airmass_penalty airmass /\
  (calculate_airmass_penalty airmass <= 1 <-> airmass <= 29 # 3).
Proof.
  split; [apply airmass_penalty_at_least_half |].
  unfold calculate_airmass_penalty. split; intros H.
  - revert H. repeat qtest; interp; intros H; lra.
  - revert H. repeat qtest; interp; intros H; lra.
Qed.

(** X9: On every valid sample the scores for wind, humidity and cloud cover
    lie in [0,100]. *)
Theorem clamped_scores_stay_in_range w :
  valid_weather w ->
  0 <= calculate_wind_stability_score w <= 100 /\
  0 <= calculate_humidity_score w <= 100 /\
  0 <= calculate_cloud_cover_score w <= 100.
Proof.
  intros [Hh _].
  split; [apply wind_stability_score_range |].
  split; [apply humidity_score_range; exact Hh | apply cloud_cover_score_range].
Qed.

Lemma clamped_scores_stay_in_range_witness :
  valid_weather poor_weather /\
  0 <= calculate_wind_stability_score poor_weather <= 100 /\
  0 <= calculate_humidity_score poor_weather <= 100 /\
  0 <= calculate_cloud_cover_score poor_weather <= 100.
Proof.
  assert (H : valid_weather poor_weather)
    by (repeat split; vm_compute; congruence).
  split; [exact H |]. exact (clamped_scores_stay_in_range poor_weather H).
Defined.

(** ** scoring/engine.py *)

Lemma score_penalties_shape weather mi ma airmass deep :
  score_penalties weather mi ma airmass deep
  = (if Qltb (calculate_moon_penalty mi ma deep) 1
     then [("moon"%string, calculate_moon_penalty mi ma deep)] else [])
    ++ match airmass with
       | Some a =>
           if Qltb (calculate_airmass_penalty a) 1
           then [("airmass"%string, calculate_airmass_penalty a)] else []
       | None => []
       end
    ++ (if Qltb (calculate_precipitation_penalty weather) 1
        then [("precipitation"%string, calculate_precipitation_penalty weather)]
        else []).
Proof.
  unfold score_penalties. cbv zeta.
  destruct (Qltb (calculate_moon_penalty mi ma deep) 1);
    destruct airmass as [a |];
    try destruct (Qltb (calculate_airmass_penalty a) 1);
    destruct (Qltb (calculate_precipitation_penalty weather) 1);
    reflexivity.
Qed.

(** X10: A weights dict that lacks one of the five component names makes
    [calculate_score] raise [KeyError], whatever the sample. *)
Theorem calculate_score_key_error self weather mi ma airmass deep :
  (exists key, In key component_names /\ dict_get key (weights self) = None) ->
  calculate_score self weather mi ma airmass deep = Raise KeyError.
Proof.
  intros [key [Hin Hnone]]. unfold calculate_score.
  assert (Hw : weighted_terms (score_components weather) (weights self)
               = Raise KeyError).
  { unfold score_components, weighted_terms, dict_index.
    unfold component_names in Hin. cbn [In] in Hin.
    destruct Hin as [<- | [<- | [<- | [<- | [<- | []]]]]];
      rewrite Hnone;
      repeat match goal with
             | |- context [dict_get ?k (weights self)] =>
                 destruct (dict_get k (weights self)); cbn [bind]
             end; reflexivity. }
  rewrite Hw. reflexivity.
Qed.

Lemma calculate_score_key_error_witness :
  (exists key, In key component_names
               /\ dict_get key (weights {| weights := humidity_only |}) = None) /\
  calculate_score {| weights := humidity_only |} sample_weather 0 (-90) None false
  = Raise KeyError.
Proof.
  assert (H : exists key, In key component_names
              /\ dict_get key (weights {| weights := humidity_only |}) = None).
  { exists "jet_stream"%string. split; [cbn; tauto | reflexivity]. }
  split; [exact H |].
  exact (calculate_score_key_error _ sample_weather 0 (-90) None false H).
Defined.

(** X11: Construction raises [ZeroDivisionError] exactly when the weights in
    effect sum to 0; with any other sum it returns an engine. *)
Theorem init_zero_division given :
  (py_sum (dict_values (given_or_default given)) == 0 ->
   ScoringEngine_init given = Raise ZeroDivisionError) /\
  (~ py_sum (dict_values (given_or_default given)) == 0 ->
   exists eng, ScoringEngine_init given = Ok eng).
Proof.
  unfold ScoringEngine_init. cbv zeta.
  set (total := py_sum (dict_values (given_or_default given))).
  split; intros H.
  - assert (Hg : Qgtb (Qabs (total - 1)) 0.01 = true).
    { apply Qgtb_true. rewrite H. vm_compute. reflexivity. }
    rewrite Hg. apply Qeq_bool_iff in H. rewrite H. reflexivity.
  - destruct (Qgtb (Qabs (total - 1)) 0.01); [| eexists; reflexivity].
    destruct (Qeq_bool total 0) eqn:E; [| eexists; reflexivity].
    apply Qeq_bool_iff in E. contradiction.
Qed.

Lemma init_zero_division_witness :
  py_sum (dict_values (given_or_default (Some (equal_weights 0)))) == 0 /\
  ScoringEngine_init (Some (equal_weights 0)) = Raise ZeroDivisionError.
Proof.
  assert (H : py_sum (dict_values (given_or_default (Some (equal_weights 0)))) == 0)
    by (vm_compute; reflexivity).
  split; [exact H |].
  exact (proj1 (init_zero_division (Some (equal_weights 0))) H).
Defined.

Lemma given_or_default_nonempty given : given_or_default given <> [].
Proof. destruct given as [[| kv rest] |]; discriminate. Qed.

Lemma init_weights_sum given eng :
  ScoringEngine_init given = Ok eng ->
  Qabs (py_sum (dict_values (weights eng)) - 1) <= 0.01 /\ weights eng <> [].
Proof.
  unfold ScoringEngine_init. cbv zeta.
  assert (Hne := given_or_default_nonempty given).
  set (w := given_or_default given) in *.
  set (total := py_sum (dict_values w)).
  destruct (Qgtb (Qabs (total - 1)) 0.01) eqn:E.
  - destruct (Qeq_bool total 0) eqn:Ez; [discriminate |].
    intros [= <-]. cbn [weights].
    assert (Hz : ~ total == 0).
    { intros Hz. apply Qeq_bool_iff in Hz. congruence. }
    split.
    + rewrite py_sum_normalized by exact Hz. fold total.
      apply Qabs_Qle_condition.
      assert (Hone : total / total == 1) by (field; exact Hz). lra.
    + unfold normalize_weights. destruct w; [congruence | discriminate].
  - intros [= <-]. cbn [weights]. apply Qgtb_false in E. split; assumption.
Qed.

(** X12: Construction is idempotent: building a second engine from the
    weights of a built engine gives the same engine. *)
Theorem init_idempotent given eng :
  ScoringEngine_init given = Ok eng ->
  ScoringEngine_init (Some (weights eng)) = Ok eng.
Proof.
  intros H. destruct (init_weights_sum given eng H) as [Hsum Hne].
  destruct eng as [w]. cbn [weights] in *.
  unfold ScoringEngine_init. cbv zeta.
  replace (given_or_default (Some w)) with w
    by (destruct w; [congruence | reflexivity]).
  apply Qgtb_false in Hsum. rewrite Hsum. reflexivity.
Qed.

Lemma init_idempotent_witness :
  ScoringEngine_init (Some (equal_weights 0.5))
  = Ok halves_engine /\
  ScoringEngine_init (Some (weights halves_engine))
  = Ok halves_engine.
Proof.
  assert (H : ScoringEngine_init (Some (equal_weights 0.5))
              = Ok halves_engine)
    by reflexivity.
  split; [exact H |].
  exact (init_idempotent _ _ H).
Defined.

(** X13: Construction keeps the keys and their order, and scales all weights
    by one non-zero factor, so their proportions are those given. *)
Theorem init_keeps_proportions given eng :
  ScoringEngine_init given = Ok eng ->
  dict_keys (weights eng) = dict_keys (given_or_default given) /\
  exists c, ~ c == 0 /\
    Forall2 (fun old new => fst new = fst old /\ snd new * c == snd old)
            (given_or_default given) (weights eng).
Proof.
  unfold ScoringEngine_init. cbv zeta.
  set (w := given_or_default given).
  set (total := py_sum (dict_values w)).
  destruct (Qgtb (Qabs (total - 1)) 0.01).
  - destruct (Qeq_bool total 0) eqn:Ez; [discriminate |].
    assert (Hz : ~ total == 0).
    { intros Hz. apply Qeq_bool_iff in Hz. congruence. }
    intros [= <-]. cbn [weights]. split.
    + unfold dict_keys, normalize_weights. rewrite map_map. reflexivity.
    + exists total. split; [exact Hz |].
      unfold normalize_weights. clearbody total. clearbody w.
      induction w as [| [k v] rest IH]; cbn [map]; [constructor |].
      constructor; [| exact IH].
      cbn [fst snd]. split; [reflexivity | field; exact Hz].
  - intros [= <-]. cbn [weights]. split; [reflexivity |].
    exists 1. split; [lra |].
    clearbody w. induction w as [| [k v] rest IH]; [constructor |].
    constructor; [| exact IH].
    split; [reflexivity | lra].
Qed.

Lemma init_keeps_proportions_witness :
  ScoringEngine_init (Some (equal_weights 0.5))
  = Ok halves_engine /\
  dict_keys (weights halves_engine)
  = dict_keys (given_or_default (Some (equal_weights 0.5))).
Proof.
  assert (H : ScoringEngine_init (Some (equal_weights 0.5))
              = Ok halves_engine)
    by reflexivity.
  split; [exact H |].
  exact (proj1 (init_keeps_proportions _ _ H)).
Defined.

(** X14: Every penalty that [calculate_score] records is below 1.0 and is
    stored under "moon", "airmass" or "precipitation"; for an
    illumination in [0,100] it is also at least 0.1.  Without an airmass
    no "airmass" entry is recorded. *)
Theorem recorded_penalties self weather mi ma airmass deep :
  has_component_weights (weights self) ->
  exists s,
    calculate_score self weather mi ma airmass deep = Ok s /\
    (forall k v, In (k, v) (penalties s) ->
       v < 1 /\
       (k = "moon"%string \/ k = "airmass"%string \/ k = "precipitation"%string) /\
       (0 <= mi <= 100 -> 0.1 <= v)) /\
    (airmass = None -> dict_get "airmass" (penalties s) = None).
Proof.
  intros Hk.
  destruct (calculate_score_returns self weather mi ma airmass deep Hk)
    as [terms [_ Hs]].
  eexists. split; [exact Hs |]. cbn [penalties].
  rewrite score_penalties_shape. split.
  - intros k v Hin.
    apply in_app_or in Hin. destruct Hin as [Hin | Hin];
      [| apply in_app_or in Hin; destruct Hin as [Hin | Hin]].
    + destruct (Qltb (calculate_moon_penalty mi ma deep) 1) eqn:E;
        [| contradiction].
      destruct Hin as [[= <- <-] | []]. apply Qltb_true in E.
      split; [exact E |]. split; [tauto |].
      intros Hi. assert (H := moon_penalty_range mi ma deep Hi). lra.
    + destruct airmass as [a |]; [| contradiction].
      destruct (Qltb (calculate_airmass_penalty a) 1) eqn:E; [| contradiction].
      destruct Hin as [[= <- <-] | []]. apply Qltb_true in E.
      split; [exact E |]. split; [tauto |].
      intros _. assert (H := airmass_penalty_at_least_half a). lra.
    + destruct (Qltb (calculate_precipitation_penalty weather) 1) eqn:E;
        [| contradiction].
      destruct Hin as [[= <- <-] | []]. apply Qltb_true in E.
      split; [exact E |]. split; [tauto |].
      intros _.
      assert (H := precipitation_penalty_in_range weather). lra.
  - intros ->.
    destruct (Qltb (calculate_moon_penalty mi ma deep) 1);
      destruct (Qltb (calculate_precipitation_penalty weather) 1); reflexivity.
Qed.

Lemma recorded_penalties_witness :
  has_component_weights (weights default_engine) /\
  exists s,
    calculate_score default_engine poor_weather 90 45 (Some 2) true = Ok s /\
    (forall k v, In (k, v) (penalties s) ->
       v < 1 /\
       (k = "moon"%string \/ k = "airmass"%string \/ k = "precipitation"%string) /\
       (0 <= 90 <= 100 -> 0.1 <= v)) /\
    (Some 2 = None -> dict_get "airmass" (penalties s) = None).
Proof.
  split; [exact default_weights_named |].
  exact (recorded_penalties default_engine poor_weather 90 45 (Some 2) true
           default_weights_named).
Defined.

(** *** Rounding is monotone and stays within half a step *)

Lemma round_half_even_floor y :
  (Qfloor y <= round_half_even y <= Qfloor y + 1)%Z.
Proof.
  unfold round_half_even. cbv zeta.
  repeat qtest; try destruct (Z.even (Qfloor y)); lia.
Qed.

Lemma round_half_even_monotone x y :
  x <= y -> (round_half_even x <= round_half_even y)%Z.
Proof.
  intros Hxy.
  assert (Hf : (Qfloor x <= Qfloor y)%Z) by (apply Qfloor_resp_le; exact Hxy).
  destruct (Z.eq_dec (Qfloor x) (Qfloor y)) as [Heq | Hne].
  - unfold round_half_even. cbv zeta. rewrite <- Heq.
    repeat qtest; try destruct (Z.even (Qfloor x)); try lia; lra.
  - assert (H1 := round_half_even_floor x).
    assert (H2 := round_half_even_floor y). lia.
Qed.

Lemma round_half_even_close y :
  Qabs (inject_Z (round_half_even y) - y) <= 1 # 2.
Proof.
  assert (Hlo := Qfloor_le y). assert (Hhi := Qlt_floor y).
  rewrite inject_Z_plus in Hhi. change (inject_Z 1) with 1 in Hhi.
  apply Qabs_Qle_condition.
  unfold round_half_even. cbv zeta.
  repeat qtest; try destruct (Z.even (Qfloor y));
    try (rewrite inject_Z_plus; change (inject_Z 1) with 1); lra.
Qed.

Lemma round1_monotone x y : x <= y -> round1 x <= round1 y.
Proof.
  intros Hxy. unfold round1.
  assert (H : (round_half_even (x * 10) <= round_half_even (y * 10))%Z)
    by (apply round_half_even_monotone; lra).
  rewrite Zle_Qle in H.
  unfold Qdiv. change (/ 10) with (1 # 10). lra.
Qed.

Lemma round1_close x : Qabs (round1 x - x) <= 1 # 20.
Proof.
  assert (H := round_half_even_close (x * 10)).
  apply Qabs_Qle_condition in H. apply Qabs_Qle_condition.
  unfold round1, Qdiv. change (/ 10) with (1 # 10). lra.
Qed.

Lemma final_clamp_monotone x y :
  x <= y -> py_max 0 (py_min 100 x) <= py_max 0 (py_min 100 y).
Proof. intros H. unfold py_max, py_min. repeat qtest; lra. Qed.

(** X15: The total that [calculate_score] returns is a whole number of
    tenths in [0,100], within 0.05 of the weighted sum multiplied by the
    recorded penalties and clamped to [0,100]. *)
Theorem total_score_is_rounded self weather mi ma airmass deep :
  has_component_weights (weights self) ->
  exists s terms n,
    calculate_score self weather mi ma airmass deep = Ok s /\
    weighted_terms (score_components weather) (weights self) = Ok terms /\
    (0 <= n <= 1000)%Z /\
    total_score s = inject_Z n / 10 /\
    Qabs (total_score s
          - clamp (fold_left Qmult (dict_values (penalties s)) (py_sum terms)) 0 100)
    <= 0.05.
Proof.
  intros Hk.
  destruct (calculate_score_returns self weather mi ma airmass deep Hk)
    as [terms [Ht Hs]].
  eexists. exists terms. eexists.
  split; [exact Hs |]. split; [exact Ht |]. cbn [total_score penalties].
  split; [| split; [reflexivity |]].
  - apply round_half_even_bounds.
    + assert (H := final_clamp_bounds
                     (fold_left Qmult
                        (dict_values (score_penalties weather mi ma airmass deep))
                        (py_sum terms))). lra.
    + assert (H := final_clamp_bounds
                     (fold_left Qmult
                        (dict_values (score_penalties weather mi ma airmass deep))
                        (py_sum terms))).
      change (inject_Z 1000) with 1000. lra.
  - unfold clamp. eapply Qle_trans; [apply round1_close | lra].
Qed.

Lemma total_score_is_rounded_witness :
  has_component_weights (weights default_engine) /\
  exists s terms n,
    calculate_score default_engine sample_weather 10 (-10) None false = Ok s /\
    weighted_terms (score_components sample_weather) (weights default_engine)
    = Ok terms /\
    (0 <= n <= 1000)%Z /\
    total_score s = inject_Z n / 10 /\
    Qabs (total_score s
          - clamp (fold_left Qmult (dict_values (penalties s)) (py_sum terms)) 0 100)
    <= 0.05.
Proof.
  split; [exact default_weights_named |].
  exact (total_score_is_rounded default_engine sample_weather 10 (-10) None false
           default_weights_named).
Defined.

Lemma final_clamp_scaled S T c :
  0 < c -> c <= 1 -> T == c * S ->
  py_max 0 (py_min 100 T) <= py_max 0 (py_min 100 S).
Proof.
  intros H0 H1 HT. unfold py_max, py_min. repeat qtest; nra.
Qed.

(** X16: Moon and target data never raise a score: for an illumination in
    [0,100], the total of [calculate_score] with any moon altitude,
    airmass and deep-sky flag is at most the total that
    [calculate_score_simple] returns for the same sample. *)
Theorem target_data_never_raises_score self weather mi ma airmass deep :
  has_component_weights (weights self) ->
  0 <= mi <= 100 ->
  exists s t,
    calculate_score self weather mi ma airmass deep = Ok s /\
    calculate_score_simple self weather = Ok t /\
    total_score s <= t.
Proof.
  intros Hk Hi.
  destruct (calculate_score_returns self weather mi ma airmass deep Hk)
    as [terms [Ht Hs]].
  destruct (calculate_score_returns self weather 0 (-90) None false Hk)
    as [terms' [Ht' Hs']].
  rewrite Ht in Ht'. injection Ht' as <-.
  eexists. eexists. split; [exact Hs |].
  unfold calculate_score_simple. rewrite Hs'. cbn [bind total_score].
  split; [reflexivity |].
  apply round1_monotone.
  rewrite !score_penalties_shape.
  replace (calculate_moon_penalty 0 (-90) false) with 1 by reflexivity.
  replace (Qltb 1 1) with false by reflexivity. cbn [app].
  assert (Hm := moon_penalty_range mi ma deep Hi).
  set (m := calculate_moon_penalty mi ma deep) in *.
  set (p := calculate_precipitation_penalty weather).
  set (base := py_sum terms).
  assert (Ha : match airmass with
               | Some a => 0.5 <= calculate_airmass_penalty a
               | None => True
               end).
  { destruct airmass as [a |]; [apply airmass_penalty_at_least_half | exact I]. }
  destruct (Qltb m 1) eqn:Em; [apply Qltb_true in Em |];
    (destruct airmass as [a |];
     [set (q := calculate_airmass_penalty a) in *;
      destruct (Qltb q 1) eqn:Ea; [apply Qltb_true in Ea |] |]);
    destruct (Qltb p 1); cbn [app dict_values map snd fold_left].
  - apply (final_clamp_scaled _ _ (m * q)); [nra | nra | ring].
  - apply (final_clamp_scaled _ _ (m * q)); [nra | nra | ring].
  - apply (final_clamp_scaled _ _ m); [lra | lra | ring].
  - apply (final_clamp_scaled _ _ m); [lra | lra | ring].
  - apply (final_clamp_scaled _ _ m); [lra | lra | ring].
  - apply (final_clamp_scaled _ _ m); [lra | lra | ring].
  - apply (final_clamp_scaled _ _ q); [lra | lra | ring].
  - apply (final_clamp_scaled _ _ q); [lra | lra | ring].
  - apply (final_clamp_scaled _ _ 1); [lra | lra | ring].
  - apply (final_clamp_scaled _ _ 1); [lra | lra | ring].
  - apply (final_clamp_scaled _ _ 1); [lra | lra | ring].
  - apply (final_clamp_scaled _ _ 1); [lra | lra | ring].
Qed.

Lemma target_data_never_raises_score_witness :
  has_component_weights (weights default_engine) /\
  0 <= 90 <= 100 /\
  exists s t,
    calculate_score default_engine sample_weather 90 45 (Some 2) true = Ok s /\
    calculate_score_simple default_engine sample_weather = Ok t /\
    total_score s <= t.
Proof.
  assert (H : 0 <= 90 <= 100) by lra.
  split; [exact default_weights_named |]. split; [exact H |].
  exact (target_data_never_raises_score default_engine sample_weather 90 45
           (Some 2) true default_weights_named H).
Defined.

(** ** Ratings and advice *)

Lemma rating_determines_color_and_recommendation s1 s2 :
  rating s1 = rating s2 ->
  rating_color s1 = rating_color s2 /\ recommendation s1 = recommendation s2.
Proof.
  unfold rating, rating_color, recommendation.
  destruct (Qgeb (total_score s1) 85), (Qgeb (total_score s1) 70),
    (Qgeb (total_score s1) 55), (Qgeb (total_score s1) 40),
    (Qgeb (total_score s1) 25);
  destruct (Qgeb (total_score s2) 85), (Qgeb (total_score s2) 70),
    (Qgeb (total_score s2) 55), (Qgeb (total_score s2) 40),
    (Qgeb (total_score s2) 25);
  intros H; try discriminate H; split; reflexivity.
Qed.


Lemma advisor_rating_agrees s :
  (25 <= total_score s -> _score_to_rating (total_score s) = rating s) /\
  (total_score s < 25 ->
   rating s = "Bad"%string /\ _score_to_rating (total_score s) = "Poor"%string).
Proof.
  unfold _score_to_rating, rating.
  split; intros H; repeat qtest; try reflexivity; try (exfalso; lra);
    split; reflexivity.
Qed.


(** X17: The colour and the recommendation of a score follow its rating: two
    scores with the same rating have the same colour and the same
    recommendation.  The advisor's rating of a number agrees with the
    rating of a score from 25 upwards; below 25 the score is rated
    "Bad" and the advisor says "Poor". *)
Theorem rating_bands_agree :
  (forall s1 s2,
     rating s1 = rating s2 ->
     rating_color s1 = rating_color s2 /\ recommendation s1 = recommendation s2) /\
  (forall s,
     (25 <= total_score s -> _score_to_rating (total_score s) = rating s) /\
     (total_score s < 25 ->
      rating s = "Bad"%string /\
      _score_to_rating (total_score s) = "Poor"%string)).
Proof.
  split.
  - intros s1 s2 H. apply rating_determines_color_and_recommendation. exact H.
  - intros s. apply advisor_rating_agrees.
Qed.

Lemma rating_bands_agree_witness :
  rating (sf_score (night_forecast 0 80)) = rating (sf_score (night_forecast 0 72)) /\
  rating_color (sf_score (night_forecast 0 80))
  = rating_color (sf_score (night_forecast 0 72)) /\
  recommendation (sf_score (night_forecast 0 80))
  = recommendation (sf_score (night_forecast 0 72)).
Proof.
  assert (H : rating (sf_score (night_forecast 0 80))
              = rating (sf_score (night_forecast 0 72))) by reflexivity.
  split; [exact H |].
  exact (proj1 rating_bands_agree _ _ H).
Defined.

(** X18: [get_recommendations] never returns an empty list: it starts with
    the overall line for the total, which is the "Poor conditions" line
    exactly below 40, and adds at most five specific lines. *)
Theorem recommendations_start_with_overall fmt_0f fmt_1f score weather :
  exists rest,
    get_recommendations fmt_0f fmt_1f score weather
    = overall_recommendation (total_score score) :: rest /\
    (List.length rest <= 5)%nat /\
    (overall_recommendation (total_score score)
     = "Poor conditions. Consider rescheduling if possible."%string
     <-> total_score score < 40).
Proof.
  unfold get_recommendations. cbv zeta.
  assert (Hov : overall_recommendation (total_score score)
                = "Poor conditions. Consider rescheduling if possible."%string
                <-> total_score score < 40).
  { unfold overall_recommendation.
    split.
    - repeat qtest; intros H; try discriminate H; lra.
    - intros H. repeat qtest; try reflexivity; exfalso; lra. }
  set (first := overall_recommendation (total_score score)) in *.
  destruct (Qltb (dict_get_default (component_scores score) "cloud_cover" 100) 50),
    (Qgtb (cloud_cover weather) 50),
    (Qltb (dict_get_default (component_scores score) "wind_stability" 100) 60),
    (Qltb (dict_get_default (component_scores score) "humidity" 100) 60),
    (Qltb (temperature_differential weather) 3),
    (Qltb (dict_get_default (component_scores score) "temperature_differential" 100) 50),
    (dict_mem "moon" (penalties score));
    try destruct (dict_get "moon" (penalties score)) as [pen |];
    try destruct (Qltb pen 0.7);
    cbn [app]; eexists; (split; [reflexivity | split; [cbn; lia | exact Hov]]).
Qed.

Lemma if_push {A B : Type} (f : A -> B) (b : bool) (x y : A) :
  (if b then f x else f y) = f (if b then x else y).
Proof. destruct b; reflexivity. Qed.

(** X19: [get_best_targets] always fills the four entries planets, moon,
    deep_sky and imaging, in that order.  It never recommends imaging
    while rating the planets "Poor" or the Moon less than "Excellent",
    and "Excellent" imaging comes with "Excellent" planets. *)
Theorem best_targets_consistent score weather :
  dict_keys (get_best_targets score weather)
  = ["planets"; "moon"; "deep_sky"; "imaging"]%string /\
  (dict_get "imaging" (get_best_targets score weather)
   <> Some "Not recommended"%string ->
   dict_get "moon" (get_best_targets score weather) = Some "Excellent"%string /\
   dict_get "planets" (get_best_targets score weather) <> Some "Poor"%string) /\
  (dict_get "imaging" (get_best_targets score weather) = Some "Excellent"%string ->
   dict_get "planets" (get_best_targets score weather) = Some "Excellent"%string).
Proof.
  unfold get_best_targets. cbv zeta.
  set (total := total_score score).
  set (eff := total * dict_get_default (penalties score) "moon" 1).
  rewrite !(if_push (dict_set (V := string) [] "planets")).
  cbn [dict_set].
  set (P := if Qgeb total 60 || Qgeb total 40 && Qltb (cloud_cover weather) 30
            then _ else _).
  set (M := if Qgeb total 50 then _ else _).
  replace ("moon" =? "planets")%string with false by reflexivity.
  cbv iota.
  rewrite !(if_push (dict_set [("planets"%string, P); ("moon"%string, M)]
                              "deep_sky")).
  cbn [dict_set].
  replace ("deep_sky" =? "planets")%string with false by reflexivity.
  replace ("deep_sky" =? "moon")%string with false by reflexivity.
  cbv iota.
  set (D := if Qgeb eff 70 then _ else _).
  rewrite !(if_push (dict_set [("planets"%string, P); ("moon"%string, M);
                               ("deep_sky"%string, D)] "imaging")).
  cbn [dict_set].
  replace ("imaging" =? "planets")%string with false by reflexivity.
  replace ("imaging" =? "moon")%string with false by reflexivity.
  replace ("imaging" =? "deep_sky")%string with false by reflexivity.
  cbv iota.
  set (I := if Qgeb total 80 && Qltb (wind_speed_10m weather) 3 then _ else _).
  cbn [dict_keys map fst dict_get].
  replace ("imaging" =? "planets")%string with false by reflexivity.
  replace ("imaging" =? "moon")%string with false by reflexivity.
  replace ("imaging" =? "deep_sky")%string with false by reflexivity.
  replace ("imaging" =? "imaging")%string with true by reflexivity.
  replace ("moon" =? "planets")%string with false by reflexivity.
  replace ("moon" =? "moon")%string with true by reflexivity.
  replace ("planets" =? "planets")%string with true by reflexivity.
  cbv iota.
  assert (HI50 : I <> "Not recommended"%string -> 50 <= total).
  { subst I. repeat (qtest; cbn [andb]); intros H; try lra; congruence. }
  assert (HI80 : I = "Excellent"%string -> 80 <= total).
  { subst I. repeat (qtest; cbn [andb]); intros H; try lra; discriminate H. }
  assert (HM : 50 <= total -> M = "Excellent"%string).
  { subst M. intros H. repeat qtest; try reflexivity; exfalso; lra. }
  assert (HP30 : 30 <= total -> P <> "Poor"%string).
  { subst P. intros H. repeat (qtest; cbn [andb orb]); try discriminate;
      exfalso; lra. }
  assert (HP80 : 80 <= total -> P = "Excellent"%string).
  { subst P. intros H. repeat (qtest; cbn [andb orb]); try reflexivity;
      exfalso; lra. }
  split; [reflexivity |]. split.
  - intros H. assert (H50 : 50 <= total) by (apply HI50; congruence).
    split; [rewrite HM by exact H50; reflexivity |].
    intros [= HPoor]. apply (HP30 ltac:(lra)). exact HPoor.
  - intros [= HE]. rewrite HP80 by (apply HI80; exact HE). reflexivity.
Qed.

Lemma best_targets_consistent_witness :
  dict_get "imaging" (get_best_targets (sf_score (night_forecast 0 90)) sample_weather)
  = Some "Excellent"%string /\
  dict_get "planets" (get_best_targets (sf_score (night_forecast 0 90)) sample_weather)
  = Some "Excellent"%string.
Proof.
  assert (H : dict_get "imaging"
                (get_best_targets (sf_score (night_forecast 0 90)) sample_weather)
              = Some "Excellent"%string) by reflexivity.
  split; [exact H |].
  exact (proj2 (proj2 (best_targets_consistent _ sample_weather)) H).
Defined.

(** ** Windows of the generic search *)

Lemma list_max_spec x xs :
  In (list_max x xs) (x :: xs) /\
  (forall y, In y (x :: xs) -> y <= list_max x xs).
Proof.
  unfold list_max. revert x.
  induction xs as [| z xs IH]; intros x; cbn [fold_left].
  - split; [left; reflexivity |]. intros y [<- | []]. lra.
  - destruct (IH (py_max x z)) as [Hin Hub]. split.
    + destruct Hin as [Heq | Hin]; [| right; right; exact Hin].
      rewrite <- Heq. unfold py_max. destruct (Qgtb z x); [right; left | left];
        reflexivity.
    + intros y Hy.
      assert (Hm : x <= py_max x z /\ z <= py_max x z).
      { unfold py_max. qtest; lra. }
      destruct Hy as [<- | [<- | Hy]].
      * apply Qle_trans with (py_max x z); [apply Hm | apply Hub; left; reflexivity].
      * apply Qle_trans with (py_max x z); [apply Hm | apply Hub; left; reflexivity].
      * apply Hub. right. exact Hy.
Qed.

Lemma first_with_found peak fs dflt :
  (exists f, In f fs /\ forecast_total f = peak) ->
  exists f, In f fs /\ sf_timestamp f = first_with peak fs dflt
            /\ forecast_total f == peak.
Proof.
  induction fs as [| g rest IH]; intros [f [Hin Hf]]; [contradiction |].
  cbn [first_with]. fold (forecast_total g).
  destruct (Qeq_bool (forecast_total g) peak) eqn:E.
  - exists g. split; [left; reflexivity |]. split; [reflexivity |].
    apply Qeq_bool_iff. exact E.
  - destruct Hin as [<- | Hin].
    + rewrite Hf, Qeq_bool_refl in E. discriminate.
    + destruct IH as [h [Hh1 [Hh2 Hh3]]]; [exists f; split; assumption |].
      exists h. split; [right; exact Hh1 | split; assumption].
Qed.

Lemma py_sum_upper xs hi :
  Forall (fun x => x <= hi) xs ->
  py_sum xs <= inject_Z (Z.of_nat (List.length xs)) * hi.
Proof.
  induction 1 as [| x xs Hx Hxs IH].
  - unfold py_sum. cbn [fold_left List.length Z.of_nat].
    change (inject_Z 0) with 0. lra.
  - rewrite py_sum_cons. cbn [List.length].
    rewrite Nat2Z.inj_succ, <- Z.add_1_r, inject_Z_plus.
    change (inject_Z 1) with 1. lra.
Qed.

Lemma py_sum_lower xs lo :
  Forall (fun x => lo <= x) xs ->
  inject_Z (Z.of_nat (List.length xs)) * lo <= py_sum xs.
Proof.
  induction 1 as [| x xs Hx Hxs IH].
  - unfold py_sum. cbn [fold_left List.length Z.of_nat].
    change (inject_Z 0) with 0. lra.
  - rewrite py_sum_cons. cbn [List.length].
    rewrite Nat2Z.inj_succ, <- Z.add_1_r, inject_Z_plus.
    change (inject_Z 1) with 1. lra.
Qed.

Lemma length_positive {A : Type} (xs : list A) :
  xs <> [] -> 0 < inject_Z (Z.of_nat (List.length xs)).
Proof.
  intros Hne. destruct xs; [congruence |].
  change 0 with (inject_Z 0). rewrite <- Zlt_Qlt. cbn [List.length]. lia.
Qed.

Lemma mean_defined xs :
  xs <> [] ->
  mean xs = Ok (py_sum xs / inject_Z (Z.of_nat (List.length xs))).
Proof. intros Hne. destruct xs; [congruence | reflexivity]. Qed.

Lemma average_upper xs hi :
  xs <> [] -> Forall (fun x => x <= hi) xs ->
  py_sum xs / inject_Z (Z.of_nat (List.length xs)) <= hi.
Proof.
  intros Hne Hall. assert (H := py_sum_upper xs hi Hall).
  apply Qle_shift_div_r; [apply length_positive; exact Hne | lra].
Qed.

Lemma average_lower xs lo :
  xs <> [] -> Forall (fun x => lo <= x) xs ->
  lo <= py_sum xs / inject_Z (Z.of_nat (List.length xs)).
Proof.
  intros Hne Hall. assert (H := py_sum_lower xs lo Hall).
  apply Qle_shift_div_l; [apply length_positive; exact Hne | lra].
Qed.

Lemma last_default {A : Type} (c : list A) (d d' : A) :
  c <> [] -> last c d = last c d'.
Proof.
  induction c as [| a c IH]; intros Hne; [congruence |].
  destruct c as [| b c']; [reflexivity |].
  cbn [last]. cbn [last] in IH. apply IH. discriminate.
Qed.

Lemma create_window_facts fs w :
  _create_window fs = Ok w ->
  fs <> [] /\
  ow_forecasts w = fs /\
  (forall d, ow_start w = sf_timestamp (hd d fs)) /\
  (forall d, ow_end w = sf_timestamp (last fs d)) /\
  (forall f, In f fs -> forecast_total f <= ow_peak_score w) /\
  (exists f, In f fs /\ sf_timestamp f = ow_peak_time w
             /\ forecast_total f == ow_peak_score w) /\
  ow_average_score w <= ow_peak_score w /\
  (forall lo, (forall f, In f fs -> lo <= forecast_total f) ->
              lo <= ow_average_score w).
Proof.
  destruct fs as [| f0 rest]; [discriminate |].
  unfold _create_window. cbn [map mean bind tl].
  fold (forecast_total f0).
  change (map (fun f => total_score (sf_score f)) rest) with (map forecast_total rest).
  intros [= <-]. cbn [ow_forecasts ow_start ow_end ow_peak_score ow_peak_time
                      ow_average_score hd].
  destruct (list_max_spec (forecast_total f0) (map forecast_total rest))
    as [Hin Hub].
  set (peak := list_max (forecast_total f0) (map forecast_total rest)) in *.
  change (forecast_total f0 :: map forecast_total rest)
    with (map forecast_total (f0 :: rest)) in *.
  assert (Hle : forall f, In f (f0 :: rest) -> forecast_total f <= peak).
  { intros f Hf. apply Hub. apply in_map. exact Hf. }
  split; [discriminate |]. split; [reflexivity |].
  split; [reflexivity |].
  split.
  { intros d. f_equal. change (last (f0 :: rest) f0 = last (f0 :: rest) d).
    apply last_default. discriminate. }
  split; [exact Hle |].
  split.
  { apply in_map_iff in Hin. destruct Hin as [f [Hf1 Hf2]].
    apply (first_with_found peak (f0 :: rest) (sf_timestamp f0)).
    exists f. split; assumption. }
  split.
  - apply average_upper; [discriminate |].
    apply Forall_forall. intros x Hx. apply in_map_iff in Hx.
    destruct Hx as [f [<- Hf]]. apply Hle. exact Hf.
  - intros lo Hlo. apply average_lower; [discriminate |].
    apply Forall_forall. intros x Hx. apply in_map_iff in Hx.
    destruct Hx as [f [<- Hf]]. apply Hlo. exact Hf.
Qed.


(** X20: [_create_window] raises [StatisticsError] on an empty list.  On a
    non-empty one it returns a window that keeps the forecasts, starts
    at the first and ends at the last timestamp, whose peak is the
    largest member score, reached at the peak time by a member, and
    whose average lies between every lower bound of the member scores
    and the peak. *)
Theorem create_window_invariants fs :
  (fs = [] -> _create_window fs = Raise StatisticsError) /\
  (fs <> [] ->
   exists w,
     _create_window fs = Ok w /\
     ow_forecasts w = fs /\
     (forall d, ow_start w = sf_timestamp (hd d fs)) /\
     (forall d, ow_end w = sf_timestamp (last fs d)) /\
     (forall f, In f fs -> forecast_total f <= ow_peak_score w) /\
     (exists f, In f fs /\ sf_timestamp f = ow_peak_time w
                /\ forecast_total f == ow_peak_score w) /\
     ow_average_score w <= ow_peak_score w /\
     (forall lo, (forall f, In f fs -> lo <= forecast_total f) ->
                 lo <= ow_average_score w)).
Proof.
  split; [intros ->; reflexivity |].
  intros Hne. destruct (create_window_defined fs Hne) as [w [Hw _]].
  exists w. split; [exact Hw |].
  apply (create_window_facts fs w Hw).
Qed.

Lemma create_window_invariants_witness :
  good_night <> [] /\
  exists w,
    _create_window good_night = Ok w /\
    ow_forecasts w = good_night /\
    ow_average_score w <= ow_peak_score w.
Proof.
  assert (H : good_night <> []) by discriminate.
  split; [exact H |].
  destruct (proj2 (create_window_invariants good_night) H)
    as [w [H1 [H2 [_ [_ [_ [_ [H3 _]]]]]]]].
  exists w. split; [exact H1 |]. split; [exact H2 | exact H3].
Defined.

(** Every window the search collects was built by [_create_window]
    from its own forecasts. *)
Lemma contiguous_loop_created min_hours fs :
  forall windows current ws,
    Forall (fun w => _create_window (ow_forecasts w) = Ok w) windows ->
    (st <- contiguous_loop min_hours fs windows current ;;
     close_last_window min_hours st) = Ok ws ->
    Forall (fun w => _create_window (ow_forecasts w) = Ok w) ws.
Proof.
  assert (Hadd : forall windows current w,
            Forall (fun w => _create_window (ow_forecasts w) = Ok w) windows ->
            _create_window current = Ok w ->
            Forall (fun w => _create_window (ow_forecasts w) = Ok w) (windows ++ [w])).
  { intros windows current w Hall Hw. apply Forall_app. split; [exact Hall |].
    constructor; [| constructor].
    destruct (create_window_facts current w Hw) as [_ [-> _]]. exact Hw. }
  induction fs as [| f rest IH]; intros windows current ws Hall.
  - cbn [contiguous_loop bind close_last_window].
    destruct (Z.of_nat (List.length current) >=? min_hours)%Z.
    + destruct (_create_window current) as [w | e] eqn:Hw; cbn [bind];
        [| discriminate].
      intros [= <-]. apply (Hadd _ current); assumption.
    + intros [= <-]. exact Hall.
  - cbn [contiguous_loop]. destruct current as [| c0 cs].
    + apply IH. exact Hall.
    + destruct (sf_timestamp f - sf_timestamp (last (c0 :: cs) c0) <=? two_hours)%Z;
        [apply IH; exact Hall |].
      destruct (Z.of_nat (List.length (c0 :: cs)) >=? min_hours)%Z;
        [| apply IH; exact Hall].
      destruct (_create_window (c0 :: cs)) as [w | e] eqn:Hw; cbn [bind];
        [| discriminate].
      apply IH. apply (Hadd _ (c0 :: cs)); assumption.
Qed.

Lemma find_contiguous_windows_created fs min_hours ws :
  _find_contiguous_windows fs min_hours = Ok ws ->
  Forall (fun w => _create_window (ow_forecasts w) = Ok w) ws.
Proof.
  unfold _find_contiguous_windows. destruct fs as [| f rest].
  - intros [= <-]. constructor.
  - apply contiguous_loop_created. constructor.
Qed.

Lemma best_of_spec w0 ws :
  In (best_of w0 ws) (w0 :: ws) /\
  (forall w, In w (w0 :: ws) ->
             ow_average_score w <= ow_average_score (best_of w0 ws)).
Proof.
  unfold best_of. revert w0.
  induction ws as [| w1 ws IH]; intros w0; cbn [fold_left].
  - split; [left; reflexivity |]. intros w [<- | []]. lra.
  - set (b := if Qgtb (ow_average_score w1) (ow_average_score w0) then w1 else w0).
    destruct (IH b) as [Hin Hub].
    assert (Hb : In b [w0; w1] /\ ow_average_score w0 <= ow_average_score b
                 /\ ow_average_score w1 <= ow_average_score b).
    { unfold b. qtest; (split; [cbn; tauto | lra]). }
    destruct Hb as [Hb [H0 H1]]. split.
    + destruct Hin as [<- | Hin]; [| right; right; exact Hin].
      destruct Hb as [<- | [<- | []]]; [left | right; left]; reflexivity.
    + intros w [<- | [<- | Hw]].
      * apply Qle_trans with (ow_average_score b);
          [exact H0 | apply Hub; left; reflexivity].
      * apply Qle_trans with (ow_average_score b);
          [exact H1 | apply Hub; left; reflexivity].
      * apply Hub. right. exact Hw.
Qed.

Lemma in_runs_by {A : Type} (linked : A -> A -> bool) (xs r : list A) :
  In r (runs_by linked xs) ->
  r <> [] /\ chain linked r = true /\ (forall x, In x r -> In x xs)
  /\ (List.length r <= List.length xs)%nat.
Proof.
  intros Hin.
  assert (Hch := runs_by_chains linked xs).
  rewrite Forall_forall in Hch. destruct (Hch r Hin) as [Hne Hc].
  assert (Hcat := concat_runs_by linked xs).
  split; [exact Hne |]. split; [exact Hc |].
  revert Hin Hcat. generalize (runs_by linked xs). intros rs Hin Hcat.
  subst xs. clear Hch. induction rs as [| r0 rs IH]; [contradiction |].
  cbn [List.concat]. destruct Hin as [-> | Hin].
  - split; [intros x Hx; apply in_or_app; left; exact Hx |].
    rewrite length_app. lia.
  - destruct (IH Hin) as [H1 H2].
    split; [intros x Hx; apply in_or_app; right; apply H1; exact Hx |].
    rewrite length_app. lia.
Qed.

Lemma find_best_window_cases fs min_score min_duration_hours :
  fs <> [] ->
  (Z.of_nat (List.length (suitable_samples min_score fs)) <? min_duration_hours)%Z
  = false ->
  exists ws,
    _find_contiguous_windows (suitable_samples min_score fs) min_duration_hours
    = Ok ws /\
    map ow_forecasts ws
    = filter (long_enough min_duration_hours)
             (gap_runs (suitable_samples min_score fs)) /\
    find_best_window fs min_score min_duration_hours
    = Ok match ws with
         | [] => None
         | w0 :: rest => Some (best_of w0 rest)
         end.
Proof.
  intros Hne Hlen.
  destruct (find_contiguous_windows_runs (suitable_samples min_score fs)
              min_duration_hours) as [ws [Hws Hmap]].
  exists ws. split; [exact Hws |]. split; [exact Hmap |].
  unfold find_best_window. destruct fs as [| f rest]; [congruence |].
  fold (suitable_samples min_score (f :: rest)).
  rewrite Hlen, Hws. cbn [bind]. destruct ws; reflexivity.
Qed.

(** X21: A window returned by [find_best_window] consists of forecasts of
    the sequence that are all night-time with a score of at least
    [min_score]; it has at least [min_duration_hours] members, each no
    more than two hours after the one before; and its average score is
    at least [min_score] and at most its peak. *)
Theorem best_window_sound fs min_score min_duration_hours w :
  find_best_window fs min_score min_duration_hours = Ok (Some w) ->
  ow_forecasts w <> [] /\
  (forall f, In f (ow_forecasts w) ->
     In f fs /\ sf_is_night f = true /\ min_score <= forecast_total f) /\
  (min_duration_hours <= Z.of_nat (List.length (ow_forecasts w)))%Z /\
  chain within_two_hours (ow_forecasts w) = true /\
  min_score <= ow_average_score w /\
  ow_average_score w <= ow_peak_score w.
Proof.
  intros Hbest.
  destruct fs as [| f0 rest0] eqn:Efs; [discriminate |]. rewrite <- Efs in *.
  assert (Hne : fs <> []) by (rewrite Efs; discriminate).
  destruct (Z.of_nat (List.length (suitable_samples min_score fs))
            <? min_duration_hours)%Z eqn:Hlen.
  { unfold find_best_window in Hbest. rewrite Efs in Hbest.
    rewrite <- Efs in Hbest. fold (suitable_samples min_score fs) in Hbest.
    rewrite Hlen in Hbest. discriminate. }
  destruct (find_best_window_cases fs min_score min_duration_hours Hne Hlen)
    as [ws [Hws [Hmap Hres]]].
  rewrite Hres in Hbest. destruct ws as [| w0 ws']; [discriminate |].
  injection Hbest as <-.
  destruct (best_of_spec w0 ws') as [Hin _].
  set (w := best_of w0 ws') in *.
  assert (Hcreated := find_contiguous_windows_created _ _ _ Hws).
  rewrite Forall_forall in Hcreated. specialize (Hcreated w Hin).
  destruct (create_window_facts _ w Hcreated)
    as [Hwne [_ [_ [_ [_ [_ [Havg Hlow]]]]]]].
  assert (Hrun : In (ow_forecasts w)
                    (filter (long_enough min_duration_hours)
                            (gap_runs (suitable_samples min_score fs)))).
  { rewrite <- Hmap. apply in_map. exact Hin. }
  apply filter_In in Hrun. destruct Hrun as [Hrun Hlong].
  destruct (in_runs_by _ _ _ Hrun) as [_ [Hchain [Hmem _]]].
  assert (Hsuit : forall f, In f (ow_forecasts w) ->
            In f fs /\ sf_is_night f = true /\ min_score <= forecast_total f).
  { intros f Hf. apply Hmem in Hf. unfold suitable_samples in Hf.
    apply filter_In in Hf. destruct Hf as [Hf Hb].
    apply andb_prop in Hb. destruct Hb as [Hn Hs].
    apply Qgeb_true in Hs. split; [exact Hf |]. split; assumption. }
  split; [exact Hwne |]. split; [exact Hsuit |].
  split; [unfold long_enough in Hlong; lia |].
  split; [exact Hchain |].
  split; [| exact Havg].
  apply Hlow. intros f Hf. apply Hsuit. exact Hf.
Qed.

Lemma best_window_sound_witness :
  exists w,
    find_best_window good_night 50 2 = Ok (Some w) /\
    ow_forecasts w <> [] /\
    (2 <= Z.of_nat (List.length (ow_forecasts w)))%Z /\
    50 <= ow_average_score w.
Proof.
  destruct (find_best_window good_night 50 2) as [[w |] | e] eqn:E;
    [| exfalso; vm_compute in E; discriminate E
     | exfalso; vm_compute in E; discriminate E].
  exists w. split; [reflexivity |].
  destruct (best_window_sound good_night 50 2 w E) as [H1 [_ [H2 [_ [H3 _]]]]].
  split; [exact H1 |]. split; [exact H2 | exact H3].
Defined.

(** X22: [find_best_window] never raises.  It returns no window exactly when
    the suitable samples have no run with at least [min_duration_hours]
    members; otherwise it returns the first of the emitted windows whose
    average no emitted window exceeds. *)
Theorem best_window_complete fs min_score min_duration_hours :
  exists ws result,
    _find_contiguous_windows (suitable_samples min_score fs) min_duration_hours
    = Ok ws /\
    find_best_window fs min_score min_duration_hours = Ok result /\
    (result = None <->
     filter (long_enough min_duration_hours)
            (gap_runs (suitable_samples min_score fs)) = []) /\
    (forall w, result = Some w ->
       In w ws /\
       forall w', In w' ws -> ow_average_score w' <= ow_average_score w).
Proof.
  destruct (find_contiguous_windows_runs (suitable_samples min_score fs)
              min_duration_hours) as [ws [Hws Hmap]].
  exists ws.
  destruct fs as [| f0 rest0] eqn:Efs.
  { exists None. split; [exact Hws |]. split; [reflexivity |].
    split; [split; reflexivity | discriminate]. }
  rewrite <- Efs in *.
  assert (Hne : fs <> []) by (rewrite Efs; discriminate).
  destruct (Z.of_nat (List.length (suitable_samples min_score fs))
            <? min_duration_hours)%Z eqn:Hlen.
  - exists None. split; [exact Hws |]. split.
    + unfold find_best_window. rewrite Efs. rewrite <- Efs.
      fold (suitable_samples min_score fs). rewrite Hlen. reflexivity.
    + split; [| discriminate]. split; [intros _ | reflexivity].
      apply Z.ltb_lt in Hlen.
      destruct (filter (long_enough min_duration_hours)
                       (gap_runs (suitable_samples min_score fs)))
        as [| r rs] eqn:Ef; [reflexivity |].
      assert (Hin : In r (filter (long_enough min_duration_hours)
                            (gap_runs (suitable_samples min_score fs))))
        by (rewrite Ef; left; reflexivity).
      apply filter_In in Hin. destruct Hin as [Hin Hlong].
      destruct (in_runs_by _ _ _ Hin) as [_ [_ [_ Hle]]].
      unfold long_enough in Hlong. lia.
  - destruct (find_best_window_cases fs min_score min_duration_hours Hne Hlen)
      as [ws' [Hws' [_ Hres]]].
    rewrite Hws in Hws'. injection Hws' as <-.
    eexists. split; [exact Hws |]. split; [exact Hres |].
    rewrite <- Hmap. destruct ws as [| w0 ws0].
    + split; [split; reflexivity | discriminate].
    + split; [split; discriminate |].
      intros w [= <-]. apply best_of_spec.
Qed.

Lemma best_window_complete_witness :
  exists ws result w,
    find_best_window good_night 50 2 = Ok result /\
    result = Some w /\
    In w ws /\
    forall w', In w' ws -> ow_average_score w' <= ow_average_score w.
Proof.
  destruct (best_window_complete good_night 50 2) as [ws [result [_ [Hr [_ Hbest]]]]].
  destruct result as [w |];
    [| exfalso; vm_compute in Hr; discriminate Hr].
  exists ws, (Some w), w. split; [exact Hr |]. split; [reflexivity |].
  exact (Hbest w eq_refl).
Defined.

Lemma hourly_last_time ts t0 d :
  hourly (t0 :: ts) ->
  last (t0 :: ts) d = (t0 + 3600 * Z.of_nat (List.length ts))%Z.
Proof.
  revert t0. induction ts as [| t1 ts IH]; intros t0 Hh.
  - cbn. lia.
  - cbn [hourly] in Hh. destruct Hh as [H1 Hh].
    change (last (t0 :: t1 :: ts) d) with (last (t1 :: ts) d).
    rewrite IH by exact Hh. rewrite H1. cbn [List.length]. lia.
Qed.

Lemma map_last {A B : Type} (f : A -> B) (l : list A) (d : A) :
  last (map f l) (f d) = f (last l d).
Proof.
  induction l as [| a l IH]; [reflexivity |].
  destruct l as [| b l']; [reflexivity |].
  cbn [map last]. cbn [map last] in IH. exact IH.
Qed.

(** X23: The duration that a window reports is the time from its first to
    its last forecast: for forecasts at hourly cadence, one hour less
    than their number, so a window of a single forecast reports 0
    hours. *)
Theorem window_duration_hourly fs w :
  _create_window fs = Ok w ->
  hourly (map sf_timestamp fs) ->
  ow_duration_hours w == inject_Z (Z.of_nat (List.length fs)) - 1.
Proof.
  intros Hw Hh.
  destruct (create_window_facts fs w Hw) as [Hne [_ [Hs [He _]]]].
  destruct fs as [| f0 rest]; [congruence |].
  unfold ow_duration_hours. rewrite (Hs f0), (He f0). cbn [hd].
  rewrite <- (map_last sf_timestamp).
  cbn [map] in *. rewrite (hourly_last_time _ _ _ Hh).
  rewrite length_map.
  replace (sf_timestamp f0 + 3600 * Z.of_nat (List.length rest) - sf_timestamp f0)%Z
    with (3600 * Z.of_nat (List.length rest))%Z by lia.
  cbn [List.length]. rewrite Nat2Z.inj_succ, <- Z.add_1_r.
  rewrite inject_Z_mult, inject_Z_plus.
  change (inject_Z 3600) with 3600. change (inject_Z 1) with 1.
  field.
Qed.

Lemma window_duration_hourly_witness :
  exists w,
    _create_window [night_forecast 0 80] = Ok w /\
    hourly (map sf_timestamp [night_forecast 0 80]) /\
    ow_duration_hours w
    == inject_Z (Z.of_nat (List.length [night_forecast 0 80])) - 1.
Proof.
  destruct (_create_window [night_forecast 0 80]) as [w | e] eqn:E;
    [| exfalso; vm_compute in E; discriminate E].
  assert (Hh : hourly (map sf_timestamp [night_forecast 0 80])) by exact I.
  exists w. split; [reflexivity |]. split; [exact Hh |].
  exact (window_duration_hourly _ w E Hh).
Defined.

(** ** Windows of the per-target search *)

Lemma chain_weaken {A : Type} (l1 l2 : A -> A -> bool) (r : list A) :
  (forall a b, l1 a b = true -> l2 a b = true) ->
  chain l1 r = true -> chain l2 r = true.
Proof.
  intros Himp. induction r as [| a r IH]; [reflexivity |].
  destruct r as [| b r']; [reflexivity |].
  cbn [chain]. intros H. apply andb_prop in H. destruct H as [Hab Hr].
  rewrite (Himp _ _ Hab). cbn [andb]. apply IH. exact Hr.
Qed.

(** X24: Every window that [_find_altitude_windows] emits is non-empty, is
    made of entries of the input that are all suitable (night, altitude
    and score thresholds), each no more than two hours after the one
    before, and lasts at least [min_duration_hours]. *)
Theorem altitude_windows_sound vs min_altitude min_duration_hours min_score w :
  In w (_find_altitude_windows vs min_altitude min_duration_hours min_score) ->
  w <> [] /\
  (forall v, In v w -> In v vs /\ is_suitable min_altitude min_score v = true) /\
  chain (fun a b => (v_time b - v_time a <=? two_hours)%Z) w = true /\
  min_duration_hours <= _window_duration_hours w.
Proof.
  rewrite find_altitude_windows_runs. intros Hin.
  apply filter_In in Hin. destruct Hin as [Hin Hlast].
  unfold altitude_runs in Hin. apply filter_In in Hin.
  destruct Hin as [Hrun Hsuit].
  destruct (in_runs_by _ _ _ Hrun) as [Hne [Hchain [Hmem _]]].
  split; [exact Hne |]. split.
  - intros v Hv. split; [apply Hmem; exact Hv |].
    rewrite forallb_forall in Hsuit. apply Hsuit. exact Hv.
  - split.
    + apply (chain_weaken (suitable_link min_altitude min_score)); [| exact Hchain].
      intros a b Hab. unfold suitable_link in Hab.
      apply andb_prop in Hab. apply Hab.
    + unfold lasts_enough in Hlast. apply Qgeb_true in Hlast. exact Hlast.
Qed.

Lemma altitude_windows_sound_witness :
  In two_hourly_entries (_find_altitude_windows two_hourly_entries 30 1 40) /\
  two_hourly_entries <> [] /\
  1 <= _window_duration_hours two_hourly_entries.
Proof.
  assert (H : In two_hourly_entries (_find_altitude_windows two_hourly_entries 30 1 40))
    by (left; reflexivity).
  split; [exact H |].
  destruct (altitude_windows_sound _ _ _ _ _ H) as [H1 [_ [_ H2]]].
  split; [exact H1 | exact H2].
Defined.

(** ** Moon interference severity *)

(** X25: The severity is one of "none", "minor", "moderate" and "severe".  It
    is "none" whenever the average moon altitude is not positive, it
    never exceeds "minor" below 20 % illumination, and for a
    non-negative angular distance it is "severe" only with the moon
    above the horizon on average and at least 35 % illuminated. *)
Theorem interference_severity_spec illumination avg_altitude min_angular_distance :
  let severity :=
    _calculate_interference_severity illumination avg_altitude min_angular_distance in
  (severity = "none" \/ severity = "minor" \/ severity = "moderate"
   \/ severity = "severe")%string /\
  (avg_altitude <= 0 -> severity = "none"%string) /\
  (illumination < 20 -> severity = "none"%string \/ severity = "minor"%string) /\
  (0 <= min_angular_distance -> severity = "severe"%string ->
   0 < avg_altitude /\ 35 <= illumination).
Proof.
  cbv zeta. unfold _calculate_interference_severity.
  split; [| split; [| split]].
  - repeat qtest; tauto.
  - intros H. apply Qleb_true in H. rewrite H. reflexivity.
  - intros H. apply Qltb_true in H.
    destruct (Qleb avg_altitude 0); [left; reflexivity |].
    rewrite H. destruct (Qgtb min_angular_distance 30); tauto.
  - intros Hd.
    destruct (Qleb avg_altitude 0) eqn:Ea; [intros H; discriminate H |].
    apply Qleb_false in Ea.
    destruct (Qltb illumination 20) eqn:Ei.
    { destruct (Qgtb min_angular_distance 30); intros H; discriminate H. }
    apply Qltb_false in Ei. cbv zeta.
    set (af := py_min 1 (py_max 0 (avg_altitude / 45))).
    set (df := py_max 0 (1 - min_angular_distance / 90)).
    assert (Haf : 0 <= af <= 1).
    { unfold af. split; [apply py_min_lower; [lra | apply py_max_lower]
                        | apply py_min_upper]. }
    assert (Hdf : 0 <= df <= 1).
    { unfold df. split; [apply py_max_lower |].
      apply py_max_upper; [lra |].
      unfold Qdiv. change (/ 90) with (1 # 90). lra. }
    repeat qtest; intros H; try discriminate H.
    split; [exact Ea |].
    unfold Qdiv in *. change (/ 100) with (1 # 100) in *.
    assert (Hprod : af * (1 + df) <= 2) by nra.
    assert (Hpos : 0 <= af * (1 + df)) by nra.
    destruct (Qlt_le_dec illumination 35) as [Hlt | Hge]; [exfalso | exact Hge].
    match goal with
    | E : 0.7 <= ?s |- _ =>
        assert (Hs : s == illumination * (1 # 100) * (af * (1 + df))) by ring;
        rewrite Hs in E
    end.
    assert (Hp : 0 < af * (1 + df)).
    { destruct (Qlt_le_dec 0 (af * (1 + df))) as [Hp | Hp]; [exact Hp |].
      exfalso. assert (Hz : af * (1 + df) == 0) by lra.
      rewrite Hz in *. lra. }
    assert (H1 : 0 < (35 - illumination) * (af * (1 + df)))
      by (apply Qmult_lt_0_compat; lra).
    lra.
Qed.

Lemma interference_severity_spec_witness :
  -5 <= 0 /\ _calculate_interference_severity 100 (-5) 5 = "none"%string.
Proof.
  assert (H : -5 <= 0) by lra.
  split; [exact H |].
  exact (proj1 (proj2 (interference_severity_spec 100 (-5) 5)) H).
Defined.

(** ** Altitude profile *)

Lemma timedelta_minutes_in_range m :
  (- (datetime_max - datetime_min) <= m * 60 <= datetime_max - datetime_min)%Z ->
  timedelta_minutes m = inr (m * 60)%Z.
Proof.
  unfold timedelta_minutes, datetime_max, datetime_min, timedelta_max_days.
  cbv zeta. intros [Hlo Hhi].
  assert (H1 : (- 3652059 <= m * 60 / 86400)%Z)
    by (apply Z.div_le_lower_bound; lia).
  assert (H2 : (m * 60 / 86400 <= 3652059)%Z)
    by (apply Z.div_le_upper_bound; lia).
  repeat match goal with
         | |- context [(?a <? ?b)%Z] =>
             let E := fresh "E" in
             destruct (a <? b)%Z eqn:E; [apply Z.ltb_lt in E; lia |]
         end.
  reflexivity.
Qed.

Lemma timedelta_minutes_value m delta :
  timedelta_minutes m = inr delta -> delta = (m * 60)%Z.
Proof.
  unfold timedelta_minutes. cbv zeta.
  destruct (_ || _)%bool; [discriminate | congruence].
Qed.

Lemma datetime_add_in_range current delta :
  (datetime_min <= current + delta <= datetime_max)%Z ->
  datetime_add current delta = inr (current + delta)%Z.
Proof.
  unfold datetime_add. cbv zeta. intros [Hlo Hhi].
  replace (current + delta <? datetime_min)%Z with false
    by (symmetry; apply Z.ltb_ge; lia).
  replace (datetime_max <? current + delta)%Z with false
    by (symmetry; apply Z.ltb_ge; lia).
  reflexivity.
Qed.

Lemma datetime_add_out_of_range current delta :
  (current + delta < datetime_min \/ datetime_max < current + delta)%Z ->
  datetime_add current delta = inl OverflowError.
Proof.
  unfold datetime_add. cbv zeta. intros [H | H].
  - replace (current + delta <? datetime_min)%Z with true
      by (symmetry; apply Z.ltb_lt; lia).
    reflexivity.
  - replace (datetime_max <? current + delta)%Z with true
      by (symmetry; apply Z.ltb_lt; lia).
    rewrite orb_true_r. reflexivity.
Qed.

Lemma datetime_add_value current delta next :
  datetime_add current delta = inr next -> next = (current + delta)%Z.
Proof.
  unfold datetime_add. cbv zeta.
  destruct (_ || _)%bool; [discriminate | congruence].
Qed.

(** [k] rounds of the loop, none of which leaves the loop or raises. *)
Lemma altitude_profile_loop_rounds altitude_at end_time m delta :
  timedelta_minutes m = inr delta ->
  forall k current profile fuel,
    (forall i, (i < k)%nat ->
       (current + Z.of_nat i * delta <= end_time)%Z /\
       (datetime_min <= current + (Z.of_nat i + 1) * delta <= datetime_max)%Z) ->
    altitude_profile_loop (k + fuel) altitude_at current end_time m profile
    = altitude_profile_loop fuel altitude_at (current + Z.of_nat k * delta)%Z
        end_time m
        (profile ++
         map (fun i => let t := (current + Z.of_nat i * delta)%Z in
                       (t, altitude_at t))
             (seq 0 k)).
Proof.
  intros Hdelta. induction k as [| k IH]; intros current profile fuel Hin.
  - cbn [Nat.add seq map]. rewrite app_nil_r.
    replace (current + Z.of_nat 0 * delta)%Z with current by lia. reflexivity.
  - cbn [Nat.add altitude_profile_loop]. cbv zeta.
    destruct (Hin 0%nat ltac:(lia)) as [H0 H1].
    replace (current <=? end_time)%Z with true
      by (symmetry; apply Z.leb_le; lia).
    rewrite Hdelta, datetime_add_in_range by lia.
    rewrite IH.
    + replace (current + delta + Z.of_nat k * delta)%Z
        with (current + Z.of_nat (S k) * delta)%Z by lia.
      f_equal. rewrite <- app_assoc. f_equal.
      cbn [seq map app].
      replace (current + Z.of_nat 0 * delta)%Z with current by lia.
      f_equal. rewrite <- seq_shift, map_map.
      apply map_ext. intros i. cbv zeta.
      replace (current + delta + Z.of_nat i * delta)%Z
        with (current + Z.of_nat (S i) * delta)%Z by lia.
      reflexivity.
    + intros i Hi. destruct (Hin (S i) ltac:(lia)) as [Ha Hb].
      split; [| lia].
      replace (current + delta + Z.of_nat i * delta)%Z
        with (current + Z.of_nat (S i) * delta)%Z by lia.
      exact Ha.
Qed.

(** Going backwards, the loop never comes to its exit. *)
Lemma altitude_profile_loop_backwards altitude_at end_time m :
  (m < 0)%Z ->
  forall fuel current profile p,
    (current <= end_time)%Z ->
    altitude_profile_loop fuel altitude_at current end_time m profile
    <> Some (inr p).
Proof.
  intros Hm. induction fuel as [| fuel IH]; intros current profile p Hcur;
    [discriminate |].
  cbn [altitude_profile_loop]. cbv zeta.
  replace (current <=? end_time)%Z with true by (symmetry; apply Z.leb_le; lia).
  destruct (timedelta_minutes m) as [e | delta] eqn:Hd; [discriminate |].
  apply timedelta_minutes_value in Hd.
  destruct (datetime_add current delta) as [e | next] eqn:Ha; [discriminate |].
  apply datetime_add_value in Ha.
  apply IH. lia.
Qed.

(** X26: For a start and an end inside the range of [datetime].  An end
    before the start gives the empty profile.  With a positive interval
    and an end not before the start, the profile loop ends: it takes one
    sample every interval, the first at [start], the last not after
    [end_time], [(end_time - start) / interval + 1] samples in all, each
    the oracle's altitude at its time, and returns them, unless the time
    one interval after the last sample lies beyond [datetime.max]: then
    the last [current += timedelta(...)] raises [OverflowError].  With a
    negative interval and an end not before the start the loop samples
    backwards in time and returns no profile: it ends in the
    [OverflowError] of the step that leaves [datetime.min] behind. *)
Theorem altitude_profile_samples altitude_at start end_time interval_minutes :
  (datetime_min <= start <= datetime_max)%Z ->
  (datetime_min <= end_time <= datetime_max)%Z ->
  let step := (interval_minutes * 60)%Z in
  ((end_time < start)%Z ->
   forall fuel, (0 < fuel)%nat ->
     _calculate_altitude_profile fuel altitude_at start end_time interval_minutes
     = Some (inr [])) /\
  ((0 < interval_minutes)%Z -> (start <= end_time)%Z ->
   let count := Z.to_nat ((end_time - start) / step + 1) in
   forall fuel, (count < fuel)%nat ->
     _calculate_altitude_profile fuel altitude_at start end_time interval_minutes
     = if (start + Z.of_nat count * step <=? datetime_max)%Z
       then Some (inr (map (fun i => let t := (start + Z.of_nat i * step)%Z in
                                     (t, altitude_at t))
                           (seq 0 count)))
       else Some (inl OverflowError)) /\
  ((interval_minutes < 0)%Z -> (start <= end_time)%Z ->
   (forall fuel,
      (Z.to_nat ((start - datetime_min) / (- step)) < fuel)%nat ->
      _calculate_altitude_profile fuel altitude_at start end_time interval_minutes
      = Some (inl OverflowError)) /\
   (forall fuel p,
      _calculate_altitude_profile fuel altitude_at start end_time interval_minutes
      <> Some (inr p))).
Proof.
  intros Hstart Hend. cbv zeta. unfold _calculate_altitude_profile.
  set (step := (interval_minutes * 60)%Z).
  split; [| split].
  - intros Hlt fuel Hfuel. destruct fuel as [| fuel]; [lia |].
    cbn [altitude_profile_loop].
    replace (start <=? end_time)%Z with false by (symmetry; apply Z.leb_gt; lia).
    reflexivity.
  - intros Hpos Hle fuel Hfuel.
    assert (Hstep : (0 < step)%Z) by (unfold step; lia).
    set (q := ((end_time - start) / step)%Z) in *.
    assert (Hq : (0 <= q)%Z) by (apply Z.div_pos; lia).
    assert (Hdiv := Z.mul_div_le (end_time - start) step Hstep).
    assert (Hmod := Z.mul_succ_div_gt (end_time - start) step Hstep).
    fold q in Hdiv, Hmod.
    rewrite Z2Nat.id by lia.
    destruct (start + (q + 1) * step <=? datetime_max)%Z eqn:Hfit.
    + apply Z.leb_le in Hfit.
      assert (Hd : timedelta_minutes interval_minutes = inr step).
      { apply timedelta_minutes_in_range. fold step. nia. }
      replace fuel with (Z.to_nat (q + 1) + (fuel - Z.to_nat (q + 1)))%nat by lia.
      rewrite (altitude_profile_loop_rounds altitude_at end_time
                 interval_minutes step Hd).
      * destruct (fuel - Z.to_nat (q + 1))%nat as [| rest] eqn:Hrest; [lia |].
        cbn [altitude_profile_loop].
        replace (start + Z.of_nat (Z.to_nat (q + 1)) * step <=? end_time)%Z
          with false by (symmetry; apply Z.leb_gt; rewrite Z2Nat.id by lia; nia).
        reflexivity.
      * intros i Hi. assert (Hiq : (Z.of_nat i <= q)%Z) by lia. split; nia.
    + apply Z.leb_gt in Hfit.
      destruct (timedelta_minutes interval_minutes) as [e | delta] eqn:Hd.
      * destruct fuel as [| fuel]; [lia |]. cbn [altitude_profile_loop].
        replace (start <=? end_time)%Z with true
          by (symmetry; apply Z.leb_le; lia).
        rewrite Hd. destruct e. reflexivity.
      * assert (Hdv := timedelta_minutes_value _ _ Hd). fold step in Hdv.
        subst delta.
        replace fuel with (Z.to_nat q + (fuel - Z.to_nat q))%nat by lia.
        rewrite (altitude_profile_loop_rounds altitude_at end_time
                   interval_minutes step Hd).
        -- destruct (fuel - Z.to_nat q)%nat as [| rest] eqn:Hrest; [lia |].
           cbn [altitude_profile_loop]. cbv zeta.
           rewrite Z2Nat.id by lia.
           replace (start + q * step <=? end_time)%Z with true
             by (symmetry; apply Z.leb_le; nia).
           rewrite Hd, datetime_add_out_of_range by (right; nia).
           reflexivity.
        -- intros i Hi. assert (Hiq : (Z.of_nat i + 1 <= q)%Z) by lia.
           split; nia.
  - intros Hneg Hle. split.
    + intros fuel Hfuel.
      assert (Hstep : (0 < - step)%Z) by (unfold step; lia).
      set (k := ((start - datetime_min) / (- step))%Z) in *.
      assert (Hk : (0 <= k)%Z) by (apply Z.div_pos; lia).
      assert (Hdiv := Z.mul_div_le (start - datetime_min) (- step) Hstep).
      assert (Hmod := Z.mul_succ_div_gt (start - datetime_min) (- step) Hstep).
      fold k in Hdiv, Hmod.
      destruct (timedelta_minutes interval_minutes) as [e | delta] eqn:Hd.
      * destruct fuel as [| fuel]; [lia |]. cbn [altitude_profile_loop].
        replace (start <=? end_time)%Z with true
          by (symmetry; apply Z.leb_le; lia).
        rewrite Hd. destruct e. reflexivity.
      * assert (Hdv := timedelta_minutes_value _ _ Hd). fold step in Hdv.
        subst delta.
        replace fuel with (Z.to_nat k + (fuel - Z.to_nat k))%nat by lia.
        rewrite (altitude_profile_loop_rounds altitude_at end_time
                   interval_minutes step Hd).
        -- destruct (fuel - Z.to_nat k)%nat as [| rest] eqn:Hrest; [lia |].
           cbn [altitude_profile_loop]. cbv zeta.
           rewrite Z2Nat.id by lia.
           replace (start + k * step <=? end_time)%Z with true
             by (symmetry; apply Z.leb_le; nia).
           rewrite Hd, datetime_add_out_of_range by (left; nia).
           reflexivity.
        -- intros i Hi. assert (Hik : (Z.of_nat i + 1 <= k)%Z) by lia.
           split; nia.
    + intros fuel p. apply altitude_profile_loop_backwards; lia.
Qed.

Lemma altitude_profile_samples_witness :
  ((datetime_min <= 0 <= datetime_max)%Z /\
   (datetime_min <= 3600 <= datetime_max)%Z /\
   (0 < 15)%Z /\ (0 <= 3600)%Z /\
   _calculate_altitude_profile 10 (fun _ => 45) 0 3600 15
   = Some (inr [(0%Z, 45); (900%Z, 45); (1800%Z, 45); (2700%Z, 45); (3600%Z, 45)])) /\
  ((datetime_min <= datetime_min + 100 <= datetime_max)%Z /\
   (-1 < 0)%Z /\ (datetime_min + 100 <= datetime_min + 100)%Z /\
   _calculate_altitude_profile 5 (fun _ => 45)
     (datetime_min + 100) (datetime_min + 100) (-1)
   = Some (inl OverflowError)).
Proof.
  assert (H0 : (datetime_min <= 0 <= datetime_max)%Z)
    by (unfold datetime_min, datetime_max; lia).
  assert (H1 : (datetime_min <= 3600 <= datetime_max)%Z)
    by (unfold datetime_min, datetime_max; lia).
  assert (Hpos : (0 < 15)%Z) by lia.
  assert (Hle : (0 <= 3600)%Z) by lia.
  assert (H2 : (datetime_min <= datetime_min + 100 <= datetime_max)%Z)
    by (unfold datetime_min, datetime_max; lia).
  assert (Hneg : (-1 < 0)%Z) by lia.
  assert (Hle' : (datetime_min + 100 <= datetime_min + 100)%Z) by lia.
  split.
  - split; [exact H0 |]. split; [exact H1 |]. split; [exact Hpos |].
    split; [exact Hle |].
    apply (proj1 (proj2 (altitude_profile_samples (fun _ => 45) 0 3600 15 H0 H1))
             Hpos Hle 10%nat).
    cbn. lia.
  - split; [exact H2 |]. split; [exact Hneg |]. split; [exact Hle' |].
    apply (proj1 (proj2 (proj2 (altitude_profile_samples (fun _ => 45)
                                  (datetime_min + 100) (datetime_min + 100) (-1)
                                  H2 H2))
                   Hneg Hle') 5%nat).
    vm_compute. lia.
Defined.

(** ** Closest weather sample *)

Lemma closest_fold_spec target_time rest w0 :
  let closest :=
    fold_left
      (fun closest w =>
         if (time_distance target_time w <? time_distance target_time closest)%Z
         then w else closest)
      rest w0 in
  In closest (w0 :: rest) /\
  (forall w, In w (w0 :: rest) ->
             (time_distance target_time closest <= time_distance target_time w)%Z).
Proof.
  cbv zeta. revert w0.
  induction rest as [| w1 rest IH]; intros w0; cbn [fold_left].
  - split; [left; reflexivity |]. intros w [<- | []]. lia.
  - set (b := if (time_distance target_time w1 <? time_distance target_time w0)%Z
              then w1 else w0).
    destruct (IH b) as [Hin Hlb].
    assert (Hb : In b [w0; w1]
                 /\ (time_distance target_time b <= time_distance target_time w0)%Z
                 /\ (time_distance target_time b <= time_distance target_time w1)%Z).
    { unfold b.
      destruct (time_distance target_time w1 <? time_distance target_time w0)%Z
        eqn:E; [apply Z.ltb_lt in E | apply Z.ltb_ge in E];
        (split; [cbn; tauto | lia]). }
    destruct Hb as [Hb [H0 H1]]. split.
    + destruct Hin as [<- | Hin]; [| right; right; exact Hin].
      destruct Hb as [<- | [<- | []]]; [left | right; left]; reflexivity.
    + intros w [<- | [<- | Hw]].
      * specialize (Hlb b (or_introl eq_refl)). lia.
      * specialize (Hlb b (or_introl eq_refl)). lia.
      * apply Hlb. right. exact Hw.
Qed.

(** X27: [get_at_time] returns nothing exactly for an empty forecast;
    otherwise it returns a sample of the forecast whose timestamp is as
    close to the target time as that of any sample. *)
Theorem get_at_time_closest hourly target_time :
  (get_at_time hourly target_time = None <-> hourly = []) /\
  (forall w, get_at_time hourly target_time = Some w ->
     In w hourly /\
     forall w', In w' hourly ->
       (time_distance target_time w <= time_distance target_time w')%Z).
Proof.
  destruct hourly as [| w0 rest].
  - split; [split; reflexivity | discriminate].
  - split; [split; discriminate |].
    unfold get_at_time. intros w [= <-].
    apply (closest_fold_spec target_time rest w0).
Qed.

Lemma get_at_time_closest_witness :
  exists w,
    get_at_time [sample_weather; poor_weather] 100 = Some w /\ In w [sample_weather; poor_weather].
Proof.
  exists sample_weather.
  assert (H : get_at_time [sample_weather; poor_weather] 100 = Some sample_weather)
    by reflexivity.
  split; [exact H |].
  exact (proj1 (proj2 (get_at_time_closest [sample_weather; poor_weather] 100) _ H)).
Defined.

(** ** Gusts and wind shear *)

Lemma final_clamp_0_100_monotone x y : x <= y -> clamp x 0 100 <= clamp y 0 100.
Proof. apply final_clamp_monotone. Qed.

(** X28: Gusts and wind shear never improve the wind score: the score of a
    sample is at most the score of the same sample without gusts and
    without a wind at 80 m. *)
Theorem gusts_never_improve w :
  calculate_wind_stability_score w
  <= calculate_wind_stability_score (without_gusts w).
Proof.
  unfold calculate_wind_stability_score. cbv zeta.
  unfold wind_shear. cbn [without_gusts wind_speed_10m wind_gusts wind_speed_80m].
  set (base := wind_base_score (wind_speed_10m w)).
  assert (Hcalm : Qgtb (0 / py_max (wind_speed_10m w) 0.1) 2 = false).
  { apply Qgtb_false. unfold Qdiv. rewrite Qmult_0_l. lra. }
  rewrite Hcalm. apply final_clamp_0_100_monotone.
  set (ratio := wind_gusts w / py_max (wind_speed_10m w) 0.1).
  assert (H1 : (if Qgtb ratio 2
                then base - linear_interpolate ratio 2 4 0 30 else base) <= base).
  { qtest; [interp |]; lra. }
  set (s1 := if Qgtb ratio 2
             then base - linear_interpolate ratio 2 4 0 30 else base) in *.
  destruct (wind_speed_80m w) as [w80 |]; [| exact H1].
  set (shear := Qabs (w80 - wind_speed_10m w)).
  qtest; [interp |]; lra.
Qed.

(** ** Sorting best first *)

Section SortDesc.

Context {A : Type}.
Variable key : A -> Q.

(** [m] is the first entry of [pre ++ m :: post] with the largest key. *)
Definition first_largest (pre : list A) (m : A) (post : list A) : Prop :=
  (forall p, In p pre -> key p < key m) /\
  (forall q, In q post -> key q <= key m).

Lemma first_largest_unique pre1 m1 post1 pre2 m2 post2 :
  pre1 ++ m1 :: post1 = pre2 ++ m2 :: post2 ->
  first_largest pre1 m1 post1 -> first_largest pre2 m2 post2 ->
  pre1 = pre2 /\ m1 = m2 /\ post1 = post2.
Proof.
  revert pre2. induction pre1 as [| p pre1 IH]; intros pre2 Heq [H1a H1b] [H2a H2b].
  - destruct pre2 as [| p2 pre2]; cbn [app] in Heq.
    + assert (m1 = m2) by congruence. assert (post1 = post2) by congruence.
      subst. repeat split.
    + assert (m1 = p2) by congruence.
      assert (post1 = pre2 ++ m2 :: post2) by congruence. subst. exfalso.
      assert (Hlt : key p2 < key m2) by (apply H2a; left; reflexivity).
      assert (Hle : key m2 <= key p2)
        by (apply H1b; apply in_or_app; right; left; reflexivity).
      lra.
  - destruct pre2 as [| p2 pre2]; cbn [app] in Heq.
    + assert (p = m2) by congruence.
      assert (pre1 ++ m1 :: post1 = post2) by congruence. subst. exfalso.
      assert (Hlt : key m2 < key m1) by (apply H1a; left; reflexivity).
      assert (Hle : key m1 <= key m2)
        by (apply H2b; apply in_or_app; right; left; reflexivity).
      lra.
    + assert (Hh : p = p2) by congruence.
      assert (Ht : pre1 ++ m1 :: post1 = pre2 ++ m2 :: post2) by congruence.
      destruct (IH pre2 Ht) as [E1 [E2 E3]].
      * split; [intros q Hq; apply H1a; right; exact Hq | exact H1b].
      * split; [intros q Hq; apply H2a; right; exact Hq | exact H2b].
      * subst. repeat split.
Qed.

Lemma sort_desc_head l :
  l <> [] ->
  exists pre m post,
    l = pre ++ m :: post /\ first_largest pre m post /\
    hd_error (sort_desc key l) = Some m.
Proof.
  induction l as [| x l IH]; intros Hne; [congruence |].
  destruct l as [| y l'].
  - exists [], x, []. split; [reflexivity |].
    split; [split; intros ? [] | reflexivity].
  - destruct IH as [pre [m [post [Heq [[Ha Hb] Hhd]]]]]; [discriminate |].
    change (sort_desc key (x :: y :: l'))
      with (insert_desc key x (sort_desc key (y :: l'))).
    destruct (sort_desc key (y :: l')) as [| s0 sorted']; [discriminate |].
    cbn [hd_error] in Hhd. assert (s0 = m) by congruence. subst s0.
    cbn [insert_desc]. destruct (Qgtb (key m) (key x)) eqn:E.
    + apply Qgtb_true in E. exists (x :: pre), m, post.
      split; [rewrite Heq; reflexivity |]. split; [| reflexivity].
      split; [| exact Hb]. intros p [<- | Hp]; [exact E | apply Ha; exact Hp].
    + apply Qgtb_false in E. exists [], x, (y :: l').
      split; [reflexivity |]. split; [| reflexivity].
      split; [intros ? [] |]. intros q Hq. rewrite Heq in Hq.
      apply in_app_or in Hq. destruct Hq as [Hq | [<- | Hq]].
      * assert (H := Ha q Hq). lra.
      * exact E.
      * assert (H := Hb q Hq). lra.
Qed.

Lemma insert_desc_perm x l : Permutation (x :: l) (insert_desc key x l).
Proof.
  induction l as [| y l IH]; [apply Permutation_refl |].
  cbn [insert_desc]. destruct (Qgtb (key y) (key x)); [| apply Permutation_refl].
  apply Permutation_trans with (y :: x :: l); [apply perm_swap |].
  apply perm_skip. exact IH.
Qed.

Lemma sort_desc_perm l : Permutation l (sort_desc key l).
Proof.
  induction l as [| x l IH]; [apply Permutation_refl |].
  unfold sort_desc in *. cbn [fold_right].
  apply Permutation_trans with (x :: fold_right (insert_desc key) [] l);
    [apply perm_skip; exact IH | apply insert_desc_perm].
Qed.

Lemma insert_desc_sorted x l :
  Sorted (fun a b => key b <= key a) l ->
  Sorted (fun a b => key b <= key a) (insert_desc key x l).
Proof.
  induction 1 as [| y l Hs IH Hhd]; [repeat constructor |].
  cbn [insert_desc]. destruct (Qgtb (key y) (key x)) eqn:E.
  - apply Qgtb_true in E. constructor; [exact IH |].
    destruct l as [| z l']; cbn [insert_desc].
    + constructor. lra.
    + destruct (Qgtb (key z) (key x)); constructor; [| lra].
      inversion Hhd; subst. assumption.
  - apply Qgtb_false in E. constructor; [constructor; assumption |].
    constructor. exact E.
Qed.

Lemma sort_desc_sorted l : Sorted (fun a b => key b <= key a) (sort_desc key l).
Proof.
  induction l as [| x l IH]; [constructor |].
  unfold sort_desc in *. cbn [fold_right]. apply insert_desc_sorted. exact IH.
Qed.

End SortDesc.

(** ** Comparing locations *)

Section ComparisonProofs.

Variables Location SeeingReport : Type.
Variable report_total : SeeingReport -> Q.

Lemma best_index_from_spec rest :
  forall done pre mb post,
    done = pre ++ mb :: post ->
    first_largest report_total pre mb post ->
    exists pre' m' post',
      done ++ rest = pre' ++ m' :: post' /\
      first_largest report_total pre' m' post' /\
      best_index_from SeeingReport report_total rest (List.length done)
        (List.length pre) (report_total mb)
      = List.length pre'.
Proof.
  induction rest as [| r rest IH]; intros done pre mb post Hdone [Ha Hb].
  - exists pre, mb, post. rewrite app_nil_r.
    split; [exact Hdone |]. split; [split; assumption | reflexivity].
  - cbn [best_index_from].
    replace (done ++ r :: rest) with ((done ++ [r]) ++ rest)
      by (rewrite <- app_assoc; reflexivity).
    replace (S (List.length done)) with (List.length (done ++ [r]))
      by (rewrite length_app; cbn; lia).
    destruct (Qgtb (report_total r) (report_total mb)) eqn:E.
    + apply Qgtb_true in E. apply (IH (done ++ [r]) done r []).
      * reflexivity.
      * split; [| intros ? []]. intros p Hp. rewrite Hdone in Hp.
        apply in_app_or in Hp. destruct Hp as [Hp | [<- | Hp]].
        -- assert (H := Ha p Hp). lra.
        -- exact E.
        -- assert (H := Hb p Hp). lra.
    + apply Qgtb_false in E. apply (IH (done ++ [r]) pre mb (post ++ [r])).
      * rewrite Hdone, <- app_assoc. reflexivity.
      * split; [exact Ha |]. intros q Hq. apply in_app_or in Hq.
        destruct Hq as [Hq | [<- | []]]; [apply Hb; exact Hq | exact E].
Qed.

Lemma map_combine {A B : Type} (l : list A) (l' : list B) :
  List.length l = List.length l' ->
  map fst (combine l l') = l /\ map snd (combine l l') = l'.
Proof.
  revert l'. induction l as [| a l IH]; intros [| b l'] Hlen;
    cbn in *; try discriminate; [split; reflexivity |].
  destruct (IH l') as [H1 H2]; [lia |]. rewrite H1, H2. split; reflexivity.
Qed.

Lemma nth_error_middle {A : Type} (pre : list A) (m : A) (post : list A) :
  nth_error (pre ++ m :: post) (List.length pre) = Some m.
Proof. induction pre as [| p pre IH]; [reflexivity | exact IH]. Qed.

(** X29: [best_location] raises [ValueError] without reports.  With as many
    locations as reports, and at least one, it returns a pair whose
    score no report exceeds, and that pair is the first of [ranked]. *)
Theorem best_location_heads_ranking locations reports :
  best_location Location SeeingReport report_total locations [] = inl ValueError /\
  (List.length locations = List.length reports -> reports <> [] ->
   exists l r,
     best_location Location SeeingReport report_total locations reports
     = inr (l, r) /\
     hd_error (ranked Location SeeingReport report_total locations reports)
     = Some (l, r) /\
     In (l, r) (combine locations reports) /\
     forall r', In r' reports -> report_total r' <= report_total r).
Proof.
  split; [reflexivity |]. intros Hlen Hne.
  assert (Hcne : combine locations reports <> []).
  { destruct locations, reports; cbn in *; congruence. }
  destruct (sort_desc_head (fun p => report_total (snd p)) _ Hcne)
    as [cpre [[l r] [cpost [Hc [[Hca Hcb] Hhd]]]]].
  cbn [snd] in Hca, Hcb.
  assert (Hsnd : reports = map snd cpre ++ r :: map snd cpost).
  { rewrite <- (proj2 (map_combine locations reports Hlen)) at 1.
    rewrite Hc, map_app. reflexivity. }
  assert (Hfst : locations = map fst cpre ++ l :: map fst cpost).
  { rewrite <- (proj1 (map_combine locations reports Hlen)) at 1.
    rewrite Hc, map_app. reflexivity. }
  assert (Hfl : first_largest report_total (map snd cpre) r (map snd cpost)).
  { split; intros q Hq; apply in_map_iff in Hq; destruct Hq as [p [<- Hp]];
      [apply Hca | apply Hcb]; exact Hp. }
  exists l, r.
  assert (Hbest : best_location Location SeeingReport report_total locations reports
                  = inr (l, r)).
  { unfold best_location. destruct reports as [| r0 rest]; [congruence |].
    destruct (best_index_from_spec rest [r0] [] r0 [] eq_refl)
      as [pre' [m' [post' [Heq [Hfl' Hidx]]]]].
    { split; intros ? []. }
    cbn [List.length app] in Hidx, Heq. cbv zeta. rewrite Hidx.
    rewrite Hsnd in Heq.
    destruct (first_largest_unique report_total _ _ _ _ _ _ Heq Hfl Hfl')
      as [E1 [E2 E3]].
    subst pre' m' post'. rewrite Hsnd, nth_error_middle.
    rewrite Hfst. replace (List.length (map snd cpre))
      with (List.length (map fst cpre)) by (rewrite !length_map; reflexivity).
    rewrite nth_error_middle. reflexivity. }
  split; [exact Hbest |]. split; [exact Hhd |]. split.
  - rewrite Hc. apply in_or_app. right. left. reflexivity.
  - intros r' Hr'. rewrite Hsnd in Hr'. destruct Hfl as [Ha Hb].
    apply in_app_or in Hr'. destruct Hr' as [Hr' | [<- | Hr']].
    + assert (H := Ha r' Hr'). lra.
    + lra.
    + apply Hb. exact Hr'.
Qed.

End ComparisonProofs.

Lemma best_location_heads_ranking_witness :
  List.length ["north"; "south"]%string = List.length [40; 70] /\
  [40; 70] <> [] /\
  best_location string Q (fun q => q) ["north"; "south"]%string [40; 70]
  = inr ("south"%string, 70) /\
  hd_error (ranked string Q (fun q => q) ["north"; "south"]%string [40; 70])
  = Some ("south"%string, 70).
Proof.
  assert (H1 : List.length ["north"; "south"]%string = List.length [40; 70])
    by reflexivity.
  assert (H2 : [40; 70] <> []) by discriminate.
  split; [exact H1 |]. split; [exact H2 |].
  destruct (proj2 (best_location_heads_ranking string Q (fun q => q)
                     ["north"; "south"]%string [40; 70]) H1 H2)
    as [l [r [Hb [Hh _]]]].
  assert (E : best_location string Q (fun q => q) ["north"; "south"]%string [40; 70]
              = inr ("south"%string, 70)) by reflexivity.
  rewrite E in Hb. assert (El : "south"%string = l) by congruence.
  assert (Er : 70 = r) by congruence. subst l r.
  split; [exact E | exact Hh].
Defined.

(** ** Imaging windows, best first *)

Section ImagingProofs.

Variables CelestialObject Location TimelapseWindow : Type.
Variable catalog_search : string -> option CelestialObject.
Variable get_target_position : CelestialObject -> Location -> Z -> Q * Q.
Variable create :
  list VisEntry -> CelestialObject -> Location -> option TimelapseWindow.
Variable average : TimelapseWindow -> Q.

Lemma collect_windows_In target location windows tw :
  In tw (collect_windows CelestialObject Location TimelapseWindow create
           target location windows) ->
  exists run, In run windows /\ create run target location = Some tw.
Proof.
  induction windows as [| run rest IH]; cbn [collect_windows]; [contradiction |].
  destruct (create run target location) as [w |] eqn:E.
  - intros [<- | Hin].
    + exists run. split; [left; reflexivity | exact E].
    + destruct (IH Hin) as [run' [H1 H2]]. exists run'. split; [right |]; assumption.
  - intros Hin. destruct (IH Hin) as [run' [H1 H2]].
    exists run'. split; [right |]; assumption.
Qed.

(** X30: [find_imaging_windows] returns its windows best first: every window
    has an average score at least that of the next.  Without a catalog
    match it returns nothing, and each window it returns was built for
    the matched target from a non-empty run of suitable entries of the
    forecast. *)
Theorem imaging_windows_best_first target_name location forecasts
    duration_hours min_altitude target_date min_score :
  let result :=
    find_imaging_windows CelestialObject Location TimelapseWindow
      catalog_search get_target_position create average
      target_name location forecasts duration_hours min_altitude
      target_date min_score in
  Sorted (fun a b => average b <= average a) result /\
  (catalog_search target_name = None -> result = []) /\
  (forall tw, In tw result ->
     exists target run,
       catalog_search target_name = Some target /\
       create run target location = Some tw /\
       run <> [] /\
       forall v, In v run ->
         is_suitable min_altitude min_score v = true /\
         In (v_forecast v) forecasts).
Proof.
  cbv zeta. unfold find_imaging_windows.
  destruct (catalog_search target_name) as [target |];
    [| split; [constructor | split; [reflexivity | contradiction]]].
  destruct forecasts as [| f0 rest] eqn:Ef;
    [split; [constructor | split; [discriminate | contradiction]] |].
  rewrite <- Ef. clear Ef f0 rest.
  split; [apply sort_desc_sorted |]. split; [discriminate |].
  intros tw Hin.
  apply (Permutation_in _ (Permutation_sym (sort_desc_perm average _))) in Hin.
  apply collect_windows_In in Hin. destruct Hin as [run [Hrun Hcreate]].
  exists target, run. split; [reflexivity |]. split; [exact Hcreate |].
  rewrite find_altitude_windows_runs in Hrun.
  apply filter_In in Hrun. destruct Hrun as [Hrun _].
  unfold altitude_runs in Hrun. apply filter_In in Hrun.
  destruct Hrun as [Hrun Hsuit].
  destruct (in_runs_by _ _ _ Hrun) as [Hne [_ [Hmem _]]].
  split; [exact Hne |]. intros v Hv. split.
  - rewrite forallb_forall in Hsuit. apply Hsuit. exact Hv.
  - apply Hmem in Hv.
    assert (Hb : In v (build_visibility CelestialObject Location
                         get_target_position target location min_altitude
                         forecasts)).
    { destruct target_date as [d |]; [| exact Hv].
      apply filter_In in Hv. apply Hv. }
    unfold build_visibility in Hb. apply in_map_iff in Hb.
    destruct Hb as [f [<- Hf]]. exact Hf.
Qed.

End ImagingProofs.

Lemma imaging_windows_best_first_witness :
  (fun _ : string => @None unit) "M31"%string = None /\
  find_imaging_windows unit unit unit
    (fun _ => None) (fun _ _ _ => (45, 180)) (fun _ _ _ => Some tt) (fun _ => 0)
    "M31" tt good_night 1 30 None 40 = [].
Proof.
  assert (H : (fun _ : string => @None unit) "M31"%string = None) by reflexivity.
  split; [exact H |].
  exact (proj1 (proj2 (imaging_windows_best_first unit unit unit
                         (fun _ => None) (fun _ _ _ => (45, 180))
                         (fun _ _ _ => Some tt) (fun _ => 0)
                         "M31" tt good_night 1 30 None 40)) H).
Defined.
